(** * Exercise tracker: a shallow embedding of [server.js]

    The service is an Express application with four JSON routes over two
    Mongoose collections.  The handlers are short; most of what they do
    is delegated to JavaScript built-ins ([String.prototype.trim],
    [Number], [parseInt], [Date]) whose exact behaviour decides the
    corner cases.  The development therefore has three layers:

    - [JS] and [JSDate]: the fragment of ECMAScript the handlers rely on;
    - [Mongo]: the two collections and the queries the handlers issue;
    - [Server]: the four route handlers, written in a small
      state-and-exception monad that follows the [async]/[try]/[catch]
      structure of the source.

    Theorems about the handlers follow the definitions. *)

From Stdlib Require Import ZArith List Bool Lia String Ascii.
From Stdlib Require Import Sorted Permutation.
Import ListNotations.
Local Open Scope Z_scope.

(* ===================================================================== *)
(** * JavaScript values                                                    *)
(* ===================================================================== *)

Module JS.

(** ** Strings

    A JavaScript string is a sequence of UTF-16 code units. *)

Definition jsstring := list Z.

(** ASCII literals, for readable statements. *)
Definition js (s : string) : jsstring :=
  map (fun a => Z.of_N (N_of_ascii a)) (list_ascii_of_string s).

Fixpoint str_eqb (a b : jsstring) : bool :=
  match a, b with
  | [], [] => true
  | x :: a', y :: b' => (x =? y) && str_eqb a' b'
  | _, _ => false
  end.

(** [WhiteSpace] and [LineTerminator] code points, the characters removed
    by [trim] and skipped by [Number] and [parseInt]. *)
Definition is_white_space (c : Z) : bool :=
  ((9 <=? c) && (c <=? 13))        (* TAB LF VT FF CR *)
  || (c =? 32)                     (* SPACE *)
  || (c =? 160)                    (* NBSP *)
  || (c =? 5760)                   (* OGHAM SPACE MARK *)
  || ((8192 <=? c) && (c <=? 8202))(* EN QUAD .. HAIR SPACE *)
  || (c =? 8232) || (c =? 8233)    (* LS PS *)
  || (c =? 8239) || (c =? 8287)    (* NNBSP MMSP *)
  || (c =? 12288)                  (* IDEOGRAPHIC SPACE *)
  || (c =? 65279).                 (* ZWNBSP / BOM *)

Fixpoint trimStart (s : jsstring) : jsstring :=
  match s with
  | c :: s' => if is_white_space c then trimStart s' else s
  | [] => []
  end.

Definition trimEnd (s : jsstring) : jsstring := rev (trimStart (rev s)).

(** [String.prototype.trim]. *)
Definition trim (s : jsstring) : jsstring := trimEnd (trimStart s).

(** ** Numbers

    A Number is an IEEE 754 binary64 value.  A finite non-zero value is
    [(-1)^neg * m * 2^e]. *)

Inductive number :=
| NaN
| Infinity (neg : bool)
| Zero (neg : bool)
| Finite (neg : bool) (m : positive) (e : Z).

(** Nearest integer to [n / d], ties to even ([0 <= n], [0 < d]). *)
Definition round_half_even (n d : Z) : Z :=
  let q := n / d in
  match (2 * (n mod d)) ?= d with
  | Lt => q
  | Gt => q + 1
  | Eq => if Z.even q then q else q + 1
  end.

(** [floor (log2 (n / d))] for positive [n] and [d]. *)
Definition log2_ratio (n d : Z) : Z :=
  let k := Z.log2 n - Z.log2 d in
  if (if 0 <=? k then d * 2 ^ k <=? n else d <=? n * 2 ^ (- k))
  then k else k - 1.

(** The Number value for the rational [n / d] with sign [neg]: rounding
    to nearest, ties to even, with 53 bits of precision, gradual
    underflow below [2^-1022] and overflow to infinity. *)
Definition to_binary64 (neg : bool) (n d : Z) : number :=
  if n <=? 0 then Zero neg else
  let k := log2_ratio n d in
  let e := Z.max (k - 52) (-1074) in
  let m := if 0 <=? e then round_half_even n (d * 2 ^ e)
           else round_half_even (n * 2 ^ (- e)) d in
  let '(m, e) := if m =? 2 ^ 53 then (2 ^ 52, e + 1) else (m, e) in
  if m =? 0 then Zero neg
  else if 971 <? e then Infinity neg
  else Finite neg (Z.to_pos m) e.

Definition of_Z (z : Z) : number := to_binary64 (z <? 0) (Z.abs z) 1.

(** Comparison goes through the extended reals; [NaN] is unordered. *)
Inductive ext := MinusInf | Real (m e : Z) | PlusInf.

Definition ext_of (x : number) : option ext :=
  match x with
  | NaN => None
  | Infinity true => Some MinusInf
  | Infinity false => Some PlusInf
  | Zero _ => Some (Real 0 0)
  | Finite neg m e => Some (Real (if neg then Z.neg m else Z.pos m) e)
  end.

Definition ext_ltb (a b : ext) : bool :=
  match a, b with
  | MinusInf, MinusInf => false
  | MinusInf, _ => true
  | _, MinusInf => false
  | PlusInf, _ => false
  | _, PlusInf => true
  | Real m1 e1, Real m2 e2 =>
      let e := Z.min e1 e2 in
      m1 * 2 ^ (e1 - e) <? m2 * 2 ^ (e2 - e)
  end.

(** The [<] operator on Numbers. *)
Definition ltb (x y : number) : bool :=
  match ext_of x, ext_of y with
  | Some a, Some b => ext_ltb a b
  | _, _ => false
  end.

Definition isNaN (x : number) : bool :=
  match x with NaN => true | _ => false end.

(** [ToIntegerOrInfinity] on a finite value: truncation towards zero. *)
Definition truncate (neg : bool) (m : positive) (e : Z) : Z :=
  let a := if 0 <=? e then Z.pos m * 2 ^ e else Z.pos m / 2 ^ (- e) in
  if neg then - a else a.

(** ** Digits *)

Definition digit_of (radix : Z) (c : Z) : option Z :=
  let v := if (48 <=? c) && (c <=? 57) then c - 48          (* 0-9 *)
           else if (97 <=? c) && (c <=? 122) then c - 87     (* a-z *)
           else if (65 <=? c) && (c <=? 90) then c - 55      (* A-Z *)
           else radix in
  if v <? radix then Some v else None.

(** Longest prefix of digits in [radix]: its value (most significant
    digit first, continuing from [acc]), its length, and the rest. *)
Fixpoint span_digits (radix : Z) (s : jsstring) (acc : Z) (len : Z)
  : Z * Z * jsstring :=
  match s with
  | c :: s' =>
      match digit_of radix c with
      | Some v => span_digits radix s' (acc * radix + v) (len + 1)
      | None => (acc, len, s)
      end
  | [] => (acc, len, [])
  end.

Definition is_sign (c : Z) : bool := (c =? 43) || (c =? 45). (* + - *)

(** An optional sign: [true] for [-], and the remaining input. *)
Definition read_sign (s : jsstring) : bool * jsstring :=
  match s with
  | c :: s' => if is_sign c then (c =? 45, s') else (false, s)
  | [] => (false, [])
  end.

(** [ExponentPart] after its indicator: a signed, non-empty digit run. *)
Definition read_exponent (s : jsstring) : option (Z * jsstring) :=
  let '(neg, s1) := read_sign s in
  let '(v, len, rest) := span_digits 10 s1 0 0 in
  if len =? 0 then None else Some (if neg then - v else v, rest).

(** [StrUnsignedDecimalLiteral]: [Infinity], or digits with an optional
    fraction and exponent, at least one digit around the point, and
    nothing after. *)
Definition StrUnsignedDecimalLiteral (neg : bool) (s : jsstring) : number :=
  if str_eqb s (js "Infinity") then Infinity neg else
  let '(ip, il, s1) := span_digits 10 s 0 0 in
  let '(mant, fl, s2) :=
    match s1 with
    | 46 :: s1' => span_digits 10 s1' ip 0      (* . *)
    | _ => (ip, 0, s1)
    end in
  if il + fl =? 0 then NaN else
  let scaled (ex : Z) :=
    if 0 <=? ex - fl then to_binary64 neg (mant * 10 ^ (ex - fl)) 1
    else to_binary64 neg mant (10 ^ (fl - ex)) in
  match s2 with
  | [] => scaled 0
  | c :: s3 =>
      if (c =? 101) || (c =? 69) then                (* e E *)
        match read_exponent s3 with
        | Some (ex, []) => scaled ex
        | _ => NaN
        end
      else NaN
  end.

(** [NonDecimalIntegerLiteral]: [0x], [0o] or [0b] and digits; no sign. *)
Definition NonDecimalIntegerLiteral (s : jsstring) : option number :=
  match s with
  | 48 :: p :: ds =>
      let radix := if (p =? 120) || (p =? 88) then 16          (* x X *)
                   else if (p =? 111) || (p =? 79) then 8      (* o O *)
                   else if (p =? 98) || (p =? 66) then 2       (* b B *)
                   else 0 in
      if radix =? 0 then None else
      match span_digits radix ds 0 0 with
      | (v, len, []) => if len =? 0 then None else Some (to_binary64 false v 1)
      | _ => None
      end
  | _ => None
  end.

(** [StringToNumber]: surrounding white space is ignored, the empty
    string is [+0], anything that is not a numeric literal is [NaN]. *)
Definition StringToNumber (s : jsstring) : number :=
  match trim s with
  | [] => Zero false
  | t =>
      match NonDecimalIntegerLiteral t with
      | Some n => n
      | None => let '(neg, u) := read_sign t in StrUnsignedDecimalLiteral neg u
      end
  end.

(** [parseInt(string, 10)] on a string: leading white space, an optional
    sign, then the longest run of decimal digits; [NaN] when that run is
    empty. *)
Definition parseInt10 (input : jsstring) : number :=
  let '(neg, s1) := read_sign (trimStart input) in
  let '(v, len, _) := span_digits 10 s1 0 0 in
  if len =? 0 then NaN else to_binary64 neg v 1.

(** ** Errors and completions

    An Error object, as far as the handlers inspect it: [err.code] and
    the keys of [err.keyPattern]. *)

Record error := {
  err_name : jsstring;
  err_code : option Z;
  err_keyPattern : option (list jsstring)
}.

Definition TypeError : error :=
  {| err_name := js "TypeError"; err_code := None; err_keyPattern := None |}.

Inductive completion (A : Type) :=
| Normal (a : A)
| Throw (e : error).
Arguments Normal {A} a.
Arguments Throw {A} e.

(** ** Values

    What a parsed JSON or url-encoded body, or a parsed query string, can
    hold under a key.  An array or object is kept only through the string
    its [ToPrimitive] conversion yields ([None] when that conversion
    throws, as for [{"toString": 1}]); none of its properties is
    callable, since it came out of a parser. *)

Inductive value :=
| VUndefined
| VNull
| VBool (b : bool)
| VNum (n : number)
| VStr (s : jsstring)
| VObject (prim : option jsstring).

Definition ToBoolean (v : value) : bool :=
  match v with
  | VUndefined | VNull => false
  | VBool b => b
  | VNum NaN | VNum (Zero _) => false
  | VNum _ => true
  | VStr [] => false
  | VStr _ => true
  | VObject _ => true
  end.

(** [Number(v)]. *)
Definition Number (v : value) : completion number :=
  match v with
  | VUndefined => Normal NaN
  | VNull => Normal (Zero false)
  | VBool true => Normal (of_Z 1)
  | VBool false => Normal (Zero false)
  | VNum n => Normal n
  | VStr s => Normal (StringToNumber s)
  | VObject (Some s) => Normal (StringToNumber s)
  | VObject None => Throw TypeError
  end.

(** [v.trim()]: only a string has the method. *)
Definition call_trim (v : value) : completion jsstring :=
  match v with
  | VStr s => Normal (trim s)
  | _ => Throw TypeError
  end.

(** Values of [req.query]: the query-string parser produces strings,
    arrays and plain objects, never numbers, booleans or [null]. *)
Inductive qvalue :=
| QUndefined
| QStr (s : jsstring)
| QObject (str : jsstring).

Definition of_query (q : qvalue) : value :=
  match q with
  | QUndefined => VUndefined
  | QStr s => VStr s
  | QObject s => VObject (Some s)
  end.

(** [parseInt(q, 10)]: the argument is converted with [ToString] first. *)
Definition parseInt (q : qvalue) : number :=
  match q with
  | QUndefined => parseInt10 (js "undefined")
  | QStr s => parseInt10 s
  | QObject s => parseInt10 s
  end.

End JS.

(* ===================================================================== *)
(** * Dates                                                                *)
(* ===================================================================== *)

Module JSDate.
Import JS.

(** ** Time values

    A time value is a number of milliseconds since the epoch, in UTC;
    an invalid Date holds [NaN], here [None]. *)

Definition msPerDay : Z := 86400000.
Definition msPerHour : Z := 3600000.
Definition msPerMinute : Z := 60000.
Definition msPerSecond : Z := 1000.
Definition maxTime : Z := 8640000000000000.

Definition Day (t : Z) : Z := t / msPerDay.
Definition TimeWithinDay (t : Z) : Z := t mod msPerDay.

Definition DaysInYear (y : Z) : Z :=
  if negb (y mod 4 =? 0) then 365
  else if negb (y mod 100 =? 0) then 366
  else if negb (y mod 400 =? 0) then 365
  else 366.

Definition DayFromYear (y : Z) : Z :=
  365 * (y - 1970) + (y - 1969) / 4 - (y - 1901) / 100 + (y - 1601) / 400.

(** The year containing day number [d]: the largest [y] with
    [DayFromYear y <= d] (lemma [YearFromDay_spec]). *)
Definition YearFromDay (d : Z) : Z :=
  let y := 1970 + d * 400 / 146097 in
  if d <? DayFromYear y then y - 1
  else if DayFromYear (y + 1) <=? d then y + 1
  else y.

Definition YearFromTime (t : Z) : Z := YearFromDay (Day t).
Definition InLeapYear (t : Z) : Z :=
  if DaysInYear (YearFromTime t) =? 366 then 1 else 0.
Definition DayWithinYear (t : Z) : Z := Day t - DayFromYear (YearFromTime t).

(** Day number within the year of the first day of month [m] (0-11). *)
Definition month_start (leap : Z) (m : Z) : Z :=
  match m with
  | 0 => 0
  | 1 => 31
  | 2 => 59 + leap
  | 3 => 90 + leap
  | 4 => 120 + leap
  | 5 => 151 + leap
  | 6 => 181 + leap
  | 7 => 212 + leap
  | 8 => 243 + leap
  | 9 => 273 + leap
  | 10 => 304 + leap
  | _ => 334 + leap
  end.

Definition MonthFromTime (t : Z) : Z :=
  let d := DayWithinYear t in
  let leap := InLeapYear t in
  if d <? month_start leap 1 then 0
  else if d <? month_start leap 2 then 1
  else if d <? month_start leap 3 then 2
  else if d <? month_start leap 4 then 3
  else if d <? month_start leap 5 then 4
  else if d <? month_start leap 6 then 5
  else if d <? month_start leap 7 then 6
  else if d <? month_start leap 8 then 7
  else if d <? month_start leap 9 then 8
  else if d <? month_start leap 10 then 9
  else if d <? month_start leap 11 then 10
  else 11.

Definition DateFromTime (t : Z) : Z :=
  DayWithinYear t - month_start (InLeapYear t) (MonthFromTime t) + 1.

Definition WeekDay (t : Z) : Z := (Day t + 4) mod 7.

Definition MakeTime (hour min sec ms : Z) : Z :=
  hour * msPerHour + min * msPerMinute + sec * msPerSecond + ms.

Definition MakeDay (year month date : Z) : Z :=
  let ym := year + month / 12 in
  let mn := month mod 12 in
  let leap := if DaysInYear ym =? 366 then 1 else 0 in
  DayFromYear ym + month_start leap mn + date - 1.

Definition MakeDate (day time : Z) : Z := day * msPerDay + time.

Definition TimeClip (t : Z) : option Z :=
  if maxTime <? Z.abs t then None else Some t.

(** [TimeClip] of a Number. *)
Definition TimeClip_number (n : number) : option Z :=
  match n with
  | NaN | Infinity _ => None
  | Zero _ => Some 0
  | Finite neg m e =>
      if ltb (of_Z maxTime) (Finite false m e) then None
      else Some (truncate neg m e)
  end.

(** ** The host

    Two things are left to the implementation and the machine: the local
    time zone adjustment, and what [Date.parse] makes of a string that is
    not in the interchange format. *)

Record host := {
  LocalTZA : Z -> bool -> Z;
  legacy_parse : jsstring -> option Z
}.

Section Host.
Variable h : host.

Definition LocalTime (t : Z) : Z := t + LocalTZA h t true.
Definition UTC (t : Z) : Z := t - LocalTZA h t false.

(** ** [Date.parse]: the date-time string format *)

Inductive parsed :=
| NoMatch                 (* not in the format *)
| Illegal                 (* in the format, with an illegal element value *)
| Parsed (t : Z).

(** Exactly [n] decimal digits. *)
Fixpoint read_digits (n : nat) (s : jsstring) (acc : Z)
  : option (Z * jsstring) :=
  match n with
  | O => Some (acc, s)
  | S n' =>
      match s with
      | c :: s' =>
          if (48 <=? c) && (c <=? 57)
          then read_digits n' s' (acc * 10 + (c - 48))
          else None
      | [] => None
      end
  end.

Definition and_then {A B} (o : option A) (f : A -> option B) : option B :=
  match o with Some a => f a | None => None end.

Notation "x <- e ;; k" := (and_then e (fun x => k))
  (at level 61, e at next level, right associativity).
Notation "' p <- e ;; k" := (and_then e (fun x => let p := x in k))
  (at level 61, p pattern, e at next level, right associativity).

(** [YYYY], or a sign and [YYYYYY]; the flag says the year was [-000000]. *)
Definition read_year (s : jsstring) : option (Z * bool * jsstring) :=
  match s with
  | 43 :: s' => '(y, r) <- read_digits 6 s' 0 ;; Some (y, false, r)
  | 45 :: s' => '(y, r) <- read_digits 6 s' 0 ;; Some (- y, y =? 0, r)
  | _ => '(y, r) <- read_digits 4 s 0 ;; Some (y, false, r)
  end.

(** An optional [-NN] element; absent reads as [dflt]. *)
Definition read_opt_field (s : jsstring) (dflt : Z)
  : option (Z * bool * jsstring) :=
  match s with
  | 45 :: s' => '(v, r) <- read_digits 2 s' 0 ;; Some (v, true, r)
  | _ => Some (dflt, false, s)
  end.

(** [HH:mm], [HH:mm:ss] or [HH:mm:ss.sss]. *)
Definition read_time (s : jsstring) : option (Z * Z * Z * Z * jsstring) :=
  '(hh, r1) <- read_digits 2 s 0 ;;
  match r1 with
  | 58 :: r2 =>
      '(mm, r3) <- read_digits 2 r2 0 ;;
      match r3 with
      | 58 :: r4 =>
          '(ss, r5) <- read_digits 2 r4 0 ;;
          match r5 with
          | 46 :: r6 =>
              '(ms, r7) <- read_digits 3 r6 0 ;; Some (hh, mm, ss, ms, r7)
          | _ => Some (hh, mm, ss, 0, r5)
          end
      | _ => Some (hh, mm, 0, 0, r3)
      end
  | _ => None
  end.

Inductive zone := ZLocal | ZOffset (ms : Z) | ZIllegal.

(** Nothing, [Z], or [+HH:mm] / [-HH:mm], up to the end of the string. *)
Definition read_zone (s : jsstring) : option zone :=
  match s with
  | [] => Some ZLocal
  | [90] => Some (ZOffset 0)
  | c :: s' =>
      if is_sign c then
        '(hh, r1) <- read_digits 2 s' 0 ;;
        match r1 with
        | 58 :: r2 =>
            '(mm, r3) <- read_digits 2 r2 0 ;;
            match r3 with
            | [] =>
                if (hh <=? 23) && (mm <=? 59) then
                  let off := hh * msPerHour + mm * msPerMinute in
                  Some (ZOffset (if c =? 45 then - off else off))
                else Some ZIllegal
            | _ => None
            end
        | _ => None
        end
      else None
  end.

Definition legal_time (hh mm ss ms : Z) : bool :=
  ((hh <=? 23) && (mm <=? 59) && (ss <=? 59))
  || ((hh =? 24) && (mm =? 0) && (ss =? 0) && (ms =? 0)).

Definition parse_format (s : jsstring) : parsed :=
  match
    '(y, minus_zero, r1) <- read_year s ;;
    '(mo, has_mo, r2) <- read_opt_field r1 1 ;;
    '(d, _, r3) <- (if has_mo then read_opt_field r2 1
                    else Some (1, false, r2)) ;;
    let legal_date :=
      negb minus_zero && (1 <=? mo) && (mo <=? 12)
      && (1 <=? d) && (d <=? 31) in
    let day := MakeDay y (mo - 1) d in
    match r3 with
    | [] =>
        (* date-only forms are UTC *)
        Some (if legal_date then Some (MakeDate day 0) else None)
    | 84 :: r4 =>
        '(hh, mm, ss, ms, r5) <- read_time r4 ;;
        z <- read_zone r5 ;;
        let t := MakeDate day (MakeTime hh mm ss ms) in
        Some (if legal_date && legal_time hh mm ss ms then
                match z with
                | ZLocal => Some (UTC t)
                | ZOffset off => Some (t - off)
                | ZIllegal => None
                end
              else None)
    | _ => None
    end
  with
  | None => NoMatch
  | Some None => Illegal
  | Some (Some t) => Parsed t
  end.

(** [Date.parse]: the interchange format first; a string that is not in
    the format, or is in it with an illegal element value, is handed to
    whatever else the implementation recognises. *)
Definition parse (s : jsstring) : option Z :=
  match parse_format s with
  | Parsed t => TimeClip t
  | Illegal | NoMatch => and_then (legacy_parse h s) TimeClip
  end.

(** [new Date(v)], as a time value; [v] is not itself a Date. *)
Definition construct (v : value) : completion (option Z) :=
  match v with
  | VStr s => Normal (parse s)
  | VObject (Some s) => Normal (parse s)
  | VObject None => Throw TypeError
  | VUndefined => Normal None
  | VNull => Normal (Some 0)
  | VBool b => Normal (Some (if b then 1 else 0))
  | VNum n => Normal (TimeClip_number n)
  end.

(** ** [Date.prototype.toDateString] *)

Definition weekday_name (d : Z) : jsstring :=
  match d with
  | 0 => js "Sun" | 1 => js "Mon" | 2 => js "Tue" | 3 => js "Wed"
  | 4 => js "Thu" | 5 => js "Fri" | _ => js "Sat"
  end.

Definition month_name (m : Z) : jsstring :=
  match m with
  | 0 => js "Jan" | 1 => js "Feb" | 2 => js "Mar" | 3 => js "Apr"
  | 4 => js "May" | 5 => js "Jun" | 6 => js "Jul" | 7 => js "Aug"
  | 8 => js "Sep" | 9 => js "Oct" | 10 => js "Nov" | _ => js "Dec"
  end.

Fixpoint decimal_digits (fuel : nat) (n : Z) (acc : jsstring) : jsstring :=
  let acc' := (48 + n mod 10) :: acc in
  match fuel with
  | O => acc'
  | S f => if n / 10 =? 0 then acc' else decimal_digits f (n / 10) acc'
  end.

(** [ToZeroPaddedDecimalString(n, minLength)], [0 <= n]. *)
Definition ToZeroPaddedDecimalString (n : Z) (minLength : nat) : jsstring :=
  let ds := decimal_digits (Z.to_nat (Z.log2 n)) n [] in
  repeat 48 (minLength - List.length ds) ++ ds.

(** [DateString(tv)] on a local time. *)
Definition DateString (t : Z) : jsstring :=
  let yv := YearFromTime t in
  weekday_name (WeekDay t) ++ js " " ++
  month_name (MonthFromTime t) ++ js " " ++
  ToZeroPaddedDecimalString (DateFromTime t) 2 ++ js " " ++
  (if 0 <=? yv then [] else js "-") ++
  ToZeroPaddedDecimalString (Z.abs yv) 4.

Definition toDateString (tv : option Z) : jsstring :=
  match tv with
  | None => js "Invalid Date"
  | Some t => DateString (LocalTime t)
  end.

End Host.

(** A host on UTC whose [Date.parse] accepts the interchange format only. *)
Definition utc_host : host :=
  {| LocalTZA := fun _ _ => 0; legacy_parse := fun _ => None |}.

(** A host at a fixed offset from UTC, in minutes. *)
Definition fixed_offset_host (minutes : Z) : host :=
  {| LocalTZA := fun _ _ => minutes * msPerMinute;
     legacy_parse := fun _ => None |}.

End JSDate.

(* ===================================================================== *)
(** * The collections                                                      *)
(* ===================================================================== *)

Module Mongo.
Import JS.

(** The store hands out fresh identifiers; a request names one by a
    string of its path, which has to be cast (see [driver] below). *)
Definition ObjectId := Z.

Record user := {
  user_id : ObjectId;               (* _id *)
  user_username : jsstring          (* username *)
}.

Record exercise := {
  ex_id : ObjectId;                 (* _id *)
  ex_userId : ObjectId;             (* userId *)
  ex_description : jsstring;        (* description *)
  ex_duration : number;             (* duration *)
  ex_date : Z                       (* date, a valid time value *)
}.

Record db := {
  users : list user;
  exercises : list exercise;
  next_id : ObjectId
}.

Definition empty_db : db := {| users := []; exercises := []; next_id := 1 |}.

(** ** Computations over the store that may throw *)

Definition M (A : Type) : Type := db -> completion A * db.

Definition ret {A} (a : A) : M A := fun s => (Normal a, s).
Definition throw {A} (e : error) : M A := fun s => (Throw e, s).
Definition lift {A} (c : completion A) : M A := fun s => (c, s).

Definition bind {A B} (m : M A) (f : A -> M B) : M B :=
  fun s =>
    match m s with
    | (Normal a, s') => f a s'
    | (Throw e, s') => (Throw e, s')
    end.

(** [try { m } catch (err) { handler err }] *)
Definition try_catch {A} (m : M A) (handler : error -> M A) : M A :=
  fun s =>
    match m s with
    | (Normal a, s') => (Normal a, s')
    | (Throw e, s') => handler e s'
    end.

Declare Scope js_scope.
Delimit Scope js_scope with js.
Notation "x <- e ;; k" := (bind e (fun x => k))
  (at level 61, e at next level, right associativity) : js_scope.

(** ** Users *)

(** The error the driver raises on a unique-index violation. *)
Definition duplicate_key (key : jsstring) : error :=
  {| err_name := js "MongoServerError";
     err_code := Some 11000;
     err_keyPattern := Some [key] |}.

Definition has_username (name : jsstring) (u : user) : bool :=
  str_eqb (user_username u) name.

(** Modelled from the spec: [models/User.js], the schema behind
    [User.create].  A user is an identifier generated by the store and a
    username; creating a second user with a username already present is
    reported by the store as a uniqueness violation on [username]. *)
Definition User_create (username : jsstring) : M user :=
  fun s =>
    if existsb (has_username username) (users s)
    then (Throw (duplicate_key (js "username")), s)
    else
      let u := {| user_id := next_id s; user_username := username |} in
      (Normal u,
       {| users := users s ++ [u];
          exercises := exercises s;
          next_id := next_id s + 1 |}).

(** The first user with the given name, and the user with the given
    identifier, if any. *)
Definition user_by_name (s : db) (name : jsstring) : option user :=
  find (has_username name) (users s).

Definition user_by_id (s : db) (i : ObjectId) : option user :=
  find (fun u => user_id u =? i) (users s).

(** [User.findOne({ username })] *)
Definition User_findOne (username : jsstring) : M (option user) :=
  fun s => (Normal (user_by_name s username), s).

(** What the installed driver takes for an identifier: the string of a
    path is cast to an ObjectId before any lookup, and not every string
    casts. *)
Record driver := {
  castObjectId : jsstring -> option ObjectId
}.

(** The error raised when a value does not cast to the type of its path. *)
Definition CastError : error :=
  {| err_name := js "CastError";
     err_code := None;
     err_keyPattern := None |}.

(** The user a path identifier stands for: it casts, and a user is stored
    under what it casts to. *)
Definition user_of_path (dr : driver) (s : db) (_id : jsstring)
  : option user :=
  match castObjectId dr _id with
  | Some i => user_by_id s i
  | None => None
  end.

(** [User.findById(_id)] with the string of the path: the cast comes
    first and a string that does not cast is an error, not a miss. *)
Definition User_findById (dr : driver) (_id : jsstring) : M (option user) :=
  fun s =>
    match castObjectId dr _id with
    | Some i => (Normal (user_by_id s i), s)
    | None => (Throw CastError, s)
    end.

(** The usual driver: it takes the strings of 24 hexadecimal digits, in
    either case, for the identifier they spell, and no other string. *)
Definition hex_driver : driver :=
  {| castObjectId := fun p =>
       match span_digits 16 p 0 0 with
       | (v, len, []) => if len =? 24 then Some v else None
       | _ => None
       end |}.

Fixpoint hex_digits (n : nat) (i : Z) (acc : jsstring) : jsstring :=
  match n with
  | O => acc
  | S n' =>
      let d := i mod 16 in
      hex_digits n' (i / 16) ((if d <? 10 then 48 + d else 87 + d) :: acc)
  end.

(** [ObjectId.prototype.toHexString]: the 24 digits of an identifier. *)
Definition toHexString (i : ObjectId) : jsstring := hex_digits 24 i [].

(** [User.find({}, { username: 1 })] *)
Definition User_find : M (list user) :=
  fun s => (Normal (users s), s).

(** ** Exercises *)

(** Modelled from the spec: [models/Exercise.js], the schema behind
    [Exercise.create].  The record is stored as given, under a fresh
    identifier. *)
Definition Exercise_create (userId : ObjectId) (description : jsstring)
    (duration : number) (date : Z) : M exercise :=
  fun s =>
    let e := {| ex_id := next_id s;
                ex_userId := userId;
                ex_description := description;
                ex_duration := duration;
                ex_date := date |} in
    (Normal e,
     {| users := users s;
        exercises := exercises s ++ [e];
        next_id := next_id s + 1 |}).

(** The [date] part of a filter: [{ $gte, $lte }], either key optional. *)
Record date_range := {
  gte : option Z;                   (* $gte *)
  lte : option Z                    (* $lte *)
}.

(** [{ userId, date }], the [date] key optional. *)
Record query := {
  q_userId : ObjectId;
  q_date : option date_range
}.

(** A range with no operator is the document [{}]: as a filter it asks
    for equality with the empty document, which no date satisfies. *)
Definition in_range (r : date_range) (d : Z) : bool :=
  match gte r, lte r with
  | None, None => false
  | Some lo, None => lo <=? d
  | None, Some hi => d <=? hi
  | Some lo, Some hi => (lo <=? d) && (d <=? hi)
  end.

Definition matches (q : query) (e : exercise) : bool :=
  (ex_userId e =? q_userId q)
  && match q_date q with
     | None => true
     | Some r => in_range r (ex_date e)
     end.

(** [sort: { date: 1 }]: ascending by date; entries with equal dates keep
    their stored order. *)
Fixpoint insert_by_date (e : exercise) (l : list exercise) : list exercise :=
  match l with
  | [] => [e]
  | x :: l' =>
      if ex_date e <? ex_date x then e :: l
      else x :: insert_by_date e l'
  end.

Definition sort_by_date (l : list exercise) : list exercise :=
  fold_left (fun acc e => insert_by_date e acc) l [].

(** [limit: n]: at most the first [|n|] results; [undefined] and zero
    are no limit, and so is an infinite one. *)
Definition apply_limit (lim : option number) (l : list exercise)
  : list exercise :=
  match lim with
  | Some (Finite neg m e) => firstn (Z.to_nat (Z.abs (truncate neg m e))) l
  | _ => l
  end.

(** [Exercise.find(query, null, { sort: { date: 1 }, limit })] *)
Definition Exercise_find (q : query) (lim : option number)
  : M (list exercise) :=
  fun s =>
    (Normal (apply_limit lim (sort_by_date (filter (matches q) (exercises s)))),
     s).

End Mongo.

(* ===================================================================== *)
(** * The routes                                                           *)
(* ===================================================================== *)

Module Server.
Import JS JSDate Mongo.
Local Open Scope js_scope.

(** What [res.json] sends. *)
Record log_entry := {
  log_description : jsstring;
  log_duration : number;
  log_date : jsstring
}.

Inductive payload :=
| ErrorBody (error : jsstring)
    (* { error } *)
| UserBody (username : jsstring) (_id : ObjectId)
    (* { username, _id } *)
| UsersBody (docs : list user)
    (* [{ _id, username }, ...] *)
| ExerciseBody (_id : ObjectId) (username : jsstring) (date : jsstring)
    (duration : number) (description : jsstring)
    (* { _id, username, date, duration, description } *)
| LogBody (username : jsstring) (count : Z) (_id : ObjectId)
    (log : list log_entry).
    (* { username, count, _id, log } *)

Record response := {
  status : Z;
  body : payload
}.

(** [res.json(b)] and [res.status(c).json(b)] *)
Definition json (b : payload) : response := {| status := 200; body := b |}.
Definition status_json (c : Z) (b : payload) : response :=
  {| status := c; body := b |}.

Definition server_error : response :=
  status_json 500 (ErrorBody (js "server error")).

Section Routes.

(** The machine the server runs on, the driver it talks to the store
    with, and the clock reading of [new Date()] during the request. *)
Variable h : host.
Variable dr : driver.
Variable now : Z.

(** [toFCCDateString]: [new Date(d).toDateString()] on a stored date. *)
Definition toFCCDateString (d : Z) : jsstring := toDateString h (Some d).

(** [err.code === 11000 && err.keyPattern?.username] *)
Definition is_username_conflict (err : error) : bool :=
  match err_code err, err_keyPattern err with
  | Some c, Some keys => (c =? 11000) && existsb (str_eqb (js "username")) keys
  | _, _ => false
  end.

(** [POST /api/users] with [req.body.username].  A [Throw] out of the
    handler is a rejection nobody handles: no response is sent. *)
Definition post_users (username : value) : M response :=
  try_catch
    (if negb (ToBoolean username) then
       ret (status_json 400 (ErrorBody (js "username is required")))
     else
       t <- lift (call_trim username) ;;
       if negb (ToBoolean (VStr t)) then
         ret (status_json 400 (ErrorBody (js "username is required")))
       else
         name <- lift (call_trim username) ;;
         user <- User_create name ;;
         ret (json (UserBody (user_username user) (user_id user))))
    (fun err =>
       if is_username_conflict err then
         name <- lift (call_trim username) ;;
         existing <- User_findOne name ;;
         match existing with
         | Some u => ret (json (UserBody (user_username u) (user_id u)))
         | None => throw TypeError
         end
       else ret server_error).

(** [GET /api/users] *)
Definition get_users : M response :=
  try_catch
    (docs <- User_find ;; ret (json (UsersBody docs)))
    (fun _ => ret server_error).

(** [POST /api/users/:_id/exercises] with [req.params._id] and
    [req.body.{description, duration, date}]. *)
Definition post_exercises (_id : jsstring)
    (description duration date : value) : M response :=
  try_catch
    (found <- User_findById dr _id ;;
     match found with
     | None => ret (status_json 404 (ErrorBody (js "user not found")))
     | Some user =>
         dur <- lift (Number duration) ;;
         if negb (ToBoolean description) || negb (ToBoolean (VNum dur)) then
           ret (status_json 400
                  (ErrorBody (js "description and duration are required")))
         else
           d <- (if ToBoolean date then lift (construct h date)
                 else ret (Some now)) ;;
           let d := match d with None => now | Some t => t end in
           desc <- lift (call_trim description) ;;
           ex <- Exercise_create (user_id user) desc dur d ;;
           ret (json (ExerciseBody (user_id user) (user_username user)
                        (toFCCDateString (ex_date ex))
                        (ex_duration ex) (ex_description ex)))
     end)
    (fun _ => ret server_error).

(** One bound of the date filter: set when the parameter is present and
    a valid date. *)
Definition date_bound (q : qvalue) : M (option Z) :=
  if ToBoolean (of_query q) then lift (construct h (of_query q))
  else ret None.

(** The [date] key of the filter in [GET .../logs]. *)
Definition date_filter (from to : qvalue) : M (option date_range) :=
  if ToBoolean (of_query from) || ToBoolean (of_query to) then
    lo <- date_bound from ;;
    hi <- date_bound to ;;
    ret (match lo, hi with
         | None, None => None        (* delete query.date *)
         | _, _ => Some {| gte := lo; lte := hi |}
         end)
  else ret None.

(** [lim] after [if (isNaN(lim) || lim < 1) lim = undefined]. *)
Definition limit_option (limit : qvalue) : option number :=
  let lim := parseInt limit in
  if isNaN lim || ltb lim (of_Z 1) then None else Some lim.

Definition view (e : exercise) : log_entry :=
  {| log_description := ex_description e;
     log_duration := ex_duration e;
     log_date := toFCCDateString (ex_date e) |}.

(** [GET /api/users/:_id/logs] with [req.params._id] and
    [req.query.{from, to, limit}]. *)
Definition get_logs (_id : jsstring) (from to limit : qvalue) : M response :=
  try_catch
    (found <- User_findById dr _id ;;
     match found with
     | None => ret (status_json 404 (ErrorBody (js "user not found")))
     | Some user =>
         range <- date_filter from to ;;
         let q := {| q_userId := user_id user; q_date := range |} in
         exs <- Exercise_find q (limit_option limit) ;;
         ret (json (LogBody (user_username user)
                      (Z.of_nat (List.length exs))
                      (user_id user)
                      (map view exs)))
     end)
    (fun _ => ret server_error).

End Routes.

(** [const port = Number(PORT) || 3000] with [PORT] read from the
    environment, where a variable is a string or is not set. *)
Definition port (PORT : option jsstring) : number :=
  let n := match PORT with
           | Some s => StringToNumber s
           | None => NaN
           end in
  if ToBoolean (VNum n) then n else of_Z 3000.

End Server.

(* ===================================================================== *)
(** * Vocabulary of the properties                                         *)
(* ===================================================================== *)

Import JS JSDate Mongo Server.

(** The code units [0] to [9]. *)
Definition is_decimal_digit (c : Z) : Prop := 48 <= c <= 57.

(** Ascending order of date. *)
Definition date_le (a b : exercise) : Prop := ex_date a <= ex_date b.

(** The date a [from] or [to] parameter stands for: the parameter is
    present (not the empty string) and parses to a valid date. *)
Definition bound (h : host) (q : qvalue) : option Z :=
  match q with
  | QUndefined | QStr [] => None
  | QStr s | QObject s => parse h s
  end.

(** A date lies in the window: at or after the lower bound and at or
    before the upper bound, where given. *)
Definition in_window (lo hi : option Z) (d : Z) : bool :=
  match lo with Some f => f <=? d | None => true end
  && match hi with Some t => d <=? t | None => true end.

(** The exercises of user [u] that pass the date filter. *)
Definition selected (h : host) (u : user) (from to : qvalue) (s : db)
  : list exercise :=
  filter (fun e => (ex_userId e =? user_id u)
                   && in_window (bound h from) (bound h to) (ex_date e))
         (exercises s).

(** The cap a [limit] parameter stands for: it parses to a positive
    integer. *)
Definition positive_limit (limit : qvalue) : option nat :=
  match parseInt limit with
  | Finite false m e => Some (Z.to_nat (truncate false m e))
  | _ => None
  end.

(** The [date] key for two bounds: none when both are missing. *)
Definition range_of (lo hi : option Z) : option date_range :=
  match lo, hi with
  | None, None => None
  | _, _ => Some {| gte := lo; lte := hi |}
  end.

(** The error responses. *)
Definition username_required : response :=
  status_json 400 (ErrorBody (js "username is required")).

(** The store after a user is added under the next identifier. *)
Definition with_user (s : db) (name : jsstring) : db :=
  {| users := users s ++ [{| user_id := next_id s; user_username := name |}];
     exercises := exercises s;
     next_id := next_id s + 1 |}.

Definition user_not_found : response :=
  status_json 404 (ErrorBody (js "user not found")).

Definition validation_error : response :=
  status_json 400 (ErrorBody (js "description and duration are required")).

(** The store after an exercise is added under the next identifier. *)
Definition with_exercise (s : db) (userId : ObjectId)
    (description : jsstring) (duration : number) (date : Z) : db :=
  {| users := users s;
     exercises := exercises s ++
       [{| ex_id := next_id s;
           ex_userId := userId;
           ex_description := description;
           ex_duration := duration;
           ex_date := date |}];
     next_id := next_id s + 1 |}.

(** A description that is missing or empty once trimmed. *)
Definition blank (description : value) : Prop :=
  description = VUndefined
  \/ exists t, description = VStr t /\ trim t = [].

(** A duration that converts to a positive number. *)
Definition converts_to_positive (duration : value) : Prop :=
  Number duration = Normal (Infinity false)
  \/ exists m e, Number duration = Normal (Finite false m e).


(** Identifiers handed out so far are below the next one. *)
Definition fresh_ids (s : db) : Prop :=
  Forall (fun u => user_id u < next_id s) (users s).

(** A small store to run the routes on. *)
Definition alice : user := {| user_id := 1; user_username := js "alice" |}.

Definition entry (i : ObjectId) (what : string) (minutes : Z) (day : string)
  : exercise :=
  {| ex_id := i;
     ex_userId := 1;
     ex_description := js what;
     ex_duration := of_Z minutes;
     ex_date := match parse utc_host (js day) with Some t => t | None => 0 end
         |}.

(** One user with five exercises, stored out of date order. *)
Definition sample_db : db :=
  {| users := [alice];
     exercises := [ entry 2 "run" 30 "2023-05-01";
                    entry 3 "swim" 45 "2023-01-15";
                    entry 4 "row" 20 "2023-03-10";
                    entry 5 "walk" 60 "2022-12-31";
                    entry 6 "lift" 25 "2023-02-01" ];
     next_id := 7 |}.

(** The value of a run of decimal digits read after [acc]. *)
Definition digits_value (ds : jsstring) (acc : Z) : Z :=
  fold_left (fun a c => a * 10 + (c - 48)) ds acc.

(** The decimal numeral of a natural number, without padding. *)
Definition decimal (n : Z) : jsstring := ToZeroPaddedDecimalString n 1.

(** The date-only form [YYYY-MM-DD]. *)
Definition iso_date (y m d : Z) : jsstring :=
  ToZeroPaddedDecimalString y 4 ++ js "-"
  ++ ToZeroPaddedDecimalString m 2 ++ js "-"
  ++ ToZeroPaddedDecimalString d 2.

(** The length of month [m] (1-12) of year [y]. *)
Definition days_in_month (y m : Z) : Z :=
  match m with
  | 2 => if DaysInYear y =? 366 then 29 else 28
  | 4 | 6 | 9 | 11 => 30
  | _ => 31
  end.

(** A string with no white space at either end. *)
Definition trimmed (s : jsstring) : Prop :=
  is_white_space (hd 0 s) = false /\ is_white_space (last s 0) = false.

(** A store as the routes build it: the users have distinct identifiers,
    all below the next one, and every exercise has an identifier below
    the next one and belongs to a stored user. *)
Definition well_formed (s : db) : Prop :=
  NoDup (map user_id (users s))
  /\ fresh_ids s
  /\ Forall (fun e => ex_id e < next_id s
                      /\ exists u, In u (users s) /\ user_id u = ex_userId e)
            (exercises s).

(* ===================================================================== *)
(** * Properties of the built-ins                                          *)
(* ===================================================================== *)

Module JSFacts.
Import JS.

Lemma str_eqb_eq (a b : jsstring) : str_eqb a b = true <-> a = b.
Proof.
  revert b; induction a as [|x a IH]; intros [|y b]; simpl;
    try (split; congruence).
  rewrite andb_true_iff, Z.eqb_eq, IH. split.
  - intros [-> ->]; reflexivity.
  - intros E; inversion E; auto.
Qed.

Lemma str_eqb_refl (a : jsstring) : str_eqb a a = true.
Proof. apply str_eqb_eq; reflexivity. Qed.

(** A string with something left after trimming is not empty. *)
Lemma trim_nonempty (s : jsstring) : trim s <> [] -> s <> [].
Proof. intros H ->; apply H; reflexivity. Qed.

Lemma ToBoolean_string (s : jsstring) :
  ToBoolean (VStr s) = true <-> s <> [].
Proof. destruct s; simpl; split; congruence. Qed.

(** ** Integers as Numbers *)

Lemma round_half_even_ge (n d : Z) : n / d <= round_half_even n d.
Proof.
  unfold round_half_even.
  destruct (2 * (n mod d) ?= d); [destruct (Z.even (n / d))| |]; lia.
Qed.

(** A positive integer converts to a normal Number: the significand has
    its top bit set and the exponent is at least [-52]. *)
Lemma to_binary64_integer (neg neg' : bool) (v : Z) (m : positive) (e : Z) :
  to_binary64 neg v 1 = Finite neg' m e ->
  neg' = neg /\ 2 ^ 52 <= Z.pos m /\ -52 <= e.
Proof.
  unfold to_binary64.
  destruct (Z.leb_spec v 0) as [|Hv]; [discriminate|].
  assert (Hk : log2_ratio v 1 = Z.log2 v).
  { unfold log2_ratio. change (Z.log2 1) with 0. rewrite Z.sub_0_r.
    pose proof (Z.log2_nonneg v) as Hn.
    destruct (Z.leb_spec 0 (Z.log2 v)); [|lia].
    destruct (Z.leb_spec (1 * 2 ^ Z.log2 v) v) as [|Hc]; [reflexivity|].
    pose proof (Z.log2_spec v Hv). lia. }
  rewrite Hk. set (k := Z.log2 v).
  assert (Hk0 : 0 <= k) by apply Z.log2_nonneg.
  assert (Hlo : 2 ^ k <= v) by (apply Z.log2_spec; lia).
  rewrite Z.max_l by lia.
  set (m0 := if 0 <=? k - 52 then round_half_even v (1 * 2 ^ (k - 52))
             else round_half_even (v * 2 ^ (- (k - 52))) 1).
  assert (Hm0 : 2 ^ 52 <= m0).
  { unfold m0. destruct (Z.leb_spec 0 (k - 52)).
    - etransitivity; [|apply round_half_even_ge].
      rewrite Z.mul_1_l.
      apply Z.div_le_lower_bound; [apply Z.pow_pos_nonneg; lia|].
      rewrite <- Z.pow_add_r by lia. replace (k - 52 + 52) with k by lia.
      exact Hlo.
    - etransitivity; [|apply round_half_even_ge].
      rewrite Z.div_1_r.
      replace (2 ^ 52) with (2 ^ k * 2 ^ (- (k - 52))).
      + apply Z.mul_le_mono_nonneg_r; [apply Z.pow_nonneg; lia|exact Hlo].
      + rewrite <- Z.pow_add_r by lia. f_equal. lia. }
  assert (H52 : 0 < 2 ^ 52) by reflexivity.
  destruct (Z.eqb_spec m0 (2 ^ 53)) as [E|E].
  - change (2 ^ 52 =? 0) with false. cbv iota.
    destruct (971 <? k - 52 + 1); [discriminate|].
    intros H; inversion H; subst. repeat split; lia.
  - destruct (Z.eqb_spec m0 0); [lia|].
    destruct (971 <? k - 52); [discriminate|].
    intros H; inversion H; subst. rewrite Z2Pos.id by lia.
    repeat split; lia.
Qed.

Lemma round_half_even_1 (n : Z) : round_half_even n 1 = n.
Proof.
  unfold round_half_even. rewrite Z.mod_1_r, Z.div_1_r. reflexivity.
Qed.

(** Integers below [2^53] are Numbers, exactly. *)
Lemma to_binary64_exact (neg : bool) (n : Z) :
  1 <= n < 2 ^ 53 ->
  exists m e, to_binary64 neg n 1 = Finite neg m e
              /\ truncate false m e = n.
Proof.
  intros Hn. unfold to_binary64.
  destruct (Z.leb_spec n 0) as [|Hpos]; [lia|].
  assert (Hk : log2_ratio n 1 = Z.log2 n).
  { unfold log2_ratio. change (Z.log2 1) with 0. rewrite Z.sub_0_r.
    pose proof (Z.log2_nonneg n).
    destruct (Z.leb_spec 0 (Z.log2 n)); [|lia].
    destruct (Z.leb_spec (1 * 2 ^ Z.log2 n) n) as [|Hc]; [reflexivity|].
    pose proof (Z.log2_spec n Hpos). lia. }
  rewrite Hk. set (k := Z.log2 n).
  assert (Hk0 : 0 <= k) by apply Z.log2_nonneg.
  assert (Hk52 : k <= 52).
  { assert (k < 53); [|lia]. apply Z.log2_lt_pow2; lia. }
  destruct (Z.log2_spec n Hpos) as [Hlo Hhi]. fold k in Hlo, Hhi.
  rewrite Z.max_l by lia.
  set (p := 2 ^ (52 - k)).
  assert (Hp : 0 < p) by (apply Z.pow_pos_nonneg; lia).
  assert (Hm : (if 0 <=? k - 52 then round_half_even n (1 * 2 ^ (k - 52))
                else round_half_even (n * 2 ^ (- (k - 52))) 1) = n * p).
  { destruct (Z.leb_spec 0 (k - 52)).
    - assert (k = 52) by lia. unfold p.
      replace (k - 52) with 0 by lia. replace (52 - k) with 0 by lia.
      change (1 * 2 ^ 0) with 1. rewrite round_half_even_1. lia.
    - rewrite round_half_even_1. unfold p. do 2 f_equal. lia. }
  rewrite Hm.
  assert (Hlt : n * p < 2 ^ 53).
  { replace (2 ^ 53) with (2 ^ Z.succ k * p).
    - apply Z.mul_lt_mono_pos_r; assumption.
    - unfold p. rewrite <- Z.pow_add_r by lia. f_equal. lia. }
  destruct (Z.eqb_spec (n * p) (2 ^ 53)); [lia|].
  destruct (Z.eqb_spec (n * p) 0); [nia|].
  destruct (Z.ltb_spec 971 (k - 52)); [lia|].
  exists (Z.to_pos (n * p)), (k - 52). split; [reflexivity|].
  unfold truncate. rewrite Z2Pos.id by nia.
  destruct (Z.leb_spec 0 (k - 52)).
  - assert (k = 52) by lia. unfold p. replace (52 - k) with 0 by lia.
    replace (k - 52) with 0 by lia. change (2 ^ 0) with 1. lia.
  - replace (- (k - 52)) with (52 - k) by lia. fold p.
    apply Z.div_mul. lia.
Qed.

Lemma parseInt10_finite (s : jsstring) (neg : bool) (m : positive) (e : Z) :
  parseInt10 s = Finite neg m e -> 2 ^ 52 <= Z.pos m /\ -52 <= e.
Proof.
  unfold parseInt10.
  destruct (read_sign (trimStart s)) as [sg s1].
  destruct (span_digits 10 s1 0 0) as [[v len] rest].
  destruct (len =? 0); [discriminate|].
  intros H; apply to_binary64_integer in H. tauto.
Qed.

Lemma parseInt_finite (q : qvalue) (neg : bool) (m : positive) (e : Z) :
  parseInt q = Finite neg m e -> 2 ^ 52 <= Z.pos m /\ -52 <= e.
Proof. destruct q; apply parseInt10_finite. Qed.

(** The integer value of such a Number is at least one. *)
Lemma truncate_normal (m : positive) (e : Z) :
  2 ^ 52 <= Z.pos m -> -52 <= e -> 1 <= truncate false m e.
Proof.
  intros Hm He. unfold truncate.
  destruct (Z.leb_spec 0 e).
  - assert (1 <= 2 ^ e) by (apply (Z.pow_le_mono_r 2 0 e); lia).
    nia.
  - apply Z.div_le_lower_bound; [apply Z.pow_pos_nonneg; lia|].
    rewrite Z.mul_1_r. etransitivity; [|exact Hm].
    apply Z.pow_le_mono_r; lia.
Qed.

Lemma ltb_one_normal (neg : bool) (m : positive) (e : Z) :
  2 ^ 52 <= Z.pos m -> -52 <= e ->
  ltb (Finite neg m e) (of_Z 1) = neg.
Proof.
  intros Hm He.
  change (of_Z 1) with (Finite false (Z.to_pos (2 ^ 52)) (-52)).
  unfold ltb, ext_of, ext_ltb.
  rewrite Z.min_r by lia. rewrite Z.sub_diag.
  change (Z.pos (Z.to_pos (2 ^ 52)) * 2 ^ 0) with (2 ^ 52).
  assert (1 <= 2 ^ (e - -52)) by (apply (Z.pow_le_mono_r 2 0); lia).
  destruct neg.
  - apply Z.ltb_lt. pose proof (Pos2Z.neg_is_neg m). nia.
  - apply Z.ltb_ge. nia.
Qed.

End JSFacts.

Module DateFacts.
Import JS JSDate.

(** ** The calendar *)

Lemma YearFromDay_spec (d : Z) :
  DayFromYear (YearFromDay d) <= d < DayFromYear (YearFromDay d + 1).
Proof.
  unfold YearFromDay.
  set (y := 1970 + d * 400 / 146097).
  assert (Hy : DayFromYear (y - 1) <= d < DayFromYear (y + 2)).
  { unfold DayFromYear, y. Z.div_mod_to_equations. lia. }
  destruct (Z.ltb_spec d (DayFromYear y)).
  - replace (y - 1 + 1) with y by lia. lia.
  - destruct (Z.leb_spec (DayFromYear (y + 1)) d).
    + replace (y + 1 + 1) with (y + 2) by lia. lia.
    + lia.
Qed.

Lemma DayFromYear_succ (y : Z) :
  DayFromYear (y + 1) = DayFromYear y + DaysInYear y.
Proof.
  unfold DayFromYear, DaysInYear.
  destruct (Z.eqb_spec (y mod 4) 0); simpl negb; cbv iota;
    [destruct (Z.eqb_spec (y mod 100) 0); simpl negb; cbv iota;
       [destruct (Z.eqb_spec (y mod 400) 0); simpl negb; cbv iota|]|];
    Z.div_mod_to_equations; lia.
Qed.

Lemma DaysInYear_cases (y : Z) : DaysInYear y = 365 \/ DaysInYear y = 366.
Proof.
  unfold DaysInYear.
  destruct (y mod 4 =? 0), (y mod 100 =? 0), (y mod 400 =? 0); simpl; auto.
Qed.

Lemma DayWithinYear_range (t : Z) :
  0 <= DayWithinYear t < DaysInYear (YearFromTime t).
Proof.
  unfold DayWithinYear, YearFromTime.
  pose proof (YearFromDay_spec (Day t)) as H.
  rewrite DayFromYear_succ in H. lia.
Qed.

Lemma InLeapYear_days (t : Z) :
  DaysInYear (YearFromTime t) = 365 + InLeapYear t.
Proof.
  unfold InLeapYear.
  destruct (DaysInYear_cases (YearFromTime t)) as [E|E]; rewrite E; reflexivity.
Qed.

Lemma DateFromTime_range (t : Z) : 1 <= DateFromTime t <= 31.
Proof.
  pose proof (DayWithinYear_range t) as H.
  rewrite InLeapYear_days in H.
  unfold DateFromTime, MonthFromTime.
  assert (Hl : InLeapYear t = 0 \/ InLeapYear t = 1).
  { unfold InLeapYear. destruct (_ =? _); auto. }
  set (d := DayWithinYear t) in *. set (l := InLeapYear t) in *.
  repeat match goal with
         | |- context [ ?a <? ?b ] => destruct (Z.ltb_spec a b)
         end;
    unfold month_start in *; lia.
Qed.

Lemma MonthFromTime_range (t : Z) : 0 <= MonthFromTime t <= 11.
Proof.
  unfold MonthFromTime. cbv zeta.
  repeat match goal with
         | |- context [ ?a <? ?b ] => destruct (a <? b)
         end; lia.
Qed.

(** The day of the month is a day of that month of that year. *)
Lemma DateFromTime_month (t : Z) :
  DateFromTime t <= days_in_month (YearFromTime t) (MonthFromTime t + 1).
Proof.
  pose proof (DayWithinYear_range t) as H.
  rewrite InLeapYear_days in H.
  assert (Hf : (if DaysInYear (YearFromTime t) =? 366 then 29 else 28) =
               28 + InLeapYear t).
  { unfold InLeapYear. destruct (_ =? _); reflexivity. }
  assert (Hl : InLeapYear t = 0 \/ InLeapYear t = 1).
  { unfold InLeapYear. destruct (_ =? _); auto. }
  unfold DateFromTime, MonthFromTime.
  set (d := DayWithinYear t) in *. set (l := InLeapYear t) in *.
  repeat match goal with
         | |- context [ ?a <? ?b ] => destruct (Z.ltb_spec a b)
         end;
    match goal with
    | |- context [days_in_month _ (?k + 1)] =>
        let v := eval vm_compute in (k + 1) in change (k + 1) with v
    end;
    cbv beta iota delta [days_in_month]; rewrite ?Hf;
    unfold month_start in *; lia.
Qed.

(** Year, month and day of the month name the day of a time value. *)
Lemma Day_calendar (t : Z) :
  Day t = MakeDay (YearFromTime t) (MonthFromTime t) (DateFromTime t).
Proof.
  pose proof (MonthFromTime_range t) as Hm.
  unfold MakeDay. cbv zeta.
  assert (E1 : MonthFromTime t / 12 = 0) by (Z.div_mod_to_equations; lia).
  assert (E2 : MonthFromTime t mod 12 = MonthFromTime t)
    by (Z.div_mod_to_equations; lia).
  rewrite E1, E2, Z.add_0_r.
  change (if DaysInYear (YearFromTime t) =? 366 then 1 else 0)
    with (InLeapYear t).
  unfold DateFromTime, DayWithinYear. lia.
Qed.

(** The calendar day of a time value is all [DateString] looks at. *)
Lemma DateString_Day (t t' : Z) :
  Day t = Day t' -> DateString t = DateString t'.
Proof.
  intros E.
  unfold DateString, WeekDay, DateFromTime, MonthFromTime, DayWithinYear,
    InLeapYear, YearFromTime.
  rewrite E. reflexivity.
Qed.

(** ** Rendering *)

Lemma decimal_digits_length (k fuel : nat) :
  forall (n : Z) (acc : jsstring),
    0 <= n < 10 ^ Z.of_nat (S k) ->
    (List.length acc < List.length (decimal_digits fuel n acc)
     <= S k + List.length acc)%nat.
Proof.
  revert fuel. induction k as [|k IH]; intros fuel n acc Hn.
  - change (10 ^ Z.of_nat 1) with 10 in Hn.
    assert (E : n / 10 = 0) by (Z.div_mod_to_equations; lia).
    destruct fuel; cbn [decimal_digits]; rewrite ?E;
      try change (0 =? 0) with true; cbv iota zeta; cbn [List.length]; lia.
  - destruct fuel as [|fuel]; cbn [decimal_digits]; cbv zeta;
      [cbn [List.length]; lia|].
    destruct (Z.eqb_spec (n / 10) 0); [cbn [List.length]; lia|].
    assert (Hq : 0 <= n / 10 < 10 ^ Z.of_nat (S k)).
    { replace (Z.of_nat (S (S k))) with (Z.of_nat (S k) + 1) in Hn by lia.
      rewrite Z.pow_add_r in Hn by lia. change (10 ^ 1) with 10 in Hn.
      Z.div_mod_to_equations. lia. }
    specialize (IH fuel (n / 10) ((48 + n mod 10) :: acc) Hq).
    cbn [List.length] in IH. lia.
Qed.

Lemma decimal_digits_Forall (fuel : nat) :
  forall (n : Z) (acc : jsstring),
    Forall is_decimal_digit acc ->
    Forall is_decimal_digit (decimal_digits fuel n acc).
Proof.
  assert (Hd : forall n, is_decimal_digit (48 + n mod 10)).
  { intros n. unfold is_decimal_digit. Z.div_mod_to_equations. lia. }
  induction fuel as [|fuel IH]; intros n acc Hacc; cbn [decimal_digits];
    cbv zeta.
  - constructor; [apply Hd|exact Hacc].
  - destruct (n / 10 =? 0); [constructor; [apply Hd|exact Hacc]|].
    apply IH. constructor; [apply Hd|exact Hacc].
Qed.

(** A number below [10^k] pads to exactly [k] decimal digits. *)
Lemma ToZeroPaddedDecimalString_width (n : Z) (k : nat) :
  0 <= n < 10 ^ Z.of_nat (S k) ->
  List.length (ToZeroPaddedDecimalString n (S k)) = S k
  /\ Forall is_decimal_digit (ToZeroPaddedDecimalString n (S k)).
Proof.
  intros Hn. unfold ToZeroPaddedDecimalString.
  set (ds := decimal_digits _ n []).
  pose proof (decimal_digits_length k (Z.to_nat (Z.log2 n)) n [] Hn) as Hl.
  fold ds in Hl. simpl in Hl. split.
  - rewrite length_app, repeat_length. lia.
  - apply Forall_app. split.
    + apply Forall_forall. intros x Hx. apply repeat_spec in Hx. subst.
      unfold is_decimal_digit. lia.
    + apply decimal_digits_Forall. constructor.
Qed.

Lemma weekday_name_length (d : Z) : List.length (weekday_name d) = 3%nat.
Proof.
  unfold weekday_name.
  repeat match goal with
         | |- context [match ?x with _ => _ end] => destruct x
         end; reflexivity.
Qed.

Lemma month_name_length (m : Z) : List.length (month_name m) = 3%nat.
Proof.
  unfold month_name.
  repeat match goal with
         | |- context [match ?x with _ => _ end] => destruct x
         end; reflexivity.
Qed.

End DateFacts.

Module MongoFacts.
Import JS Mongo.

(** ** Sorting by date *)

Lemma insert_by_date_Permutation (e : exercise) (l : list exercise) :
  Permutation (insert_by_date e l) (e :: l).
Proof.
  induction l as [|x l IH]; simpl; [reflexivity|].
  destruct (ex_date e <? ex_date x); [reflexivity|].
  rewrite IH. apply perm_swap.
Qed.

Lemma insert_by_date_sorted (e : exercise) (l : list exercise) :
  StronglySorted date_le l -> StronglySorted date_le (insert_by_date e l).
Proof.
  induction 1 as [|x l Hs IH Hx]; simpl.
  - repeat constructor.
  - destruct (Z.ltb_spec (ex_date e) (ex_date x)) as [Hlt|Hge].
    + constructor; [constructor; assumption|].
      constructor; [unfold date_le; lia|].
      eapply Forall_impl; [|exact Hx]. unfold date_le. intros; lia.
    + constructor; [exact IH|].
      eapply Permutation_Forall;
        [symmetry; apply insert_by_date_Permutation|].
      constructor; [exact Hge|exact Hx].
Qed.

Lemma fold_insert_Permutation (l acc : list exercise) :
  Permutation (fold_left (fun a e => insert_by_date e a) l acc) (l ++ acc).
Proof.
  revert acc; induction l as [|x l IH]; intros acc; simpl; [reflexivity|].
  rewrite IH, insert_by_date_Permutation. symmetry. apply Permutation_middle.
Qed.

Lemma fold_insert_sorted (l acc : list exercise) :
  StronglySorted date_le acc ->
  StronglySorted date_le (fold_left (fun a e => insert_by_date e a) l acc).
Proof.
  revert acc; induction l as [|x l IH]; intros acc H; simpl; [exact H|].
  apply IH, insert_by_date_sorted, H.
Qed.

Lemma sort_by_date_Permutation (l : list exercise) :
  Permutation (sort_by_date l) l.
Proof.
  unfold sort_by_date. rewrite fold_insert_Permutation, app_nil_r.
  reflexivity.
Qed.

Lemma sort_by_date_sorted (l : list exercise) :
  StronglySorted date_le (sort_by_date l).
Proof. apply fold_insert_sorted. constructor. Qed.

Lemma Forall_firstn {A} (P : A -> Prop) (n : nat) (l : list A) :
  Forall P l -> Forall P (firstn n l).
Proof.
  intros H; revert n; induction H; intros [|n]; simpl; constructor; auto.
Qed.

Lemma firstn_sorted (n : nat) (l : list exercise) :
  StronglySorted date_le l -> StronglySorted date_le (firstn n l).
Proof.
  intros H; revert n; induction H as [|x l Hs IH Hx]; intros [|n]; simpl;
    constructor.
  - apply IH.
  - apply Forall_firstn, Hx.
Qed.

(** ** Looking users up *)

Lemma user_by_id_id (s : db) (i : ObjectId) (u : user) :
  user_by_id s i = Some u -> user_id u = i /\ In u (users s).
Proof.
  intros H. apply find_some in H as [Hin E].
  apply Z.eqb_eq in E. auto.
Qed.

Lemma user_by_name_name (s : db) (name : jsstring) (u : user) :
  user_by_name s name = Some u -> user_username u = name /\ In u (users s).
Proof.
  intros H. apply find_some in H as [Hin E].
  apply JSFacts.str_eqb_eq in E. auto.
Qed.

Lemma existsb_find {A} (p : A -> bool) (l : list A) :
  existsb p l = true <-> exists x, find p l = Some x.
Proof.
  induction l as [|a l IH]; simpl.
  - split; [discriminate|intros [x H]; discriminate].
  - destruct (p a); simpl; [split; eauto|exact IH].
Qed.

Lemma find_app_fresh {A} (p : A -> bool) (l : list A) (x : A) :
  existsb p l = false -> p x = true -> find p (l ++ [x]) = Some x.
Proof.
  induction l as [|a l IH]; simpl; intros Hl Hx.
  - rewrite Hx. reflexivity.
  - destruct (p a); [discriminate|]. apply IH; assumption.
Qed.

End MongoFacts.

(* ===================================================================== *)
(** * Properties of the routes                                             *)
(* ===================================================================== *)

Import JSFacts DateFacts MongoFacts.

(** ** Identifiers in the path *)

Lemma user_of_path_cast (dr : driver) (s : db) (_id : jsstring) (u : user) :
  user_of_path dr s _id = Some u ->
  castObjectId dr _id = Some (user_id u)
  /\ user_by_id s (user_id u) = Some u
  /\ In u (users s).
Proof.
  unfold user_of_path. destruct (castObjectId dr _id) as [i|]; [|discriminate].
  intros H. destruct (user_by_id_id s i u H) as [<- Hin]. auto.
Qed.

Lemma user_of_path_cases (dr : driver) (s : db) (_id : jsstring) :
  (exists u, user_of_path dr s _id = Some u)
  \/ (exists i, castObjectId dr _id = Some i /\ user_by_id s i = None)
  \/ castObjectId dr _id = None.
Proof.
  unfold user_of_path. destruct (castObjectId dr _id) as [i|]; [|auto].
  destruct (user_by_id s i) as [u|] eqn:E; eauto.
Qed.

Lemma User_findById_found (dr : driver) (s : db) (_id : jsstring) (u : user) :
  user_of_path dr s _id = Some u ->
  User_findById dr _id s = (Normal (Some u), s).
Proof.
  unfold user_of_path, User_findById.
  destruct (castObjectId dr _id); [intros ->; reflexivity|discriminate].
Qed.

Lemma User_findById_missing (dr : driver) (s : db) (_id : jsstring)
    (i : ObjectId) :
  castObjectId dr _id = Some i -> user_by_id s i = None ->
  User_findById dr _id s = (Normal None, s).
Proof. unfold User_findById. intros -> ->. reflexivity. Qed.

Lemma User_findById_uncast (dr : driver) (s : db) (_id : jsstring) :
  castObjectId dr _id = None ->
  User_findById dr _id s = (Throw CastError, s).
Proof. unfold User_findById. intros ->. reflexivity. Qed.

(** ** Reading the query of [GET .../logs] *)

Lemma date_bound_run (h : host) (q : qvalue) (s : db) :
  date_bound h q s = (Normal (bound h q), s).
Proof. destruct q as [|[|c t]|t]; reflexivity. Qed.

Lemma date_filter_run (h : host) (from to : qvalue) (s : db) :
  date_filter h from to s = (Normal (range_of (bound h from) (bound h to)), s).
Proof.
  unfold date_filter.
  destruct (ToBoolean (of_query from) || ToBoolean (of_query to)) eqn:E.
  - unfold Mongo.bind. rewrite !date_bound_run. reflexivity.
  - apply orb_false_elim in E as [E1 E2].
    destruct from as [|[|c t]|t]; try discriminate;
      destruct to as [|[|c' t']|t']; try discriminate; reflexivity.
Qed.

(** The filter never carries a [date] key without an operator. *)
Lemma date_filter_never_empty (h : host) (from to : qvalue) (s s' : db)
    (r : date_range) :
  date_filter h from to s = (Normal (Some r), s') ->
  gte r <> None \/ lte r <> None.
Proof.
  rewrite date_filter_run. intros H.
  assert (E : range_of (bound h from) (bound h to) = Some r) by congruence.
  unfold range_of in E.
  destruct (bound h from), (bound h to); inversion E; subst; simpl;
    try (left; discriminate); right; discriminate.
Qed.

Lemma range_of_in_window (lo hi : option Z) (d : Z) :
  match range_of lo hi with
  | None => true
  | Some r => in_range r d
  end = in_window lo hi d.
Proof.
  destruct lo, hi; unfold in_window; simpl; rewrite ?andb_true_r; reflexivity.
Qed.

Lemma positive_limit_positive (limit : qvalue) (n : nat) :
  positive_limit limit = Some n -> (1 <= n)%nat.
Proof.
  unfold positive_limit.
  destruct (parseInt limit) as [| |?|[|] m e] eqn:E; try discriminate.
  intros H. apply parseInt_finite in E as [Hm He].
  pose proof (truncate_normal m e Hm He) as Ht.
  assert (En : Z.to_nat (truncate false m e) = n) by congruence.
  rewrite <- En. lia.
Qed.

(** A limit that reads as the integer [n] caps at [n]. *)
Lemma positive_limit_of_Z (limit : qvalue) (n : Z) :
  1 <= n < 2 ^ 53 ->
  parseInt limit = of_Z n ->
  positive_limit limit = Some (Z.to_nat n).
Proof.
  intros Hn E. unfold positive_limit. rewrite E. unfold of_Z.
  destruct (Z.ltb_spec n 0); [lia|]. rewrite Z.abs_eq by lia.
  destruct (to_binary64_exact false n Hn) as (m & e & -> & <-).
  reflexivity.
Qed.

Lemma apply_limit_option (limit : qvalue) (l : list exercise) :
  apply_limit (limit_option limit) l =
  match positive_limit limit with
  | Some n => firstn n l
  | None => l
  end.
Proof.
  unfold limit_option, positive_limit.
  destruct (parseInt limit) as [|[|]|sg|neg m e] eqn:E; try reflexivity.
  apply parseInt_finite in E as [Hm He].
  simpl isNaN. rewrite orb_false_l, (ltb_one_normal neg m e Hm He).
  destruct neg; [reflexivity|].
  unfold apply_limit. pose proof (truncate_normal m e Hm He).
  rewrite Z.abs_eq by lia. reflexivity.
Qed.

Lemma get_logs_run (h : host) (dr : driver) (s : db) (_id : jsstring)
    (from to limit : qvalue) (u : user) :
  user_of_path dr s _id = Some u ->
  get_logs h dr _id from to limit s =
  let exs := match positive_limit limit with
             | Some n => firstn n (sort_by_date (selected h u from to s))
             | None => sort_by_date (selected h u from to s)
             end in
  (Normal (json (LogBody (user_username u) (Z.of_nat (List.length exs))
                   (user_id u) (map (view h) exs))), s).
Proof.
  intros Hu.
  unfold get_logs, try_catch, Mongo.bind.
  rewrite (User_findById_found dr s _id u Hu).
  rewrite date_filter_run. unfold Exercise_find, ret.
  rewrite apply_limit_option.
  assert (E : filter
                (matches {| q_userId := user_id u;
                            q_date := range_of (bound h from) (bound h to) |})
                (exercises s) = selected h u from to s).
  { unfold selected. apply filter_ext. intros e. unfold matches. simpl.
    rewrite range_of_in_window. reflexivity. }
  rewrite E. destruct (positive_limit limit); reflexivity.
Qed.

(** C1.  For an existing user and any [from], [to] and [limit], the log
    returned by [GET .../logs] is made of that user's exercises that pass
    the date filter, in ascending order of date.  When [limit] parses to
    a positive integer [n] it is the first [n] entries of the whole
    sorted selection, otherwise it is the whole selection; and [count]
    is the length of the log that is returned. *)
Theorem get_logs_sorted_filtered_limited
    (h : host) (dr : driver) (s : db) (_id : jsstring) (from to limit : qvalue)
        (u : user) :
  user_of_path dr s _id = Some u ->
  exists exs : list exercise,
    get_logs h dr _id from to limit s =
      (Normal (json (LogBody (user_username u)
                       (Z.of_nat (List.length (map (view h) exs)))
                       (user_id u)
                       (map (view h) exs))), s)
    /\ Sorted date_le exs
    /\ StronglySorted date_le exs
    /\ (forall e, In e exs -> In e (selected h u from to s))
    /\ exists all : list exercise,
         Permutation all (selected h u from to s)
         /\ StronglySorted date_le all
         /\ match positive_limit limit with
            | Some n => (1 <= n)%nat /\ exs = firstn n all
            | None => exs = all
            end.
Proof.
  intros Hu.
  set (all := sort_by_date (selected h u from to s)).
  assert (Hp : Permutation all (selected h u from to s))
    by apply sort_by_date_Permutation.
  assert (Hs : StronglySorted date_le all) by apply sort_by_date_sorted.
  exists (match positive_limit limit with
          | Some n => firstn n all
          | None => all
          end).
  assert (Hs' : StronglySorted date_le
                  match positive_limit limit with
                  | Some n => firstn n all
                  | None => all
                  end).
  { destruct (positive_limit limit); [apply firstn_sorted|]; exact Hs. }
  split; [|split; [|split; [|split]]].
  - rewrite length_map. apply (get_logs_run h dr s _id from to limit u Hu).
  - apply StronglySorted_Sorted, Hs'.
  - exact Hs'.
  - intros e He. eapply Permutation_in; [exact Hp|].
    destruct (positive_limit limit) as [n|]; [|exact He].
    rewrite <- (firstn_skipn n all). apply in_or_app. left. exact He.
  - exists all. split; [exact Hp|]. split; [exact Hs|].
    destruct (positive_limit limit) as [n|] eqn:E; [|reflexivity].
    split; [eapply positive_limit_positive; exact E|reflexivity].
Qed.

Lemma get_logs_sorted_filtered_limited_witness :
  user_of_path hex_driver sample_db (toHexString 1) = Some alice
  /\ positive_limit (QStr (js "2")) = Some 2%nat
  /\ exists exs : list exercise,
       get_logs utc_host hex_driver (toHexString 1) QUndefined QUndefined (QStr
           (js "2")) sample_db =
         (Normal (json (LogBody (js "alice")
                          (Z.of_nat (List.length (map (view utc_host) exs)))
                          1 (map (view utc_host) exs))), sample_db)
       /\ Sorted date_le exs.
Proof.
  split; [reflexivity|]. split; [reflexivity|].
  destruct (get_logs_sorted_filtered_limited utc_host hex_driver sample_db
              (toHexString 1) QUndefined QUndefined (QStr (js "2")) alice
                  eq_refl)
    as (exs & Hrun & Hsorted & _).
  exists exs. split; [exact Hrun|exact Hsorted].
Defined.

(** With five exercises stored and [limit=2], the two earliest come back. *)
Example get_logs_limit_2 :
  get_logs utc_host hex_driver (toHexString 1) QUndefined QUndefined (QStr (js
      "2")) sample_db =
  (Normal (json (LogBody (js "alice") 2 1
     [ {| log_description := js "walk"; log_duration := of_Z 60;
          log_date := js "Sat Dec 31 2022" |};
       {| log_description := js "swim"; log_duration := of_Z 45;
          log_date := js "Sun Jan 15 2023" |} ])), sample_db).
Proof. vm_compute. reflexivity. Qed.

(** Limits that do not parse to a positive integer cap nothing. *)
Example positive_limit_none :
  map positive_limit
    [QUndefined; QStr (js ""); QStr (js "abc"); QStr (js "0");
     QStr (js "-3"); QStr (js "2.9"); QStr (js " 7 days")]
  = [None; None; None; None; None; Some 2%nat; Some 7%nat].
Proof. vm_compute. reflexivity. Qed.

Lemma post_exercises_unknown (h : host) (dr : driver) (now : Z) (s : db)
    (_id : jsstring) (description duration date : value) (i : ObjectId) :
  castObjectId dr _id = Some i ->
  user_by_id s i = None ->
  post_exercises h dr now _id description duration date s =
    (Normal user_not_found, s).
Proof.
  intros Hc Hu. unfold post_exercises, try_catch, Mongo.bind.
  rewrite (User_findById_missing dr s _id i Hc Hu). reflexivity.
Qed.

Lemma get_logs_unknown (h : host) (dr : driver) (s : db) (_id : jsstring)
    (from to limit : qvalue) (i : ObjectId) :
  castObjectId dr _id = Some i ->
  user_by_id s i = None ->
  get_logs h dr _id from to limit s = (Normal user_not_found, s).
Proof.
  intros Hc Hu. unfold get_logs, try_catch, Mongo.bind.
  rewrite (User_findById_missing dr s _id i Hc Hu). reflexivity.
Qed.

(** An identifier that does not cast makes the lookup throw, and the
    [catch] answers 500. *)
Lemma post_exercises_uncast (h : host) (dr : driver) (now : Z) (s : db)
    (_id : jsstring) (description duration date : value) :
  castObjectId dr _id = None ->
  post_exercises h dr now _id description duration date s =
    (Normal server_error, s).
Proof.
  intros Hc. unfold post_exercises, try_catch, Mongo.bind.
  rewrite (User_findById_uncast dr s _id Hc). reflexivity.
Qed.

Lemma get_logs_uncast (h : host) (dr : driver) (s : db) (_id : jsstring)
    (from to limit : qvalue) :
  castObjectId dr _id = None ->
  get_logs h dr _id from to limit s = (Normal server_error, s).
Proof.
  intros Hc. unfold get_logs, try_catch, Mongo.bind.
  rewrite (User_findById_uncast dr s _id Hc). reflexivity.
Qed.

(** C4, as the routes have it.  When the identifier in the path casts to
    an identifier under which no user is stored, both
    [POST .../exercises] and [GET .../logs] answer 404 "user not found",
    whatever the other fields are; the lookup comes before the validation
    of description and duration, and the store is left as it was. *)
Theorem unknown_user_not_found
    (h : host) (dr : driver) (now : Z) (s : db) (_id : jsstring)
    (i : ObjectId)
    (description duration date : value) (from to limit : qvalue) :
  castObjectId dr _id = Some i ->
  user_by_id s i = None ->
  post_exercises h dr now _id description duration date s =
    (Normal (status_json 404 (ErrorBody (js "user not found"))), s)
  /\ get_logs h dr _id from to limit s =
    (Normal (status_json 404 (ErrorBody (js "user not found"))), s).
Proof.
  intros Hc Hu. split.
  - apply (post_exercises_unknown h dr now s _id _ _ _ i Hc Hu).
  - apply (get_logs_unknown h dr s _id _ _ _ i Hc Hu).
Qed.

Lemma unknown_user_not_found_witness :
  castObjectId hex_driver (toHexString 99) = Some 99
  /\ user_by_id sample_db 99 = None
  /\ post_exercises utc_host hex_driver 0 (toHexString 99) (VObject None)
       (VObject None) (VObject None) sample_db =
     (Normal (status_json 404 (ErrorBody (js "user not found"))), sample_db)
  /\ get_logs utc_host hex_driver (toHexString 99) QUndefined QUndefined
       QUndefined sample_db =
     (Normal (status_json 404 (ErrorBody (js "user not found"))), sample_db).
Proof.
  split; [reflexivity|]. split; [reflexivity|].
  apply (unknown_user_not_found utc_host hex_driver 0 sample_db
           (toHexString 99) 99); reflexivity.
Defined.

(** An identifier that is not one the driver takes, like [99], resolves
    to no user either, and is answered with the 500 of the [catch], not
    with the 404. *)
Lemma malformed_id_is_server_error :
  castObjectId hex_driver (js "99") = None
  /\ user_of_path hex_driver sample_db (js "99") = None
  /\ get_logs utc_host hex_driver (js "99") QUndefined QUndefined QUndefined
       sample_db = (Normal server_error, sample_db)
  /\ post_exercises utc_host hex_driver 0 (js "99") (VStr (js "run"))
       (VStr (js "30")) VUndefined sample_db = (Normal server_error, sample_db)
  /\ status server_error = 500.
Proof. repeat split; reflexivity. Qed.

(** C5.  The date filter of [GET .../logs]: a [from] that parses to a
    valid date keeps the entries dated at or after it, a [to] that parses
    to a valid date keeps those dated at or before it; a bound that is
    absent or does not parse is dropped without any error, and when both
    are, the query carries no date filter at all. *)
Theorem date_filter_inclusive_bounds
    (h : host) (dr : driver) (s : db) (_id : jsstring) (from to : qvalue) (u :
        user) :
  user_of_path dr s _id = Some u ->
  (exists r : option date_range,
      date_filter h from to s = (Normal r, s)
      /\ (bound h from = None -> bound h to = None -> r = None)
      /\ forall d : Z,
           match r with None => true | Some r => in_range r d end = true
           <-> (forall f, bound h from = Some f -> f <= d)
               /\ (forall t, bound h to = Some t -> d <= t))
  /\ exists exs : list exercise,
       get_logs h dr _id from to QUndefined s =
         (Normal (json (LogBody (user_username u)
                          (Z.of_nat (List.length exs)) (user_id u)
                          (map (view h) exs))), s)
       /\ forall e : exercise,
            In e exs <->
            In e (exercises s)
            /\ ex_userId e = user_id u
            /\ (forall f, bound h from = Some f -> f <= ex_date e)
            /\ (forall t, bound h to = Some t -> ex_date e <= t).
Proof.
  intros Hu.
  assert (Hw : forall lo hi d,
             in_window lo hi d = true <->
             (forall f, lo = Some f -> f <= d)
             /\ (forall t, hi = Some t -> d <= t)).
  { intros lo hi d. unfold in_window. rewrite andb_true_iff.
    destruct lo as [f|], hi as [t|]; rewrite ?Z.leb_le; split.
    all: try (intros [H1 H2]; split; intros x E;
              try discriminate; inversion E; subst; assumption).
    all: intros [H1 H2]; split; auto. }
  split.
  - exists (range_of (bound h from) (bound h to)). split; [|split].
    + apply date_filter_run.
    + intros -> ->. reflexivity.
    + intros d. rewrite range_of_in_window. apply Hw.
  - exists (sort_by_date (selected h u from to s)). split.
    + apply (get_logs_run h dr s _id from to QUndefined u Hu).
    + intros e. split.
      * intros He.
        apply (Permutation_in _ (sort_by_date_Permutation _)) in He.
        apply filter_In in He as [Hin Hb].
        apply andb_true_iff in Hb as [Hid Hwin].
        apply Z.eqb_eq in Hid. apply Hw in Hwin. tauto.
      * intros (Hin & Hid & Hlo & Hhi).
        apply (Permutation_in _ (Permutation_sym (sort_by_date_Permutation _))).
        apply filter_In. split; [exact Hin|].
        apply andb_true_iff. split; [apply Z.eqb_eq; exact Hid|].
        apply Hw. split; assumption.
Qed.

Lemma date_filter_inclusive_bounds_witness :
  user_of_path hex_driver sample_db (toHexString 1) = Some alice
  /\ bound utc_host (QStr (js "2023-01-15")) = Some 1673740800000
  /\ bound utc_host (QStr (js "not a date")) = None
  /\ exists r : option date_range,
       date_filter utc_host (QStr (js "2023-01-15")) (QStr (js "not a date"))
         sample_db = (Normal r, sample_db)
       /\ forall d : Z,
            match r with None => true | Some r => in_range r d end = true
            <-> (forall f, bound utc_host (QStr (js "2023-01-15")) = Some f ->
                           f <= d)
                /\ (forall t, bound utc_host (QStr (js "not a date")) = Some t
                    ->
                              d <= t).
Proof.
  split; [reflexivity|]. split; [reflexivity|]. split; [reflexivity|].
  destruct (date_filter_inclusive_bounds utc_host hex_driver sample_db
              (toHexString 1) (QStr (js "2023-01-15")) (QStr (js "not a date"))
                  alice eq_refl)
    as [(r & Hrun & _ & Hr) _].
  exists r. split; [exact Hrun|exact Hr].
Defined.

(** Both ends of the range are inclusive, and an unparsable bound is
    ignored. *)
Example get_logs_from_to :
  get_logs utc_host hex_driver (toHexString 1) (QStr (js "2023-01-15")) (QStr
      (js "2023-03-10"))
    QUndefined sample_db =
  (Normal (json (LogBody (js "alice") 3 1
     [ {| log_description := js "swim"; log_duration := of_Z 45;
          log_date := js "Sun Jan 15 2023" |};
       {| log_description := js "lift"; log_duration := of_Z 25;
          log_date := js "Wed Feb 01 2023" |};
       {| log_description := js "row"; log_duration := of_Z 20;
          log_date := js "Fri Mar 10 2023" |} ])), sample_db).
Proof. vm_compute. reflexivity. Qed.

(** ** Registration *)

Lemma User_create_run (s : db) (name : jsstring) :
  User_create name s =
  match user_by_name s name with
  | Some _ => (Throw (duplicate_key (js "username")), s)
  | None => (Normal {| user_id := next_id s; user_username := name |},
             with_user s name)
  end.
Proof.
  unfold User_create, user_by_name.
  destruct (existsb (has_username name) (users s)) eqn:E.
  - apply existsb_find in E as [u ->]. reflexivity.
  - destruct (find (has_username name) (users s)) as [u|] eqn:F;
      [|reflexivity].
    assert (existsb (has_username name) (users s) = true)
      by (apply existsb_find; eauto).
    congruence.
Qed.

(** What [POST /api/users] does with a string that is not blank. *)
Lemma post_users_run (s : db) (name : jsstring) :
  trim name <> [] ->
  post_users (VStr name) s =
  match user_by_name s (trim name) with
  | Some u => (Normal (json (UserBody (user_username u) (user_id u))), s)
  | None => (Normal (json (UserBody (trim name) (next_id s))),
             with_user s (trim name))
  end.
Proof.
  intros Ht.
  assert (Hn : ToBoolean (VStr name) = true)
    by (apply ToBoolean_string, trim_nonempty, Ht).
  assert (Hb : ToBoolean (VStr (trim name)) = true)
    by (apply ToBoolean_string, Ht).
  unfold post_users, try_catch. rewrite Hn. cbn [negb].
  unfold Mongo.bind at 1. cbn [lift call_trim]. rewrite Hb. cbn [negb].
  unfold Mongo.bind at 1. cbn [lift call_trim].
  unfold Mongo.bind at 1. rewrite User_create_run.
  destruct (user_by_name s (trim name)) as [u|] eqn:E; [|reflexivity].
  change (is_username_conflict (duplicate_key (js "username"))) with true.
  cbv iota. unfold Mongo.bind, lift, call_trim, User_findOne.
  rewrite E. reflexivity.
Qed.

Lemma user_by_name_with_user (s : db) (name : jsstring) :
  user_by_name s name = None ->
  user_by_name (with_user s name) name =
  Some {| user_id := next_id s; user_username := name |}.
Proof.
  intros H. unfold user_by_name, with_user. cbn [users].
  apply find_app_fresh.
  - destruct (existsb (has_username name) (users s)) eqn:E; [|reflexivity].
    apply existsb_find in E as [u E]. unfold user_by_name in H. congruence.
  - apply str_eqb_refl.
Qed.

(** C9.  [POST /api/users] rejects with status 400 every username that is
    empty after trimming (the empty string and blank strings included,
    and a missing username too); for any other username the response is
    exactly [{ username, _id }] with the trimmed name, and the store then
    holds a user with that identifier and the trimmed name: either it was
    there already and the store is unchanged, or it has just been added
    under a fresh identifier. *)
Theorem register_validates_and_trims (s : db) (name : jsstring) :
  post_users VUndefined s = (Normal username_required, s)
  /\ (trim name = [] ->
      post_users (VStr name) s = (Normal username_required, s))
  /\ (trim name <> [] ->
      exists (i : ObjectId) (s' : db),
        post_users (VStr name) s =
          (Normal (json (UserBody (trim name) i)), s')
        /\ In {| user_id := i; user_username := trim name |} (users s')
        /\ (s' = s
            \/ (user_by_name s (trim name) = None
                /\ i = next_id s
                /\ s' = with_user s (trim name)))).
Proof.
  split; [reflexivity|]. split.
  - intros Ht. unfold post_users, try_catch.
    destruct name as [|c name]; [reflexivity|].
    cbn [ToBoolean negb]. unfold Mongo.bind. cbn [lift call_trim].
    rewrite Ht. reflexivity.
  - intros Ht. rewrite (post_users_run s name Ht).
    destruct (user_by_name s (trim name)) as [u|] eqn:E.
    + apply user_by_name_name in E as [En Hin].
      exists (user_id u), s. rewrite En. split; [reflexivity|].
      split; [|left; reflexivity].
      destruct u as [i n]. simpl in *. subst n. exact Hin.
    + exists (next_id s), (with_user s (trim name)).
      split; [reflexivity|]. split.
      * unfold with_user. cbn [users]. apply in_or_app. right. left.
        reflexivity.
      * right. auto.
Qed.

Lemma register_validates_and_trims_witness :
  trim (js "   ") = []
  /\ post_users (VStr (js "   ")) empty_db = (Normal username_required,
      empty_db)
  /\ trim (js " alice ") <> []
  /\ exists (i : ObjectId) (s' : db),
       post_users (VStr (js " alice ")) empty_db =
         (Normal (json (UserBody (trim (js " alice ")) i)), s')
       /\ In {| user_id := i; user_username := trim (js " alice ") |}
            (users s').
Proof.
  assert (Hblank : trim (js "   ") = []) by reflexivity.
  assert (Hname : trim (js " alice ") <> []) by (vm_compute; discriminate).
  split; [exact Hblank|]. split.
  - apply (proj1 (proj2 (register_validates_and_trims empty_db (js "   ")))).
    exact Hblank.
  - split; [exact Hname|].
    destruct (proj2 (proj2 (register_validates_and_trims empty_db
                              (js " alice "))) Hname)
      as (i & s' & Hrun & Hin & _).
    exists i, s'. split; [exact Hrun|exact Hin].
Defined.

Example register_blank :
  post_users (VStr (js "")) empty_db = (Normal username_required, empty_db)
  /\ post_users (VStr (js "   ")) empty_db = (Normal username_required,
      empty_db).
Proof. split; reflexivity. Qed.

(** C3.  Registering the same non-blank username twice returns the same
    identifier both times.  When the store reports a uniqueness violation
    on [username], the route does not fail: it looks the existing user up
    and returns it, leaving the store as it was. *)
Theorem register_idempotent (s : db) (name : jsstring) :
  trim name <> [] ->
  (exists (i : ObjectId) (s1 : db),
      post_users (VStr name) s = (Normal (json (UserBody (trim name) i)), s1)
      /\ post_users (VStr name) s1 =
           (Normal (json (UserBody (trim name) i)), s1))
  /\ (forall u : user,
        user_by_name s (trim name) = Some u ->
        User_create (trim name) s = (Throw (duplicate_key (js "username")), s)
        /\ post_users (VStr name) s =
             (Normal (json (UserBody (user_username u) (user_id u))), s)).
Proof.
  intros Ht. split.
  - rewrite (post_users_run s name Ht).
    destruct (user_by_name s (trim name)) as [u|] eqn:E.
    + exists (user_id u), s.
      rewrite (post_users_run s name Ht), E.
      apply user_by_name_name in E as [-> _]. split; reflexivity.
    + exists (next_id s), (with_user s (trim name)).
      split; [reflexivity|].
      rewrite (post_users_run _ name Ht).
      rewrite (user_by_name_with_user s (trim name) E). reflexivity.
  - intros u E. split.
    + rewrite User_create_run, E. reflexivity.
    + rewrite (post_users_run s name Ht), E. reflexivity.
Qed.

Lemma register_idempotent_witness :
  trim (js "alice") <> []
  /\ (exists (i : ObjectId) (s1 : db),
        post_users (VStr (js "alice")) empty_db =
          (Normal (json (UserBody (trim (js "alice")) i)), s1)
        /\ post_users (VStr (js "alice")) s1 =
             (Normal (json (UserBody (trim (js "alice")) i)), s1))
  /\ user_by_name sample_db (trim (js "alice")) = Some alice
  /\ post_users (VStr (js "alice")) sample_db =
       (Normal (json (UserBody (js "alice") 1)), sample_db).
Proof.
  assert (Hname : trim (js "alice") <> []) by (vm_compute; discriminate).
  split; [exact Hname|]. split.
  - exact (proj1 (register_idempotent empty_db (js "alice") Hname)).
  - split; [reflexivity|].
    exact (proj2 (proj2 (register_idempotent sample_db (js "alice") Hname)
                    alice eq_refl)).
Defined.

(** ** Logging an exercise *)

(** [POST .../exercises] for an existing user, step by step. *)
Lemma post_exercises_run (h : host) (dr : driver) (now : Z) (s : db) (_id :
    jsstring)
    (description duration date : value) (u : user) :
  user_of_path dr s _id = Some u ->
  post_exercises h dr now _id description duration date s =
  match Number duration with
  | Throw _ => (Normal server_error, s)
  | Normal dur =>
      if negb (ToBoolean description) || negb (ToBoolean (VNum dur))
      then (Normal validation_error, s)
      else
        match (if ToBoolean date then construct h date
               else Normal (Some now)) with
        | Throw _ => (Normal server_error, s)
        | Normal d =>
            let t := match d with None => now | Some t => t end in
            match call_trim description with
            | Throw _ => (Normal server_error, s)
            | Normal desc =>
                (Normal (json (ExerciseBody (user_id u) (user_username u)
                                 (toFCCDateString h t) dur desc)),
                 with_exercise s (user_id u) desc dur t)
            end
        end
  end.
Proof.
  intros Hu.
  unfold post_exercises, try_catch.
  unfold Mongo.bind at 1. rewrite (User_findById_found dr s _id u Hu).
  unfold Mongo.bind at 1. unfold lift at 1.
  destruct (Number duration) as [dur|err]; [|reflexivity].
  destruct (negb (ToBoolean description) || negb (ToBoolean (VNum dur)));
    [reflexivity|].
  unfold Mongo.bind at 1.
  assert (E : (if ToBoolean date then lift (construct h date)
               else ret (Some now)) s =
              ((if ToBoolean date then construct h date
                else Normal (Some now)), s))
    by (destruct (ToBoolean date); reflexivity).
  rewrite E. clear E.
  destruct (if ToBoolean date then construct h date else Normal (Some now))
    as [d|err]; [|reflexivity].
  unfold Mongo.bind at 1. unfold lift at 1.
  destruct (call_trim description) as [desc|err]; reflexivity.
Qed.

(** C2, as the route has it.  For an existing user, a duration whose
    conversion to a Number completes, and a description that is missing,
    empty, or a string with something left after trimming: the route
    answers 400 "description and duration are required" exactly when the
    description is missing or empty or the duration converts to [NaN] or
    to zero.  A duration that converts to a negative number is accepted
    like any other non-zero one. *)
Theorem log_exercise_validation
    (h : host) (dr : driver) (now : Z) (s : db) (_id : jsstring)
    (description duration date : value) (u : user) (dur : number) :
  user_of_path dr s _id = Some u ->
  Number duration = Normal dur ->
  (description = VUndefined
   \/ exists t, description = VStr t /\ (t = [] \/ trim t <> [])) ->
  post_exercises h dr now _id description duration date s =
    (Normal validation_error, s)
  <-> (blank description \/ dur = NaN \/ exists sg, dur = Zero sg).
Proof.
  intros Hu Hd Hdesc.
  rewrite (post_exercises_run h dr now s _id description duration date u Hu),
      Hd.
  assert (Hdur : ToBoolean (VNum dur) = false <->
                 dur = NaN \/ exists sg, dur = Zero sg).
  { destruct dur; simpl; split; intros H; try discriminate; eauto.
    - destruct H as [H|[sg H]]; discriminate.
    - destruct H as [H|[sg H]]; discriminate. }
  destruct Hdesc as [->|(t & -> & [->|Ht])].
  - simpl. split; [left; left; reflexivity|reflexivity].
  - simpl. split; [|reflexivity].
    left. right. exists []. split; reflexivity.
  - assert (Hb : ToBoolean (VStr t) = true)
      by (apply ToBoolean_string, trim_nonempty, Ht).
    rewrite Hb. cbn [negb orb].
    destruct (ToBoolean (VNum dur)) eqn:E; cbn [negb].
    + split.
      * intros H. exfalso.
        destruct (if ToBoolean date then construct h date
                  else Normal (Some now)) as [d|err];
          cbn [call_trim] in H; discriminate H.
      * intros [[H|(t' & H & Ht')]|H].
        -- discriminate H.
        -- inversion H; subst. contradiction.
        -- apply Hdur in H. discriminate H.
    + split; [|reflexivity].
      intros _. right. apply Hdur. reflexivity.
Qed.

Lemma log_exercise_validation_witness :
  user_of_path hex_driver sample_db (toHexString 1) = Some alice
  /\ Number (VStr (js "0")) = Normal (Zero false)
  /\ post_exercises utc_host hex_driver 0 (toHexString 1) (VStr (js "run"))
      (VStr (js "0")) VUndefined
       sample_db = (Normal validation_error, sample_db).
Proof.
  split; [reflexivity|]. split; [reflexivity|].
  apply (log_exercise_validation utc_host hex_driver 0 sample_db
           (toHexString 1) (VStr (js "run"))
           (VStr (js "0")) VUndefined alice (Zero false)).
  - reflexivity.
  - reflexivity.
  - right. exists (js "run"). split; [reflexivity|].
    right. vm_compute. discriminate.
  - right. right. exists false. reflexivity.
Defined.

(** A duration of [-5] does not convert to a positive number, and the
    exercise is recorded all the same. *)
Lemma negative_duration_accepted :
  ~ converts_to_positive (VStr (js "-5"))
  /\ Number (VStr (js "-5")) = Normal (of_Z (-5))
  /\ fst (post_exercises utc_host hex_driver 0 (toHexString 1) (VStr (js
      "run")) (VStr (js "-5"))
            (VStr (js "2023-05-01")) sample_db) <> Normal validation_error
  /\ post_exercises utc_host hex_driver 0 (toHexString 1) (VStr (js "run"))
      (VStr (js "-5"))
       (VStr (js "2023-05-01")) sample_db =
     (Normal (json (ExerciseBody 1 (js "alice") (js "Mon May 01 2023")
                      (of_Z (-5)) (js "run"))),
      with_exercise sample_db 1 (js "run") (of_Z (-5)) 1682899200000).
Proof.
  split; [|split; [|split]].
  - intros [H|(m & e & H)]; vm_compute in H; discriminate H.
  - vm_compute. reflexivity.
  - vm_compute. discriminate.
  - vm_compute. reflexivity.
Qed.

(** C10.  For an existing user and a duration that passes, a description
    that is truthy but not a string gets past the validation, the call of
    [trim] on it throws, and the route answers the generic 500, leaving
    the store as it was.  With a string for description, and no object
    with a throwing conversion for duration or date, the route never
    answers 500. *)
Theorem non_string_description_is_server_error
    (h : host) (dr : driver) (now : Z) (s : db) (_id : jsstring)
    (description duration date : value) (u : user) (dur : number) :
  user_of_path dr s _id = Some u ->
  Number duration = Normal dur ->
  ToBoolean (VNum dur) = true ->
  (ToBoolean description = true ->
   (forall t, description <> VStr t) ->
   call_trim description = Throw TypeError
   /\ post_exercises h dr now _id description duration date s =
        (Normal server_error, s))
  /\ ((exists t, description = VStr t) ->
      date <> VObject None ->
      fst (post_exercises h dr now _id description duration date s)
        <> Normal server_error).
Proof.
  intros Hu Hd Hdur.
  rewrite (post_exercises_run h dr now s _id description duration date u Hu),
      Hd.
  rewrite Hdur. split.
  - intros Hb Hns. rewrite Hb. cbn [negb orb].
    assert (Ht : call_trim description = Throw TypeError).
    { destruct description; try reflexivity. exfalso. eapply Hns; eauto. }
    split; [exact Ht|]. rewrite Ht.
    destruct (if ToBoolean date then construct h date else Normal (Some now));
      reflexivity.
  - intros [t ->] Hdate. cbn [negb orb call_trim].
    destruct (negb (ToBoolean (VStr t))); [discriminate|].
    assert (Hc : exists d, (if ToBoolean date then construct h date
                            else Normal (Some now)) = Normal d).
    { destruct date as [| | | | |[p|]]; simpl;
        try destruct b; try destruct n; try destruct s0; eauto.
      contradiction. }
    destruct Hc as [d ->]. discriminate.
Qed.

Lemma non_string_description_is_server_error_witness :
  user_of_path hex_driver sample_db (toHexString 1) = Some alice
  /\ Number (VStr (js "30")) = Normal (of_Z 30)
  /\ ToBoolean (VNum (of_Z 30)) = true
  /\ ToBoolean (VNum (of_Z 7)) = true
  /\ post_exercises utc_host hex_driver 0 (toHexString 1) (VNum (of_Z 7)) (VStr
      (js "30")) VUndefined
       sample_db = (Normal server_error, sample_db)
  /\ fst (post_exercises utc_host hex_driver 0 (toHexString 1) (VStr (js "7"))
      (VStr (js "30"))
            VUndefined sample_db) <> Normal server_error.
Proof.
  split; [reflexivity|]. split; [reflexivity|]. split; [reflexivity|].
  split; [reflexivity|]. split.
  - apply (proj1 (non_string_description_is_server_error utc_host hex_driver 0
                    sample_db (toHexString 1) (VNum (of_Z 7))
                    (VStr (js "30")) VUndefined
                    alice (of_Z 30) eq_refl eq_refl eq_refl)).
    + reflexivity.
    + intros t. discriminate.
  - apply (proj2 (non_string_description_is_server_error utc_host hex_driver 0
                    sample_db (toHexString 1) (VStr (js "7"))
                    (VStr (js "30")) VUndefined
                    alice (of_Z 30) eq_refl eq_refl eq_refl)).
    + exists (js "7"). reflexivity.
    + discriminate.
Defined.




Example log_exercise_dates :
  map (fun date =>
         fst (post_exercises utc_host hex_driver 1700000000000 (toHexString 1)
             (VStr (js "run"))
                (VStr (js "30")) date sample_db))
      [VStr (js "2023-05-01"); VUndefined; VStr (js ""); VStr (js "soon")]
  = map (fun day =>
           Normal (json (ExerciseBody 1 (js "alice") (js day) (of_Z 30)
                           (js "run"))))
        ["Mon May 01 2023"; "Tue Nov 14 2023"; "Tue Nov 14 2023";
         "Tue Nov 14 2023"]%string.
Proof. vm_compute. reflexivity. Qed.

(** ** The shape of the responses *)

(** C7.  A successful [POST .../exercises] answers with exactly the five
    fields [_id], [username], [date], [duration] and [description], where
    [_id] is the identifier of the user, the one in the path, and not
    that of the exercise just stored; a successful [GET .../logs] answers
    with [username], [count], [_id] and [log], where [_id] is again the
    identifier of the user. *)
Theorem responses_carry_the_user_id :
  (forall (h : host) (dr : driver) (now : Z) (s s' : db) (_id : jsstring)
          (description duration date : value) (r : response),
      post_exercises h dr now _id description duration date s = (Normal r, s')
          ->
      status r = 200 ->
      exists (u : user) (ex : exercise),
        user_of_path dr s _id = Some u
        /\ castObjectId dr _id = Some (user_id u)
        /\ exercises s' = exercises s ++ [ex]
        /\ ex_userId ex = user_id u
        /\ body r = ExerciseBody (user_id u) (user_username u)
                      (toFCCDateString h (ex_date ex))
                      (ex_duration ex) (ex_description ex)
        /\ (fresh_ids s -> ex_id ex <> user_id u))
  /\ (forall (h : host) (dr : driver) (s s' : db) (_id : jsstring) (from to
      limit : qvalue)
             (r : response),
         get_logs h dr _id from to limit s = (Normal r, s') ->
         status r = 200 ->
         exists (u : user) (count : Z) (log : list log_entry),
           user_of_path dr s _id = Some u
           /\ castObjectId dr _id = Some (user_id u)
           /\ body r = LogBody (user_username u) count (user_id u) log
           /\ count = Z.of_nat (List.length log)).
Proof.
  split.
  - intros h dr now s s' _id description duration date r Hrun Hst.
    destruct (user_of_path_cases dr s _id) as [[u Hu]|[(i & Hc & Hn)|Hc]].
    + rewrite (post_exercises_run h dr now s _id description duration date u Hu)
        in Hrun.
      destruct (Number duration) as [dur|err];
        [|inversion Hrun; subst; discriminate Hst].
      destruct (negb (ToBoolean description) || negb (ToBoolean (VNum dur)));
        [inversion Hrun; subst; discriminate Hst|].
      destruct (if ToBoolean date then construct h date
                else Normal (Some now)) as [d|err];
        [|inversion Hrun; subst; discriminate Hst].
      cbv zeta in Hrun.
      destruct (call_trim description) as [desc|err];
        [|inversion Hrun; subst; discriminate Hst].
      destruct (user_of_path_cast dr s _id u Hu) as (Hid & _ & Hin).
      inversion Hrun; subst r s'. clear Hrun.
      eexists u, _. split; [exact Hu|]. split; [exact Hid|].
      split; [reflexivity|]. split; [reflexivity|]. split; [reflexivity|].
      intros Hfresh. cbn [ex_id].
      pose proof (proj1 (Forall_forall _ _) Hfresh u Hin) as Hlt.
      simpl in Hlt. lia.
    + rewrite (post_exercises_unknown h dr now s _id description duration date
                 i Hc Hn) in Hrun.
      inversion Hrun; subst. discriminate Hst.
    + rewrite (post_exercises_uncast h dr now s _id description duration date
                 Hc) in Hrun.
      inversion Hrun; subst. discriminate Hst.
  - intros h dr s s' _id from to limit r Hrun Hst.
    destruct (user_of_path_cases dr s _id) as [[u Hu]|[(i & Hc & Hn)|Hc]].
    + rewrite (get_logs_run h dr s _id from to limit u Hu) in Hrun.
      cbv zeta in Hrun.
      destruct (user_of_path_cast dr s _id u Hu) as (Hid & _ & Hin).
      inversion Hrun; subst r s'. clear Hrun.
      eexists u, _, _. split; [exact Hu|]. split; [exact Hid|].
      split; [reflexivity|]. rewrite length_map. reflexivity.
    + rewrite (get_logs_unknown h dr s _id from to limit i Hc Hn) in Hrun.
      inversion Hrun; subst. discriminate Hst.
    + rewrite (get_logs_uncast h dr s _id from to limit Hc) in Hrun.
      inversion Hrun; subst. discriminate Hst.
Qed.

Lemma responses_carry_the_user_id_witness :
  fresh_ids sample_db
  /\ (exists (u : user) (ex : exercise),
        user_of_path hex_driver sample_db (toHexString 1) = Some u
        /\ castObjectId hex_driver (toHexString 1) = Some (user_id u)
        /\ exercises (with_exercise sample_db 1 (js "run") (of_Z 30) 0) =
             exercises sample_db ++ [ex]
        /\ ex_id ex <> user_id u)
  /\ (exists (u : user) (count : Z) (log : list log_entry),
        user_of_path hex_driver sample_db (toHexString 1) = Some u
        /\ castObjectId hex_driver (toHexString 1) = Some (user_id u)
        /\ body (json (LogBody (js "alice") 0 1 [])) =
             LogBody (user_username u) count (user_id u) log).
Proof.
  assert (Hfresh : fresh_ids sample_db)
    by (repeat constructor).
  split; [exact Hfresh|]. split.
  2: { destruct (proj2 responses_carry_the_user_id utc_host hex_driver sample_db
                   sample_db (toHexString 1) (QStr (js "2024-01-01"))
                   QUndefined QUndefined
                   (json (LogBody (js "alice") 0 1 [])))
         as (u & count & log & Hu & Hid & Hbody & _).
       - vm_compute. reflexivity.
       - reflexivity.
       - exists u, count, log. repeat split; assumption. }
  destruct (proj1 responses_carry_the_user_id utc_host hex_driver 0 sample_db
              (with_exercise sample_db 1 (js "run") (of_Z 30) 0)
              (toHexString 1)
              (VStr (js "run")) (VStr (js "30")) VUndefined
              (json (ExerciseBody 1 (js "alice") (js "Thu Jan 01 1970")
                       (of_Z 30) (js "run"))))
    as (u & ex & Hu & Hid & Hex & _ & _ & Hne).
  - vm_compute. reflexivity.
  - reflexivity.
  - exists u, ex. repeat split; auto.
Defined.

(** ** Decimal numerals *)

Lemma digits_value_app (a b : jsstring) (acc : Z) :
  digits_value (a ++ b) acc = digits_value b (digits_value a acc).
Proof. apply fold_left_app. Qed.

Lemma decimal_digits_value (fuel : nat) :
  forall (n : Z) (acc : jsstring),
    0 <= n < 10 ^ Z.of_nat (S fuel) ->
    digits_value (decimal_digits fuel n acc) 0 = digits_value acc n.
Proof.
  induction fuel as [|fuel IH]; intros n acc Hn;
    cbn [decimal_digits]; cbv zeta.
  - change (10 ^ Z.of_nat 1) with 10 in Hn.
    unfold digits_value. cbn [fold_left]. f_equal.
    Z.div_mod_to_equations. lia.
  - destruct (Z.eqb_spec (n / 10) 0) as [E|E].
    + unfold digits_value. cbn [fold_left]. f_equal.
      Z.div_mod_to_equations. lia.
    + rewrite IH.
      * unfold digits_value. cbn [fold_left]. f_equal.
        Z.div_mod_to_equations. lia.
      * replace (Z.of_nat (S (S fuel))) with (Z.of_nat (S fuel) + 1) in Hn
          by lia.
        rewrite Z.pow_add_r in Hn by lia. change (10 ^ 1) with 10 in Hn.
        Z.div_mod_to_equations. lia.
Qed.

Lemma log2_fuel (n : Z) :
  0 <= n -> n < 10 ^ Z.of_nat (S (Z.to_nat (Z.log2 n))).
Proof.
  intros Hn.
  destruct (Z.eq_dec n 0) as [->|Hne]; [reflexivity|].
  pose proof (Z.log2_nonneg n) as Hl.
  replace (Z.of_nat (S (Z.to_nat (Z.log2 n)))) with (Z.succ (Z.log2 n))
    by lia.
  eapply Z.lt_le_trans; [apply Z.log2_spec; lia|].
  apply Z.pow_le_mono_l. lia.
Qed.

Lemma digits_value_zeros (j : nat) (ds : jsstring) :
  digits_value (repeat 48 j ++ ds) 0 = digits_value ds 0.
Proof.
  induction j as [|j IH]; [reflexivity|].
  cbn [repeat app]. unfold digits_value in *. cbn [fold_left].
  exact IH.
Qed.

(** The digits of a padded numeral spell the number. *)
Lemma ToZeroPaddedDecimalString_value (n : Z) (k : nat) :
  0 <= n -> digits_value (ToZeroPaddedDecimalString n k) 0 = n.
Proof.
  intros Hn. unfold ToZeroPaddedDecimalString.
  rewrite digits_value_zeros, decimal_digits_value; [reflexivity|].
  split; [exact Hn|apply log2_fuel, Hn].
Qed.

Lemma decimal_digits_nonempty (fuel : nat) :
  forall (n : Z) (acc : jsstring), decimal_digits fuel n acc <> [].
Proof.
  induction fuel as [|fuel IH]; intros n acc; cbn [decimal_digits];
    cbv zeta; [discriminate|].
  destruct (n / 10 =? 0); [discriminate|apply IH].
Qed.

Lemma ToZeroPaddedDecimalString_digits (n : Z) (k : nat) :
  Forall is_decimal_digit (ToZeroPaddedDecimalString n k)
  /\ ToZeroPaddedDecimalString n k <> [].
Proof.
  unfold ToZeroPaddedDecimalString. split.
  - apply Forall_app. split.
    + apply Forall_forall. intros x Hx. apply repeat_spec in Hx. subst.
      unfold is_decimal_digit. lia.
    + apply decimal_digits_Forall. constructor.
  - intros H. apply app_eq_nil in H as [_ H].
    exact (decimal_digits_nonempty _ _ _ H).
Qed.

(** ** Date strings *)

(** The parts of a date string: weekday and month names of three
    letters, a day of two digits that spell the day of the month, and a
    year whose digits spell it, after a minus sign when it is negative;
    there are four of them when it lies between 0 and 9999. *)
Lemma DateString_shape (t : Z) :
  exists dd yyyy : jsstring,
    DateString t =
      weekday_name (WeekDay t) ++ js " " ++ month_name (MonthFromTime t)
      ++ js " " ++ dd ++ js " " ++ yyyy
    /\ List.length (weekday_name (WeekDay t)) = 3%nat
    /\ List.length (month_name (MonthFromTime t)) = 3%nat
    /\ List.length dd = 2%nat /\ Forall is_decimal_digit dd
    /\ digits_value dd 0 = DateFromTime t
    /\ (0 <= YearFromTime t ->
        Forall is_decimal_digit yyyy
        /\ digits_value yyyy 0 = YearFromTime t)
    /\ (YearFromTime t < 0 ->
        exists ds, yyyy = js "-" ++ ds
                   /\ Forall is_decimal_digit ds
                   /\ digits_value ds 0 = - YearFromTime t)
    /\ (0 <= YearFromTime t <= 9999 -> List.length yyyy = 4%nat).
Proof.
  exists (ToZeroPaddedDecimalString (DateFromTime t) 2),
         ((if 0 <=? YearFromTime t then [] else js "-")
          ++ ToZeroPaddedDecimalString (Z.abs (YearFromTime t)) 4).
  split; [reflexivity|].
  split; [apply weekday_name_length|].
  split; [apply month_name_length|].
  pose proof (DateFromTime_range t) as Hd.
  destruct (ToZeroPaddedDecimalString_width (DateFromTime t) 1) as [Hl Hf].
  { change (10 ^ Z.of_nat 2) with 100. lia. }
  split; [exact Hl|]. split; [exact Hf|].
  split; [apply ToZeroPaddedDecimalString_value; lia|].
  split; [|split].
  - intros Hy. destruct (Z.leb_spec 0 (YearFromTime t)); [|lia].
    rewrite Z.abs_eq by lia. cbn [app].
    split; [apply ToZeroPaddedDecimalString_digits|].
    apply ToZeroPaddedDecimalString_value. lia.
  - intros Hy. destruct (Z.leb_spec 0 (YearFromTime t)); [lia|].
    exists (ToZeroPaddedDecimalString (Z.abs (YearFromTime t)) 4).
    split; [reflexivity|].
    split; [apply ToZeroPaddedDecimalString_digits|].
    rewrite ToZeroPaddedDecimalString_value by lia. lia.
  - intros Hy. destruct (Z.leb_spec 0 (YearFromTime t)); [|lia].
    rewrite Z.abs_eq by lia. cbn [app].
    apply ToZeroPaddedDecimalString_width.
    change (10 ^ Z.of_nat 4) with 10000. lia.
Qed.

(** C8, as the route has it.  Every date string in a response renders
    the calendar day of the stored time value in the time zone of the
    server: the three-letter name of its weekday, the three-letter name
    of its month, the two digits of its day of the month and the digits
    of its year, four of them for the years 0 to 9999 and a minus sign
    before them for a negative year; year, month and day of the month
    are those of the calendar date of that day.
    On a server whose zone is at or ahead of UTC (by less than a day) at
    that instant, logging an exercise dated "2023-05-01" answers with the
    date string "Mon May 01 2023". *)
Theorem date_string_format :
  (forall (h : host) (t : Z),
      exists dd yyyy : jsstring,
        toFCCDateString h t =
          weekday_name (WeekDay (LocalTime h t)) ++ js " "
          ++ month_name (MonthFromTime (LocalTime h t)) ++ js " "
          ++ dd ++ js " " ++ yyyy
        /\ List.length (weekday_name (WeekDay (LocalTime h t))) = 3%nat
        /\ List.length (month_name (MonthFromTime (LocalTime h t))) = 3%nat
        /\ List.length dd = 2%nat /\ Forall is_decimal_digit dd
        /\ digits_value dd 0 = DateFromTime (LocalTime h t)
        /\ (0 <= YearFromTime (LocalTime h t) ->
            Forall is_decimal_digit yyyy
            /\ digits_value yyyy 0 = YearFromTime (LocalTime h t))
        /\ (YearFromTime (LocalTime h t) < 0 ->
            exists ds, yyyy = js "-" ++ ds
                       /\ Forall is_decimal_digit ds
                       /\ digits_value ds 0 = - YearFromTime (LocalTime h t))
        /\ (0 <= YearFromTime (LocalTime h t) <= 9999 ->
            List.length yyyy = 4%nat)
        /\ 0 <= MonthFromTime (LocalTime h t) <= 11
        /\ 1 <= DateFromTime (LocalTime h t)
             <= days_in_month (YearFromTime (LocalTime h t))
                  (MonthFromTime (LocalTime h t) + 1)
        /\ Day (LocalTime h t) =
             MakeDay (YearFromTime (LocalTime h t))
               (MonthFromTime (LocalTime h t))
               (DateFromTime (LocalTime h t))
        /\ WeekDay (LocalTime h t) = (Day (LocalTime h t) + 4) mod 7)
  /\ (forall (h : host) (dr : driver) (now : Z) (s : db) (_id : jsstring)
             (u : user),
         user_of_path dr s _id = Some u ->
         0 <= LocalTZA h 1682899200000 true < msPerDay ->
         fst (post_exercises h dr now _id (VStr (js "run")) (VStr (js "30"))
                (VStr (js "2023-05-01")) s) =
         Normal (json (ExerciseBody (user_id u) (user_username u)
                         (js "Mon May 01 2023") (of_Z 30) (js "run")))).
Proof.
  split.
  - intros h t.
    destruct (DateString_shape (LocalTime h t))
      as (dd & yyyy & E & Hw & Hm & Hl & Hf & Hv & Hy & Hneg & Hy4).
    exists dd, yyyy.
    split; [exact E|]. split; [exact Hw|]. split; [exact Hm|].
    split; [exact Hl|]. split; [exact Hf|]. split; [exact Hv|].
    split; [exact Hy|]. split; [exact Hneg|]. split; [exact Hy4|].
    split; [apply MonthFromTime_range|].
    split; [split; [apply DateFromTime_range|apply DateFromTime_month]|].
    split; [apply Day_calendar|reflexivity].
  - intros h dr now s _id u Hu Hz.
    rewrite (post_exercises_run h dr now s _id _ _ _ u Hu).
    change (Number (VStr (js "30"))) with (Normal (of_Z 30)).
    cbv beta iota.
    change (ToBoolean (VNum (of_Z 30))) with true.
    change (ToBoolean (VStr (js "run"))) with true.
    change (ToBoolean (VStr (js "2023-05-01"))) with true.
    cbn [negb orb fst].
    assert (Hp : construct h (VStr (js "2023-05-01")) =
                 Normal (Some 1682899200000)) by reflexivity.
    rewrite Hp. cbn [call_trim fst].
    change (trim (js "run")) with (js "run").
    unfold toFCCDateString, toDateString, LocalTime.
    rewrite (DateString_Day _ 1682899200000); [reflexivity|].
    unfold Day, msPerDay in *.
    Z.div_mod_to_equations. lia.
Qed.

Lemma date_string_format_witness :
  user_of_path hex_driver sample_db (toHexString 1) = Some alice
  /\ 0 <= LocalTZA (fixed_offset_host 330) 1682899200000 true < msPerDay
  /\ fst (post_exercises (fixed_offset_host 330) hex_driver 0 (toHexString 1)
      (VStr (js "run"))
            (VStr (js "30")) (VStr (js "2023-05-01")) sample_db) =
     Normal (json (ExerciseBody 1 (js "alice") (js "Mon May 01 2023")
                     (of_Z 30) (js "run"))).
Proof.
  assert (Hz : 0 <= LocalTZA (fixed_offset_host 330) 1682899200000 true
               < msPerDay)
    by (cbn [LocalTZA fixed_offset_host]; unfold msPerMinute, msPerDay; lia).
  split; [reflexivity|]. split; [exact Hz|].
  exact (proj2 date_string_format (fixed_offset_host 330) hex_driver 0
           sample_db (toHexString 1) alice eq_refl Hz).
Defined.

(** On a server five hours behind UTC the same request answers with the
    day before; and a time value in year 10000 renders with a five-digit
    year. *)
Lemma date_string_west_of_utc :
  fst (post_exercises (fixed_offset_host (-300)) hex_driver 0 (toHexString 1)
      (VStr (js "run"))
         (VStr (js "30")) (VStr (js "2023-05-01")) sample_db) =
    Normal (json (ExerciseBody 1 (js "alice") (js "Sun Apr 30 2023")
                    (of_Z 30) (js "run")))
  /\ js "Sun Apr 30 2023" <> js "Mon May 01 2023"
  /\ fst (post_exercises utc_host hex_driver 0 (toHexString 1) (VStr (js
      "run")) (VStr (js "30"))
            (VStr (js "+010000-01-01")) sample_db) =
       Normal (json (ExerciseBody 1 (js "alice") (js "Sat Jan 01 10000")
                       (of_Z 30) (js "run"))).
Proof.
  split; [vm_compute; reflexivity|].
  split; [vm_compute; discriminate|].
  vm_compute. reflexivity.
Qed.

(** ** The store stays well formed *)

Lemma fresh_ids_empty : fresh_ids empty_db.
Proof. constructor. Qed.

Lemma fresh_ids_with_user (s : db) (name : jsstring) :
  fresh_ids s -> fresh_ids (with_user s name).
Proof.
  unfold fresh_ids, with_user. cbn [users next_id]. intros H.
  apply Forall_app. split.
  - eapply Forall_impl; [|exact H]. cbv beta. intros; lia.
  - repeat constructor. cbn [user_id]. lia.
Qed.

Lemma fresh_ids_with_exercise (s : db) (userId : ObjectId)
    (description : jsstring) (duration : number) (date : Z) :
  fresh_ids s -> fresh_ids (with_exercise s userId description duration date).
Proof.
  unfold fresh_ids, with_exercise. cbn [users next_id]. intros H.
  eapply Forall_impl; [|exact H]. cbv beta. intros; lia.
Qed.

(** [POST /api/users] leaves the store alone or adds one user. *)
Lemma post_users_store (username : value) (s : db) :
  snd (post_users username s) = s
  \/ exists name, snd (post_users username s) = with_user s name.
Proof.
  destruct username as [| |b|n|name|o]; try (left; reflexivity).
  - destruct b; left; reflexivity.
  - destruct n; left; reflexivity.
  - destruct name as [|c name]; [left; reflexivity|].
    set (full := c :: name).
    destruct (trim full) as [|c' t'] eqn:Ht.
    + left. unfold post_users, try_catch, Mongo.bind. cbn [ToBoolean negb].
      cbn [lift call_trim]. fold full. rewrite Ht. reflexivity.
    + assert (Hne : trim full <> []) by (rewrite Ht; discriminate).
      rewrite (post_users_run s full Hne).
      destruct (user_by_name s (trim full)); [left; reflexivity|].
      right. eexists. reflexivity.
Qed.

(** [POST .../exercises] leaves the store alone or adds one exercise. *)
Lemma post_exercises_store (h : host) (dr : driver) (now : Z) (_id : jsstring)
    (description duration date : value) (s : db) :
  snd (post_exercises h dr now _id description duration date s) = s
  \/ exists userId desc dur d,
       snd (post_exercises h dr now _id description duration date s) =
       with_exercise s userId desc dur d.
Proof.
  destruct (user_of_path_cases dr s _id) as [[u Hu]|[(i & Hc & Hn)|Hc]].
  - rewrite (post_exercises_run h dr now s _id description duration date u Hu).
    destruct (Number duration) as [dur|err]; [|left; reflexivity].
    destruct (negb (ToBoolean description) || negb (ToBoolean (VNum dur)));
      [left; reflexivity|].
    destruct (if ToBoolean date then construct h date else Normal (Some now))
      as [d|err]; [|left; reflexivity].
    cbv zeta.
    destruct (call_trim description) as [desc|err]; [|left; reflexivity].
    right. do 4 eexists. reflexivity.
  - rewrite (post_exercises_unknown h dr now s _id description duration date
               i Hc Hn).
    left. reflexivity.
  - rewrite (post_exercises_uncast h dr now s _id description duration date
               Hc).
    left. reflexivity.
Qed.

(** Every route keeps the identifiers of the users below the next one. *)
Lemma routes_keep_fresh_ids (h : host) (dr : driver) (now : Z) (s : db) :
  fresh_ids s ->
  (forall username, fresh_ids (snd (post_users username s)))
  /\ (forall _id description duration date,
        fresh_ids (snd (post_exercises h dr now _id description duration date
            s))).
Proof.
  intros H. split.
  - intros username.
    destruct (post_users_store username s) as [->|[name ->]];
      [exact H|apply fresh_ids_with_user, H].
  - intros _id description duration date.
    destruct (post_exercises_store h dr now _id description duration date s)
      as [->|(userId & desc & dur & d & ->)];
      [exact H|apply fresh_ids_with_exercise, H].
Qed.

(* ===================================================================== *)
(** * Further properties                                                   *)
(* ===================================================================== *)

(** ** Trimming *)

Lemma trimStart_head (s : jsstring) :
  is_white_space (hd 0 (trimStart s)) = false.
Proof.
  induction s as [|c s IH]; [reflexivity|]. simpl.
  destruct (is_white_space c) eqn:E; [exact IH|exact E].
Qed.

Lemma trimStart_fixed (s : jsstring) :
  is_white_space (hd 0 s) = false -> trimStart s = s.
Proof. destruct s as [|c s]; simpl; [reflexivity|]. intros ->. reflexivity. Qed.

Lemma trimStart_snoc (l : jsstring) (c : Z) :
  is_white_space c = false -> trimStart (l ++ [c]) = trimStart l ++ [c].
Proof.
  intros Hc. induction l as [|x l IH]; simpl.
  - rewrite Hc. reflexivity.
  - destruct (is_white_space x); [exact IH|reflexivity].
Qed.

Lemma last_rev_hd (l : jsstring) : last (rev l) 0 = hd 0 l.
Proof.
  destruct l as [|c l]; [reflexivity|]. simpl. apply last_last.
Qed.

(** What [trim] returns has no white space at either end, and trimming it
    again changes nothing. *)
Lemma trim_trimmed (s : jsstring) : trimmed (trim s) /\ trim (trim s) = trim s.
Proof.
  unfold trim, trimEnd.
  destruct (trimStart s) as [|c r] eqn:E.
  - split; [split|]; reflexivity.
  - assert (Hc : is_white_space c = false).
    { pose proof (trimStart_head s) as H. rewrite E in H. exact H. }
    assert (Hrev : rev (trimStart (rev (c :: r))) =
                   c :: rev (trimStart (rev r))).
    { simpl rev at 2. rewrite (trimStart_snoc _ _ Hc), rev_app_distr.
      reflexivity. }
    split; [split|].
    + rewrite Hrev. exact Hc.
    + rewrite last_rev_hd. apply trimStart_head.
    + rewrite (trimStart_fixed (rev (trimStart (rev (c :: r))))).
      * rewrite rev_involutive.
        rewrite (trimStart_fixed (trimStart (rev (c :: r))));
          [reflexivity|apply trimStart_head].
      * rewrite Hrev. exact Hc.
Qed.

(** ** Reading numerals *)

Lemma digit_of_decimal (c : Z) :
  is_decimal_digit c -> digit_of 10 c = Some (c - 48).
Proof.
  intros [H1 H2]. unfold digit_of.
  destruct (Z.leb_spec 48 c); [|lia]. destruct (Z.leb_spec c 57); [|lia].
  cbn [andb]. destruct (Z.ltb_spec (c - 48) 10); [reflexivity|lia].
Qed.

(** Reading a run of digits to the end of the input. *)
Lemma span_digits_all (ds : jsstring) :
  Forall is_decimal_digit ds ->
  forall acc len,
    span_digits 10 ds acc len =
    (digits_value ds acc, len + Z.of_nat (List.length ds), []).
Proof.
  induction 1 as [|c ds Hc Hds IH]; intros acc len; cbn [span_digits].
  - cbn [List.length]. rewrite Z.add_0_r. reflexivity.
  - rewrite (digit_of_decimal c Hc), IH. cbn [List.length].
    unfold digits_value. cbn [fold_left]. do 2 f_equal. lia.
Qed.

(** Reading exactly as many digits as a run has. *)
Lemma read_digits_all (ds rest : jsstring) :
  Forall is_decimal_digit ds ->
  forall acc,
    read_digits (List.length ds) (ds ++ rest) acc =
    Some (digits_value ds acc, rest).
Proof.
  induction 1 as [|c ds Hc Hds IH]; intros acc; [reflexivity|].
  cbn [List.length app read_digits]. destruct Hc as [H1 H2].
  destruct (Z.leb_spec 48 c); [|lia]. destruct (Z.leb_spec c 57); [|lia].
  cbn [andb]. apply IH.
Qed.

Lemma digit_not_white_space (c : Z) :
  is_decimal_digit c -> is_white_space c = false.
Proof.
  intros [H1 H2]. unfold is_white_space.
  repeat match goal with
         | |- context [?a =? ?b] => destruct (Z.eqb_spec a b); [lia|]
         | |- context [?a <=? ?b] => destruct (Z.leb_spec a b)
         end; try lia; reflexivity.
Qed.

Lemma digit_cases (c : Z) :
  is_decimal_digit c ->
  c = 48 \/ c = 49 \/ c = 50 \/ c = 51 \/ c = 52 \/ c = 53 \/ c = 54
  \/ c = 55 \/ c = 56 \/ c = 57.
Proof. unfold is_decimal_digit. lia. Qed.

Lemma digits_hd_last (ds : jsstring) :
  Forall is_decimal_digit ds -> ds <> [] ->
  is_decimal_digit (hd 0 ds) /\ is_decimal_digit (last ds 0).
Proof.
  intros H Hne. rewrite Forall_forall in H. split.
  - destruct ds as [|c r]; [contradiction|]. apply H. left. reflexivity.
  - destruct (exists_last Hne) as (l & x & ->). rewrite last_last.
    apply H. apply in_or_app. right. left. reflexivity.
Qed.

(** A run of digits has nothing to trim. *)
Lemma trim_digits (ds : jsstring) :
  Forall is_decimal_digit ds -> trim ds = ds.
Proof.
  intros H. destruct ds as [|c r]; [reflexivity|].
  destruct (digits_hd_last (c :: r) H) as [Hh Hl]; [discriminate|].
  unfold trim, trimEnd.
  rewrite (trimStart_fixed (c :: r)) by (apply digit_not_white_space, Hh).
  rewrite trimStart_fixed; [apply rev_involutive|].
  rewrite <- (rev_involutive (c :: r)) in Hl. rewrite last_rev_hd in Hl.
  apply digit_not_white_space, Hl.
Qed.

Lemma NonDecimalIntegerLiteral_digits (ds : jsstring) :
  Forall is_decimal_digit ds -> NonDecimalIntegerLiteral ds = None.
Proof.
  intros H. destruct ds as [|c [|p r]]; [reflexivity| |].
  - inversion H as [|? ? Hc _]; subst.
    destruct (digit_cases c Hc) as [->|[->|[->|[->|[->|[->|[->|[->|[->|
        ->]]]]]]]]];
      reflexivity.
  - inversion H as [|? ? Hc Hr]; subst.
    inversion Hr as [|? ? Hp _]; subst.
    assert (E : (if (p =? 120) || (p =? 88) then 16
                 else if (p =? 111) || (p =? 79) then 8
                 else if (p =? 98) || (p =? 66) then 2 else 0) = 0).
    { destruct Hp.
      repeat match goal with
             | |- context [?a =? ?b] => destruct (Z.eqb_spec a b); [lia|]
             end. reflexivity. }
    destruct (digit_cases c Hc) as [->|[->|[->|[->|[->|[->|[->|[->|[->|
        ->]]]]]]]]];
      try reflexivity.
    cbn [NonDecimalIntegerLiteral]. rewrite E. reflexivity.
Qed.

Lemma read_sign_digits (ds : jsstring) :
  Forall is_decimal_digit ds -> read_sign ds = (false, ds).
Proof.
  intros H. destruct ds as [|c r]; [reflexivity|].
  inversion H as [|? ? [H1 H2] _]; subst. unfold read_sign, is_sign.
  destruct (Z.eqb_spec c 43); [lia|]. destruct (Z.eqb_spec c 45); [lia|].
  reflexivity.
Qed.

Lemma StringToNumber_nonempty (s : jsstring) :
  trim s <> [] ->
  StringToNumber s =
  match NonDecimalIntegerLiteral (trim s) with
  | Some n => n
  | None => let '(neg, u) := read_sign (trim s) in
            StrUnsignedDecimalLiteral neg u
  end.
Proof.
  intros H. unfold StringToNumber.
  destruct (trim s); [contradiction|reflexivity].
Qed.

(** [Number] of a run of decimal digits is the number they spell. *)
Lemma StringToNumber_digits (ds : jsstring) :
  Forall is_decimal_digit ds -> ds <> [] ->
  StringToNumber ds = to_binary64 false (digits_value ds 0) 1.
Proof.
  intros H Hne.
  rewrite StringToNumber_nonempty by (rewrite (trim_digits ds H); exact Hne).
  rewrite (trim_digits ds H).
  rewrite (NonDecimalIntegerLiteral_digits ds H), (read_sign_digits ds H).
  unfold StrUnsignedDecimalLiteral.
  assert (Hinf : str_eqb ds (js "Infinity") = false).
  { destruct ds as [|c r]; [contradiction|].
    inversion H as [|? ? [H1 H2] _]; subst.
    change (js "Infinity") with (73 :: js "nfinity"). cbn [str_eqb].
    destruct (Z.eqb_spec c 73); [lia|]. reflexivity. }
  rewrite Hinf, (span_digits_all ds H).
  assert (Hlen : 0 < Z.of_nat (List.length ds))
    by (destruct ds; [contradiction|cbn [List.length]; lia]).
  destruct (Z.eqb_spec (0 + Z.of_nat (List.length ds) + 0) 0); [lia|].
  change (0 <=? 0 - 0) with true. cbv iota.
  change (10 ^ (0 - 0)) with 1. rewrite Z.mul_1_r. reflexivity.
Qed.

(** [parseInt] of a run of decimal digits is the number they spell. *)
Lemma parseInt10_digits (ds : jsstring) :
  Forall is_decimal_digit ds -> ds <> [] ->
  parseInt10 ds = to_binary64 false (digits_value ds 0) 1.
Proof.
  intros H Hne. unfold parseInt10.
  destruct (digits_hd_last ds H Hne) as [Hh _].
  rewrite (trimStart_fixed ds) by (apply digit_not_white_space, Hh).
  rewrite (read_sign_digits ds H), (span_digits_all ds H).
  destruct ds as [|c r]; [contradiction|]. cbn [List.length].
  destruct (Z.eqb_spec (0 + Z.of_nat (S (List.length r))) 0); [lia|].
  reflexivity.
Qed.

Lemma of_Z_nonneg (n : Z) : 0 <= n -> of_Z n = to_binary64 false n 1.
Proof.
  intros Hn. unfold of_Z. destruct (Z.ltb_spec n 0); [lia|].
  rewrite Z.abs_eq by lia. reflexivity.
Qed.

Lemma Number_decimal (n : Z) :
  0 <= n -> Number (VStr (decimal n)) = Normal (of_Z n).
Proof.
  intros Hn. cbn [Number]. unfold decimal.
  destruct (ToZeroPaddedDecimalString_digits n 1) as [Hd Hne].
  rewrite (StringToNumber_digits _ Hd Hne),
    (ToZeroPaddedDecimalString_value n 1 Hn), (of_Z_nonneg n Hn).
  reflexivity.
Qed.

Lemma parseInt_decimal (n : Z) :
  0 <= n -> parseInt (QStr (decimal n)) = of_Z n.
Proof.
  intros Hn. cbn [parseInt]. unfold decimal.
  destruct (ToZeroPaddedDecimalString_digits n 1) as [Hd Hne].
  rewrite (parseInt10_digits _ Hd Hne),
    (ToZeroPaddedDecimalString_value n 1 Hn), (of_Z_nonneg n Hn).
  reflexivity.
Qed.

(** ** The calendar, both ways *)

Lemma DayFromYear_le (y1 y2 : Z) :
  y1 <= y2 -> DayFromYear y1 <= DayFromYear y2.
Proof. intros H. unfold DayFromYear. Z.div_mod_to_equations. lia. Qed.

(** The year of a day is the only year whose days include it. *)
Lemma YearFromDay_unique (y d : Z) :
  DayFromYear y <= d < DayFromYear (y + 1) -> YearFromDay d = y.
Proof.
  intros [Hlo Hhi].
  destruct (YearFromDay_spec d) as [Hlo' Hhi'].
  set (y' := YearFromDay d) in *.
  destruct (Z.lt_trichotomy y' y) as [Hlt|[Heq|Hgt]]; [|exact Heq|].
  - pose proof (DayFromYear_le (y' + 1) y ltac:(lia)). lia.
  - pose proof (DayFromYear_le (y + 1) y' ltac:(lia)). lia.
Qed.

Lemma month_cases (m : Z) :
  1 <= m <= 12 ->
  m = 1 \/ m = 2 \/ m = 3 \/ m = 4 \/ m = 5 \/ m = 6 \/ m = 7 \/ m = 8
  \/ m = 9 \/ m = 10 \/ m = 11 \/ m = 12.
Proof. lia. Qed.

Lemma MakeDay_calendar (y m d : Z) :
  1 <= m <= 12 ->
  MakeDay y (m - 1) d =
  DayFromYear y
  + month_start (if DaysInYear y =? 366 then 1 else 0) (m - 1) + d - 1.
Proof.
  intros Hm. unfold MakeDay.
  assert (E1 : (m - 1) / 12 = 0) by (Z.div_mod_to_equations; lia).
  assert (E2 : (m - 1) mod 12 = m - 1) by (Z.div_mod_to_equations; lia).
  rewrite E1, E2, Z.add_0_r. reflexivity.
Qed.

Ltac each_month Hm :=
  destruct (month_cases _ Hm)
    as [->|[->|[->|[->|[->|[->|[->|[->|[->|[->|[->| ->]]]]]]]]]]];
  repeat match goal with
         | |- context [Z.pos ?p - 1] =>
             let v := eval vm_compute in (Z.pos p - 1) in
             change (Z.pos p - 1) with v
         end;
  cbn [month_start].

(** A time value on day [MakeDay y (m-1) d] reads back as year [y],
    month [m] and day [d], for every date of the calendar. *)
Lemma calendar_round_trip (y m d t : Z) :
  1 <= m <= 12 ->
  1 <= d <= days_in_month y m ->
  Day t = MakeDay y (m - 1) d ->
  YearFromTime t = y /\ MonthFromTime t = m - 1 /\ DateFromTime t = d.
Proof.
  intros Hm Hd Ht. rewrite (MakeDay_calendar y m d Hm) in Ht.
  set (leap := if DaysInYear y =? 366 then 1 else 0) in *.
  assert (Hleap : (leap = 0 /\ DaysInYear y = 365)
                  \/ (leap = 1 /\ DaysInYear y = 366)).
  { unfold leap. destruct (DaysInYear_cases y) as [E|E]; rewrite E; auto. }
  assert (Hdim : days_in_month y m =
                 match m with
                 | 2 => 28 + leap
                 | 4 | 6 | 9 | 11 => 30
                 | _ => 31
                 end).
  { unfold leap. each_month Hm; cbv beta iota delta [days_in_month];
      try reflexivity.
    destruct (DaysInYear y =? 366); reflexivity. }
  rewrite Hdim in Hd. clear Hdim.
  assert (Hy : YearFromTime t = y).
  { unfold YearFromTime. apply YearFromDay_unique.
    rewrite DayFromYear_succ, Ht. revert Hd.
    each_month Hm; cbv beta iota; intros Hd;
      destruct Hleap as [[-> ->]|[-> ->]]; lia. }
  assert (Hl : InLeapYear t = leap).
  { unfold InLeapYear. rewrite Hy. reflexivity. }
  assert (Hw : DayWithinYear t = month_start leap (m - 1) + d - 1).
  { unfold DayWithinYear. rewrite Hy, Ht. lia. }
  split; [exact Hy|].
  unfold DateFromTime, MonthFromTime. rewrite Hw, Hl. revert Hd.
  each_month Hm; cbv beta iota; intros Hd;
    destruct Hleap as [[-> _]|[-> _]];
    repeat match goal with
           | |- context [ ?a <? ?b ] => destruct (Z.ltb_spec a b); try lia
           end;
    cbn [month_start]; split; lia.
Qed.

(** ** Dates in the interchange format *)

Lemma padded_read (n : Z) (k : nat) (rest : jsstring) :
  0 <= n < 10 ^ Z.of_nat (S k) ->
  read_digits (S k) (ToZeroPaddedDecimalString n (S k) ++ rest) 0 =
  Some (n, rest).
Proof.
  intros Hn.
  destruct (ToZeroPaddedDecimalString_width n k Hn) as [Hl Hd].
  rewrite <- Hl at 1. rewrite (read_digits_all _ rest Hd 0).
  rewrite ToZeroPaddedDecimalString_value by lia. reflexivity.
Qed.

Lemma read_year_padded (y : Z) (rest : jsstring) :
  0 <= y <= 9999 ->
  read_year (ToZeroPaddedDecimalString y 4 ++ rest) = Some (y, false, rest).
Proof.
  intros Hy.
  assert (Hr : read_digits 4 (ToZeroPaddedDecimalString y 4 ++ rest) 0 =
               Some (y, rest)).
  { apply (padded_read y 3 rest). change (10 ^ Z.of_nat 4) with 10000. lia. }
  destruct (ToZeroPaddedDecimalString_digits y 4) as [Hd Hne].
  destruct (ToZeroPaddedDecimalString y 4) as [|c r]; [contradiction|].
  inversion Hd as [|? ? Hc _]; subst.
  cbn [app] in *.
  destruct (digit_cases c Hc)
    as [->|[->|[->|[->|[->|[->|[->|[->|[->| ->]]]]]]]]];
    unfold read_year; rewrite Hr; reflexivity.
Qed.

(** [Date.parse] on [YYYY-MM-DD] is midnight UTC of that day, on every
    host. *)
Lemma parse_iso_date (h : host) (y m d : Z) :
  0 <= y <= 9999 -> 1 <= m <= 12 -> 1 <= d <= 31 ->
  parse h (iso_date y m d) = Some (MakeDate (MakeDay y (m - 1) d) 0).
Proof.
  intros Hy Hm Hd.
  assert (Hf : parse_format h (iso_date y m d) =
               Parsed (MakeDate (MakeDay y (m - 1) d) 0)).
  { unfold parse_format, iso_date.
    rewrite (read_year_padded y _ Hy). cbn [and_then].
    change (js "-" ++ ToZeroPaddedDecimalString m 2 ++ js "-"
            ++ ToZeroPaddedDecimalString d 2)
      with (45 :: (ToZeroPaddedDecimalString m 2
                   ++ 45 :: ToZeroPaddedDecimalString d 2)).
    cbn [read_opt_field].
    rewrite (padded_read m 1)
      by (change (10 ^ Z.of_nat 2) with 100; lia).
    cbn [and_then read_opt_field].
    rewrite <- (app_nil_r (ToZeroPaddedDecimalString d 2)).
    rewrite (padded_read d 1)
      by (change (10 ^ Z.of_nat 2) with 100; lia).
    cbn [and_then negb andb].
    destruct (Z.leb_spec 1 m); [|lia]. destruct (Z.leb_spec m 12); [|lia].
    destruct (Z.leb_spec 1 d); [|lia]. destruct (Z.leb_spec d 31); [|lia].
    reflexivity. }
  unfold parse. rewrite Hf. unfold TimeClip.
  destruct (Z.ltb_spec maxTime (Z.abs (MakeDate (MakeDay y (m - 1) d) 0)))
    as [Hbig|]; [|reflexivity].
  exfalso. revert Hbig. rewrite (MakeDay_calendar y m d Hm).
  unfold MakeDate, maxTime, msPerDay.
  assert (Hs : 0 <= month_start (if DaysInYear y =? 366 then 1 else 0) (m - 1)
               <= 335).
  { each_month Hm; destruct (DaysInYear y =? 366); lia. }
  assert (Hdy : -719528 <= DayFromYear y <= 2932532).
  { unfold DayFromYear. Z.div_mod_to_equations. lia. }
  lia.
Qed.

Lemma local_day_east (h : host) (t : Z) :
  t mod msPerDay = 0 ->
  0 <= LocalTZA h t true < msPerDay ->
  Day (LocalTime h t) = Day t.
Proof.
  unfold LocalTime, Day, msPerDay. intros H0 Hz.
  Z.div_mod_to_equations. lia.
Qed.

Lemma local_day_west (h : host) (t : Z) :
  t mod msPerDay = 0 ->
  - msPerDay <= LocalTZA h t true < 0 ->
  Day (LocalTime h t) = Day t - 1.
Proof.
  unfold LocalTime, Day, msPerDay. intros H0 Hz.
  Z.div_mod_to_equations. lia.
Qed.

Lemma Day_MakeDate (day : Z) :
  Day (MakeDate day 0) = day /\ MakeDate day 0 mod msPerDay = 0.
Proof.
  unfold Day, MakeDate, msPerDay. rewrite Z.add_0_r. split.
  - apply Z.div_mul. lia.
  - apply Z.mod_mul. lia.
Qed.

(** The date string of a calendar date. *)
Lemma DateString_calendar (y m d t : Z) :
  0 <= y -> 1 <= m <= 12 -> 1 <= d <= days_in_month y m ->
  Day t = MakeDay y (m - 1) d ->
  DateString t =
    weekday_name (WeekDay t) ++ js " " ++ month_name (m - 1) ++ js " "
    ++ ToZeroPaddedDecimalString d 2 ++ js " "
    ++ ToZeroPaddedDecimalString y 4.
Proof.
  intros Hy Hm Hd Ht.
  destruct (calendar_round_trip y m d t Hm Hd Ht) as (Ey & Em & Ed).
  unfold DateString. rewrite Ey, Em, Ed.
  destruct (Z.leb_spec 0 y); [|lia]. rewrite Z.abs_eq by lia. reflexivity.
Qed.

(** ** Registration, in full *)

(** What [POST /api/users] does with anything that is not a usable
    string. *)
Lemma post_users_rejects (username : value) (s : db) :
  (ToBoolean username = false ->
   post_users username s = (Normal username_required, s))
  /\ (forall n, username = VStr n -> trim n = [] ->
      post_users username s = (Normal username_required, s))
  /\ (ToBoolean username = true -> (forall n, username <> VStr n) ->
      post_users username s = (Normal server_error, s)).
Proof.
  split; [|split].
  - intros Hb. unfold post_users, try_catch. rewrite Hb. reflexivity.
  - intros n -> Ht. unfold post_users, try_catch.
    destruct n as [|c n]; [reflexivity|].
    cbn [ToBoolean negb]. unfold Mongo.bind. cbn [lift call_trim].
    rewrite Ht. reflexivity.
  - intros Hb Hns. unfold post_users, try_catch. rewrite Hb. cbn [negb].
    destruct username; try reflexivity. exfalso. eapply Hns. reflexivity.
Qed.

(** Every way [POST /api/users] can end, over this store. *)
Lemma post_users_cases (username : value) (s : db) :
  exists (r : response) (s' : db),
    post_users username s = (Normal r, s')
    /\ (status r = 200 \/ status r = 400 \/ status r = 500)
    /\ (status r <> 200 -> s' = s)
    /\ (s' = s \/ exists name, s' = with_user s name).
Proof.
  destruct (post_users_rejects username s) as (Hfalse & Hblank & Hother).
  destruct (ToBoolean username) eqn:Hb.
  - destruct username as [| |b|n|name|o];
      try (rewrite (Hother eq_refl) by (intros ?; discriminate);
           exists server_error, s; repeat split; auto).
    destruct (trim name) as [|c t] eqn:Ht.
    + rewrite (Hblank name eq_refl Ht).
      exists username_required, s. repeat split; auto.
    + assert (Hne : trim name <> []) by (rewrite Ht; discriminate).
      rewrite (post_users_run s name Hne).
      destruct (user_by_name s (trim name)) as [u|].
      * eexists _, s. split; [reflexivity|]. repeat split; auto.
      * eexists _, _. split; [reflexivity|]. split; [auto|].
        split; [intros H; exfalso; apply H; reflexivity|].
        right. eexists. reflexivity.
  - rewrite (Hfalse eq_refl). exists username_required, s.
    repeat split; auto.
Qed.

(** X2.  A username that is truthy but not a string (a number, [true],
    an array or an object) is answered with the generic 500, not with the
    400 of a missing username, and nothing is stored. *)
Theorem non_string_username_is_server_error (username : value) (s : db) :
  ToBoolean username = true ->
  (forall n, username <> VStr n) ->
  call_trim username = Throw TypeError
  /\ post_users username s = (Normal server_error, s).
Proof.
  intros Hb Hns. split.
  - destruct username; try reflexivity. exfalso. eapply Hns. reflexivity.
  - apply (post_users_rejects username s); assumption.
Qed.

Lemma non_string_username_is_server_error_witness :
  ToBoolean (VNum (of_Z 42)) = true
  /\ post_users (VNum (of_Z 42)) sample_db = (Normal server_error, sample_db).
Proof.
  split; [reflexivity|].
  apply (non_string_username_is_server_error (VNum (of_Z 42)) sample_db).
  - reflexivity.
  - intros n. discriminate.
Defined.

(** A 200 from [POST /api/users] means the username was a string with
    something left after trimming, and the response carries that. *)
Lemma post_users_ok (username : value) (s s' : db) (r : response) :
  post_users username s = (Normal r, s') ->
  status r = 200 ->
  exists name i,
    username = VStr name /\ trim name <> []
    /\ r = json (UserBody (trim name) i)
    /\ In {| user_id := i; user_username := trim name |} (users s')
    /\ ((s' = s /\ user_by_name s (trim name)
                   = Some {| user_id := i; user_username := trim name |})
        \/ (user_by_name s (trim name) = None /\ i = next_id s
            /\ s' = with_user s (trim name))).
Proof.
  intros Hrun Hst.
  destruct (post_users_rejects username s) as (Hfalse & Hblank & Hother).
  destruct (ToBoolean username) eqn:Hb.
  - destruct username as [| |b|n|name|o];
      try (rewrite (Hother eq_refl) in Hrun by (intros ?; discriminate);
           inversion Hrun; subst; discriminate Hst).
    assert (Hcase : trim name = [] \/ trim name <> [])
      by (destruct (trim name); [left; reflexivity|right; discriminate]).
    destruct Hcase as [Ht|Hne].
    + rewrite (Hblank name eq_refl Ht) in Hrun.
      inversion Hrun; subst; discriminate Hst.
    + rewrite (post_users_run s name Hne) in Hrun.
      destruct (user_by_name s (trim name)) as [u|] eqn:E.
      * destruct (user_by_name_name s _ u E) as [En Hin].
        inversion Hrun; subst r s'. clear Hrun.
        exists name, (user_id u). destruct u as [i n]. simpl in *. subst n.
        repeat split; auto.
      * inversion Hrun; subst r s'. clear Hrun.
        exists name, (next_id s). repeat split; auto.
        unfold with_user. cbn [users]. apply in_or_app. right. left.
        reflexivity.
  - rewrite (Hfalse eq_refl) in Hrun.
    inversion Hrun; subst; discriminate Hst.
Qed.

(** X3.  Every username that gets a 200 is stored and answered without
    white space at either end, is not empty, and trimming it again leaves
    it as it is. *)
Theorem registered_names_are_trimmed
    (username : value) (s s' : db) (r : response) :
  post_users username s = (Normal r, s') ->
  status r = 200 ->
  exists (n : jsstring) (i : ObjectId),
    body r = UserBody n i
    /\ In {| user_id := i; user_username := n |} (users s')
    /\ n <> [] /\ trimmed n /\ trim n = n.
Proof.
  intros Hrun Hst.
  destruct (post_users_ok username s s' r Hrun Hst)
    as (name & i & _ & Hne & -> & Hin & _).
  exists (trim name), i. destruct (trim_trimmed name) as [Ht Hi].
  repeat split; auto; apply Ht.
Qed.

Lemma registered_names_are_trimmed_witness :
  exists (n : jsstring) (i : ObjectId),
    body (json (UserBody (js "bob") 7)) = UserBody n i
    /\ In {| user_id := i; user_username := n |}
         (users (with_user sample_db (js "bob")))
    /\ n <> [] /\ trimmed n /\ trim n = n.
Proof.
  apply (registered_names_are_trimmed (VStr (js "  bob  ")) sample_db
           (with_user sample_db (js "bob")) (json (UserBody (js "bob") 7))).
  - vm_compute. reflexivity.
  - reflexivity.
Defined.

(** X4.  Two usernames that differ only in the white space around them
    are the same user: registering one and then the other answers with
    the same identifier, and the second call stores nothing. *)
Theorem register_ignores_surrounding_space (s : db) (a b : jsstring) :
  trim a = trim b ->
  trim a <> [] ->
  exists (i : ObjectId) (s1 : db),
    post_users (VStr a) s = (Normal (json (UserBody (trim a) i)), s1)
    /\ post_users (VStr b) s1 = (Normal (json (UserBody (trim a) i)), s1).
Proof.
  intros Hab Ha.
  assert (Hb : trim b <> []) by (rewrite <- Hab; exact Ha).
  rewrite (post_users_run s a Ha).
  destruct (user_by_name s (trim a)) as [u|] eqn:E.
  - exists (user_id u), s. rewrite (post_users_run s b Hb), <- Hab, E.
    apply user_by_name_name in E as [-> _]. split; reflexivity.
  - exists (next_id s), (with_user s (trim a)). split; [reflexivity|].
    rewrite (post_users_run _ b Hb), <- Hab.
    rewrite (user_by_name_with_user s (trim a) E). reflexivity.
Qed.

Lemma register_ignores_surrounding_space_witness :
  trim (js " carol") = trim (js "carol  ")
  /\ exists (i : ObjectId) (s1 : db),
       post_users (VStr (js " carol")) sample_db =
         (Normal (json (UserBody (trim (js " carol")) i)), s1)
       /\ post_users (VStr (js "carol  ")) s1 =
            (Normal (json (UserBody (trim (js " carol")) i)), s1).
Proof.
  assert (Hab : trim (js " carol") = trim (js "carol  ")) by reflexivity.
  split; [exact Hab|].
  apply (register_ignores_surrounding_space sample_db _ _ Hab).
  vm_compute. discriminate.
Defined.

(** X5.  A user who has just been registered is in the list of
    [GET /api/users], under the identifier and name of the response; and
    listing changes nothing. *)
Theorem registered_user_is_listed
    (username : value) (s s' : db) (r : response) :
  post_users username s = (Normal r, s') ->
  status r = 200 ->
  exists (n : jsstring) (i : ObjectId) (docs : list user),
    body r = UserBody n i
    /\ get_users s' = (Normal (json (UsersBody docs)), s')
    /\ In {| user_id := i; user_username := n |} docs.
Proof.
  intros Hrun Hst.
  destruct (post_users_ok username s s' r Hrun Hst)
    as (name & i & _ & _ & -> & Hin & _).
  exists (trim name), i, (users s'). repeat split; auto.
Qed.

Lemma registered_user_is_listed_witness :
  exists (n : jsstring) (i : ObjectId) (docs : list user),
    body (json (UserBody (js "bob") 7)) = UserBody n i
    /\ get_users (with_user sample_db (js "bob")) =
         (Normal (json (UsersBody docs)), with_user sample_db (js "bob"))
    /\ In {| user_id := i; user_username := n |} docs.
Proof.
  apply (registered_user_is_listed (VStr (js "bob")) sample_db
           (with_user sample_db (js "bob")) (json (UserBody (js "bob") 7))).
  - vm_compute. reflexivity.
  - reflexivity.
Defined.

(** X1.  Whenever [POST /api/users] sends a response, its status is
    200, 400 or 500; under a 400 or a 500 the store is exactly as it was,
    and under a 200 it is as it was or has gained exactly one user. *)
Theorem register_is_atomic (username : value) (s s' : db) (r : response) :
  post_users username s = (Normal r, s') ->
  (status r = 200 \/ status r = 400 \/ status r = 500)
  /\ (status r <> 200 -> s' = s)
  /\ (s' = s \/ exists name, s' = with_user s name).
Proof.
  intros Hrun.
  destruct (post_users_cases username s) as (r0 & s0 & Hrun0 & H).
  rewrite Hrun in Hrun0. inversion Hrun0; subst r0 s0. exact H.
Qed.

Lemma register_is_atomic_witness :
  post_users (VStr (js " bob ")) sample_db =
    (Normal (json (UserBody (js "bob") 7)), with_user sample_db (js "bob"))
  /\ (status (json (UserBody (js "bob") 7)) = 200
      \/ status (json (UserBody (js "bob") 7)) = 400
      \/ status (json (UserBody (js "bob") 7)) = 500)
  /\ (status (json (UserBody (js "bob") 7)) <> 200 ->
      with_user sample_db (js "bob") = sample_db)
  /\ (with_user sample_db (js "bob") = sample_db
      \/ exists name, with_user sample_db (js "bob") = with_user sample_db
          name).
Proof.
  assert (Hrun : post_users (VStr (js " bob ")) sample_db =
                 (Normal (json (UserBody (js "bob") 7)),
                  with_user sample_db (js "bob")))
    by (vm_compute; reflexivity).
  split; [exact Hrun|].
  apply (register_is_atomic (VStr (js " bob ")) sample_db
           (with_user sample_db (js "bob")) (json (UserBody (js "bob") 7))).
  exact Hrun.
Defined.

(** ** Logging, in full *)

(** Every way [POST .../exercises] can end. *)
Lemma post_exercises_ok (h : host) (dr : driver) (now : Z) (s : db) (_id :
    jsstring)
    (description duration date : value) :
  exists (r : response) (s' : db),
    post_exercises h dr now _id description duration date s = (Normal r, s')
    /\ (status r = 200 \/ status r = 400 \/ status r = 404 \/ status r = 500)
    /\ (status r <> 200 -> s' = s)
    /\ (status r = 200 ->
        exists u desc dur d,
          user_of_path dr s _id = Some u
          /\ call_trim description = Normal desc
          /\ Number duration = Normal dur
          /\ r = json (ExerciseBody (user_id u) (user_username u)
                         (toFCCDateString h d) dur desc)
          /\ s' = with_exercise s (user_id u) desc dur d).
Proof.
  destruct (user_of_path_cases dr s _id) as [[u Hu]|[(i & Hc & Hn)|Hc]].
  3: { rewrite (post_exercises_uncast h dr now s _id description duration
                  date Hc).
       exists server_error, s. repeat split; auto; discriminate. }
  - rewrite (post_exercises_run h dr now s _id description duration date u Hu).
    destruct (Number duration) as [dur|err].
    2: { exists server_error, s. repeat split; auto; discriminate. }
    destruct (negb (ToBoolean description) || negb (ToBoolean (VNum dur))).
    { exists validation_error, s. repeat split; auto; discriminate. }
    destruct (if ToBoolean date then construct h date else Normal (Some now))
      as [d|err].
    2: { exists server_error, s. repeat split; auto; discriminate. }
    cbv zeta. destruct (call_trim description) as [desc|err].
    2: { exists server_error, s. repeat split; auto; discriminate. }
    eexists _, _. split; [reflexivity|]. split; [auto|].
    split; [intros H; exfalso; apply H; reflexivity|].
    intros _. exists u, desc, dur, (match d with None => now | Some t => t end).
    split; [exact Hu|]. repeat split; reflexivity.
  - rewrite (post_exercises_unknown h dr now s _id description duration date
               i Hc Hn).
    exists user_not_found, s. repeat split; auto; discriminate.
Qed.

(** X6.  [POST .../exercises] always sends a response, with status 200,
    400, 404 or 500.  Under any status but 200 the store is exactly as it
    was; under a 200 it has gained one exercise, owned by the user of the
    path, and nothing else has changed. *)
Theorem log_exercise_is_atomic (h : host) (dr : driver) (now : Z) (s : db) (_id
    : jsstring)
    (description duration date : value) :
  exists (r : response) (s' : db),
    post_exercises h dr now _id description duration date s = (Normal r, s')
    /\ (status r = 200 \/ status r = 400 \/ status r = 404 \/ status r = 500)
    /\ (status r <> 200 -> s' = s)
    /\ (status r = 200 ->
        users s' = users s
        /\ exists ex,
             exercises s' = exercises s ++ [ex]
             /\ castObjectId dr _id = Some (ex_userId ex)
             /\ user_of_path dr s _id <> None).
Proof.
  destruct (post_exercises_ok h dr now s _id description duration date)
    as (r & s' & Hrun & Hst & Herr & Hok).
  exists r, s'. split; [exact Hrun|]. split; [exact Hst|].
  split; [exact Herr|]. intros H200.
  destruct (Hok H200) as (u & desc & dur & d & Hu & _ & _ & _ & ->).
  split; [reflexivity|]. eexists. split; [reflexivity|].
  cbn [ex_userId].
  split; [apply (user_of_path_cast dr s _id u Hu)|congruence].
Qed.

Lemma log_exercise_is_atomic_witness :
  exists (r : response) (s' : db),
    post_exercises utc_host hex_driver 0 (toHexString 1) (VStr (js "run"))
        (VStr (js "abc")) VNull
      sample_db = (Normal r, s')
    /\ (status r = 200 \/ status r = 400 \/ status r = 404 \/ status r = 500)
    /\ (status r <> 200 -> s' = sample_db)
    /\ (status r = 200 ->
        users s' = users sample_db
        /\ exists ex,
             exercises s' = exercises sample_db ++ [ex]
             /\ castObjectId hex_driver (toHexString 1) = Some (ex_userId ex)
             /\ user_of_path hex_driver sample_db (toHexString 1) <> None).
Proof.
  exact (log_exercise_is_atomic utc_host hex_driver 0 sample_db
           (toHexString 1) (VStr (js "run")) (VStr (js "abc")) VNull).
Defined.

(** X7.  A description made of white space only is not stopped by the
    validation, which looks at the description before it is trimmed: with
    a duration that passes, and whatever the date is, the answer is not
    the 400 "description and duration are required". *)
Theorem blank_description_passes_validation
    (h : host) (dr : driver) (now : Z) (s : db) (_id : jsstring)
    (description : jsstring) (duration date : value)
    (u : user) (dur : number) :
  user_of_path dr s _id = Some u ->
  Number duration = Normal dur ->
  ToBoolean (VNum dur) = true ->
  description <> [] ->
  trim description = [] ->
  ToBoolean (VStr description) = true
  /\ fst (post_exercises h dr now _id (VStr description) duration date s)
       <> Normal validation_error
  /\ forall (r : response) (s' : db),
       post_exercises h dr now _id (VStr description) duration date s =
         (Normal r, s') ->
       status r <> 400.
Proof.
  intros Hu Hd Hdur Hne Ht.
  apply ToBoolean_string in Hne. split; [exact Hne|].
  rewrite (post_exercises_run h dr now s _id (VStr description) duration date u
             Hu), Hd, Hdur, Hne.
  cbn [negb orb call_trim]. rewrite Ht.
  destruct (if ToBoolean date then construct h date else Normal (Some now))
    as [d|err]; cbv zeta; cbn [fst].
  - split; [discriminate|].
    intros r s' Hrun. inversion Hrun; subst r s'. discriminate.
  - split; [discriminate|].
    intros r s' Hrun. inversion Hrun; subst r s'. discriminate.
Qed.

Lemma blank_description_passes_validation_witness :
  trim (js "   ") = []
  /\ ToBoolean (VStr (js "   ")) = true
  /\ fst (post_exercises utc_host hex_driver 5 (toHexString 1)
            (VStr (js "   ")) (VStr (js "30")) (VObject None) sample_db)
       <> Normal validation_error.
Proof.
  split; [reflexivity|].
  destruct (blank_description_passes_validation utc_host hex_driver 5
              sample_db (toHexString 1) (js "   ") (VStr (js "30"))
              (VObject None) alice (of_Z 30))
    as (Hb & Hv & _); try reflexivity.
  - discriminate.
  - split; [exact Hb|exact Hv].
Defined.

(** X8.  The description in a 200 from [POST .../exercises] has no white
    space at either end, and trimming it again leaves it as it is. *)
Theorem logged_descriptions_are_trimmed
    (h : host) (dr : driver) (now : Z) (s s' : db) (_id : jsstring)
    (description duration date : value) (r : response) :
  post_exercises h dr now _id description duration date s = (Normal r, s') ->
  status r = 200 ->
  exists i name day dur desc,
    body r = ExerciseBody i name day dur desc
    /\ trimmed desc /\ trim desc = desc
    /\ exists ex, exercises s' = exercises s ++ [ex]
                  /\ ex_description ex = desc.
Proof.
  intros Hrun Hst.
  destruct (post_exercises_ok h dr now s _id description duration date)
    as (r0 & s0 & Hrun0 & _ & _ & Hok).
  rewrite Hrun in Hrun0. inversion Hrun0; subst r0 s0. clear Hrun0.
  destruct (Hok Hst) as (u & desc & dur & d & _ & Htrim & _ & -> & ->).
  destruct description; try discriminate Htrim.
  cbn [call_trim] in Htrim. inversion Htrim; subst desc.
  destruct (trim_trimmed s0) as [Ht Hi].
  do 5 eexists. split; [reflexivity|]. split; [exact Ht|].
  split; [exact Hi|]. eexists. split; reflexivity.
Qed.

Lemma logged_descriptions_are_trimmed_witness :
  exists i name day dur desc,
    body (json (ExerciseBody 1 (js "alice") (js "Thu Jan 01 1970")
                  (of_Z 30) (js "run"))) =
      ExerciseBody i name day dur desc
    /\ trimmed desc /\ trim desc = desc
    /\ exists ex,
         exercises (with_exercise sample_db 1 (js "run") (of_Z 30) 0) =
           exercises sample_db ++ [ex]
         /\ ex_description ex = desc.
Proof.
  apply (logged_descriptions_are_trimmed utc_host hex_driver 0 sample_db
           (with_exercise sample_db 1 (js "run") (of_Z 30) 0)
           (toHexString 1)
           (VStr (js "  run ")) (VStr (js "30")) VUndefined
           (json (ExerciseBody 1 (js "alice") (js "Thu Jan 01 1970")
                    (of_Z 30) (js "run")))).
  - vm_compute. reflexivity.
  - reflexivity.
Defined.

(** ** Reading the log, in full *)

Lemma get_logs_ok (h : host) (dr : driver) (s : db) (_id : jsstring)
    (from to limit : qvalue) :
  exists r, get_logs h dr _id from to limit s = (Normal r, s)
            /\ (status r = 200 \/ status r = 404 \/ status r = 500).
Proof.
  destruct (user_of_path_cases dr s _id) as [[u Hu]|[(i & Hc & Hn)|Hc]].
  - rewrite (get_logs_run h dr s _id from to limit u Hu). cbv zeta.
    eexists. split; [reflexivity|]. left. reflexivity.
  - rewrite (get_logs_unknown h dr s _id from to limit i Hc Hn).
    eexists. split; [reflexivity|]. right. left. reflexivity.
  - rewrite (get_logs_uncast h dr s _id from to limit Hc).
    eexists. split; [reflexivity|]. right. right. reflexivity.
Qed.

(** X9.  The count of a log is the number of the user's exercises in the
    date window, or the limit when that is smaller. *)
Theorem count_is_min_of_limit_and_matches
    (h : host) (dr : driver) (s : db) (_id : jsstring) (from to limit : qvalue)
        (u : user) :
  user_of_path dr s _id = Some u ->
  exists log : list log_entry,
    get_logs h dr _id from to limit s =
      (Normal (json (LogBody (user_username u) (Z.of_nat (List.length log))
                       (user_id u) log)), s)
    /\ List.length log =
       match positive_limit limit with
       | Some n => Nat.min n (List.length (selected h u from to s))
       | None => List.length (selected h u from to s)
       end.
Proof.
  intros Hu. rewrite (get_logs_run h dr s _id from to limit u Hu). cbv zeta.
  pose proof (Permutation_length
                (sort_by_date_Permutation (selected h u from to s))) as Hl.
  eexists. split.
  - rewrite <- (length_map (view h)). reflexivity.
  - rewrite length_map.
    destruct (positive_limit limit) as [n|].
    + rewrite length_firstn, Hl. reflexivity.
    + exact Hl.
Qed.

Lemma count_is_min_of_limit_and_matches_witness :
  user_of_path hex_driver sample_db (toHexString 1) = Some alice
  /\ positive_limit (QStr (js "9")) = Some 9%nat
  /\ List.length (selected utc_host alice (QStr (js "2023-01-01")) QUndefined
                    sample_db) = 4%nat
  /\ exists log : list log_entry,
       get_logs utc_host hex_driver (toHexString 1) (QStr (js "2023-01-01"))
           QUndefined
         (QStr (js "9")) sample_db =
         (Normal (json (LogBody (js "alice") (Z.of_nat (List.length log))
                          1 log)), sample_db)
       /\ List.length log =
          match positive_limit (QStr (js "9")) with
          | Some n =>
              Nat.min n
                (List.length (selected utc_host alice
                                (QStr (js "2023-01-01")) QUndefined
                                sample_db))
          | None =>
              List.length (selected utc_host alice (QStr (js "2023-01-01"))
                             QUndefined sample_db)
          end.
Proof.
  split; [reflexivity|]. split; [reflexivity|]. split; [reflexivity|].
  exact (count_is_min_of_limit_and_matches utc_host hex_driver sample_db
           (toHexString 1) (QStr (js "2023-01-01")) QUndefined (QStr (js "9"))
               alice eq_refl).
Defined.

(** X10.  A limit written as the decimal numeral of [n], with [n]
    between 1 and [2^53 - 1], caps the log at exactly [n] entries. *)
Theorem decimal_limit_caps_the_log
    (h : host) (dr : driver) (s : db) (_id : jsstring) (from to : qvalue) (u :
        user)
    (n : Z) :
  user_of_path dr s _id = Some u ->
  1 <= n < 2 ^ 53 ->
  positive_limit (QStr (decimal n)) = Some (Z.to_nat n)
  /\ exists log : list log_entry,
       get_logs h dr _id from to (QStr (decimal n)) s =
         (Normal (json (LogBody (user_username u)
                          (Z.of_nat (List.length log)) (user_id u) log)), s)
       /\ List.length log =
          Nat.min (Z.to_nat n) (List.length (selected h u from to s)).
Proof.
  intros Hu Hn.
  assert (Hp : positive_limit (QStr (decimal n)) = Some (Z.to_nat n)).
  { apply positive_limit_of_Z; [exact Hn|]. apply parseInt_decimal. lia. }
  split; [exact Hp|].
  rewrite (get_logs_run h dr s _id from to _ u Hu), Hp. cbv zeta.
  eexists. split.
  - rewrite <- (length_map (view h)). reflexivity.
  - rewrite length_map, length_firstn.
    rewrite (Permutation_length (sort_by_date_Permutation _)). reflexivity.
Qed.

Lemma decimal_limit_caps_the_log_witness :
  user_of_path hex_driver sample_db (toHexString 1) = Some alice
  /\ decimal 3 = js "3"
  /\ positive_limit (QStr (decimal 3)) = Some (Z.to_nat 3)
  /\ exists log : list log_entry,
       get_logs utc_host hex_driver (toHexString 1) QUndefined QUndefined (QStr
           (decimal 3))
         sample_db =
         (Normal (json (LogBody (js "alice") (Z.of_nat (List.length log))
                          1 log)), sample_db)
       /\ List.length log =
          Nat.min (Z.to_nat 3)
            (List.length (selected utc_host alice QUndefined QUndefined
                            sample_db)).
Proof.
  split; [reflexivity|]. split; [reflexivity|].
  apply (decimal_limit_caps_the_log utc_host hex_driver sample_db
           (toHexString 1) QUndefined QUndefined alice 3 eq_refl).
  split; [lia|reflexivity].
Defined.

(** X11.  When [from] and [to] both parse and [to] is before [from], the
    log is empty and the count is zero; that is not an error. *)
Theorem inverted_range_is_empty
    (h : host) (dr : driver) (s : db) (_id : jsstring) (from to limit : qvalue)
        (u : user)
    (f t : Z) :
  user_of_path dr s _id = Some u ->
  bound h from = Some f ->
  bound h to = Some t ->
  t < f ->
  get_logs h dr _id from to limit s =
    (Normal (json (LogBody (user_username u) 0 (user_id u) [])), s).
Proof.
  intros Hu Hf Ht Hlt.
  rewrite (get_logs_run h dr s _id from to limit u Hu). cbv zeta.
  assert (E : selected h u from to s = []).
  { unfold selected. rewrite Hf, Ht.
    induction (exercises s) as [|e l IH]; [reflexivity|]. cbn [filter].
    rewrite IH. unfold in_window.
    destruct (Z.leb_spec f (ex_date e)), (Z.leb_spec (ex_date e) t);
      try lia; rewrite ?andb_false_r; reflexivity. }
  rewrite E. destruct (positive_limit limit) as [[|n]|]; reflexivity.
Qed.

Lemma inverted_range_is_empty_witness :
  user_of_path hex_driver sample_db (toHexString 1) = Some alice
  /\ get_logs utc_host hex_driver (toHexString 1) (QStr (js "2023-03-01"))
      (QStr (js "2023-01-01"))
       QUndefined sample_db =
     (Normal (json (LogBody (js "alice") 0 1 [])), sample_db).
Proof.
  split; [reflexivity|].
  apply (inverted_range_is_empty utc_host hex_driver sample_db
           (toHexString 1) (QStr (js "2023-03-01"))
           (QStr (js "2023-01-01")) QUndefined alice
           1677628800000 1672531200000);
    try reflexivity.
Defined.

(** ** The routes together *)

Lemma selected_with_exercise (h : host) (u : user) (from to : qvalue)
    (s : db) (userId : ObjectId) (desc : jsstring) (dur : number) (d : Z) :
  selected h u from to (with_exercise s userId desc dur d) =
  selected h u from to s
  ++ (if (userId =? user_id u)
         && in_window (bound h from) (bound h to) d
      then [{| ex_id := next_id s; ex_userId := userId;
               ex_description := desc; ex_duration := dur;
               ex_date := d |}]
      else []).
Proof.
  unfold selected, with_exercise. cbn [exercises].
  rewrite filter_app. cbn [filter ex_userId ex_date].
  destruct ((userId =? user_id u)
            && in_window (bound h from) (bound h to) d); reflexivity.
Qed.

(** X12.  An exercise that has just been logged is in the log of its
    user: read without filter or limit, the log has one entry more than
    before, and holds the description, duration and date string of the
    response to the [POST]. *)
Theorem logged_exercise_is_in_the_log
    (h : host) (dr : driver) (now : Z) (s s' : db) (_id : jsstring)
    (description duration date : value) (r : response) :
  post_exercises h dr now _id description duration date s = (Normal r, s') ->
  status r = 200 ->
  exists (i : ObjectId) (name day : jsstring) (dur : number)
         (desc : jsstring) (before after : list log_entry),
    castObjectId dr _id = Some i
    /\ body r = ExerciseBody i name day dur desc
    /\ get_logs h dr _id QUndefined QUndefined QUndefined s =
         (Normal (json (LogBody name (Z.of_nat (List.length before)) i
                          before)), s)
    /\ get_logs h dr _id QUndefined QUndefined QUndefined s' =
         (Normal (json (LogBody name (Z.of_nat (List.length after)) i
                          after)), s')
    /\ List.length after = S (List.length before)
    /\ In {| log_description := desc; log_duration := dur;
             log_date := day |} after.
Proof.
  intros Hrun Hst.
  destruct (post_exercises_ok h dr now s _id description duration date)
    as (r0 & s0 & Hrun0 & _ & _ & Hok).
  rewrite Hrun in Hrun0. inversion Hrun0; subst r0 s0. clear Hrun0.
  destruct (Hok Hst) as (u & desc & dur & d & Hu & _ & _ & -> & ->).
  destruct (user_of_path_cast dr s _id u Hu) as (Hid & _ & _).
  assert (Hu' : user_of_path dr (with_exercise s (user_id u) desc dur d) _id
                = Some u) by exact Hu.
  rewrite (get_logs_run h dr s _id _ _ _ u Hu).
  rewrite (get_logs_run h dr _ _id _ _ _ u Hu').
  change (positive_limit QUndefined) with (@None nat). cbv zeta.
  rewrite selected_with_exercise. rewrite Z.eqb_refl.
  change (bound h QUndefined) with (@None Z). cbn [in_window andb].
  set (ex := {| ex_id := next_id s; ex_userId := user_id u;
                ex_description := desc; ex_duration := dur;
                ex_date := d |}).
  set (old := selected h u QUndefined QUndefined s).
  exists (user_id u), (user_username u), (toFCCDateString h d), dur, desc,
         (map (view h) (sort_by_date old)),
         (map (view h) (sort_by_date (old ++ [ex]))).
  split; [exact Hid|].
  split; [reflexivity|].
  split; [rewrite length_map; reflexivity|].
  split; [rewrite length_map; reflexivity|]. split.
  - rewrite !length_map.
    rewrite !(Permutation_length (sort_by_date_Permutation _)).
    rewrite length_app. cbn [List.length]. lia.
  - change {| log_description := desc; log_duration := dur;
              log_date := toFCCDateString h d |} with (view h ex).
    apply in_map.
    apply (Permutation_in _ (Permutation_sym (sort_by_date_Permutation _))).
    apply in_or_app. right. left. reflexivity.
Qed.

Lemma logged_exercise_is_in_the_log_witness :
  exists (i : ObjectId) (name day : jsstring) (dur : number)
         (desc : jsstring) (before after : list log_entry),
    castObjectId hex_driver (toHexString 1) = Some i
    /\ body (json (ExerciseBody 1 (js "alice") (js "Thu Jan 01 1970")
                  (of_Z 30) (js "run"))) =
      ExerciseBody i name day dur desc
    /\ get_logs utc_host hex_driver (toHexString 1) QUndefined QUndefined
         QUndefined sample_db =
         (Normal (json (LogBody name (Z.of_nat (List.length before)) i
                          before)), sample_db)
    /\ get_logs utc_host hex_driver (toHexString 1) QUndefined QUndefined
         QUndefined (with_exercise sample_db 1 (js "run") (of_Z 30) 0) =
         (Normal (json (LogBody name (Z.of_nat (List.length after)) i
                          after)),
          with_exercise sample_db 1 (js "run") (of_Z 30) 0)
    /\ List.length after = S (List.length before)
    /\ In {| log_description := desc; log_duration := dur;
             log_date := day |} after.
Proof.
  apply (logged_exercise_is_in_the_log utc_host hex_driver 0 sample_db
           (with_exercise sample_db 1 (js "run") (of_Z 30) 0)
           (toHexString 1)
           (VStr (js "run")) (VStr (js "30")) VUndefined
           (json (ExerciseBody 1 (js "alice") (js "Thu Jan 01 1970")
                    (of_Z 30) (js "run")))).
  - vm_compute. reflexivity.
  - reflexivity.
Defined.

(** X13.  Logging an exercise for one user never shows in the log of
    another: when the paths [a] and [b] do not name the same identifier,
    the answer to [GET /api/users/b/logs] is the same before and after
    any [POST /api/users/a/exercises]. *)
Theorem logs_are_per_user
    (h : host) (dr : driver) (now : Z) (s : db) (a b : jsstring)
    (description duration date : value) (from to limit : qvalue) :
  castObjectId dr a <> castObjectId dr b ->
  fst (get_logs h dr b from to limit
         (snd (post_exercises h dr now a description duration date s)))
  = fst (get_logs h dr b from to limit s).
Proof.
  intros Hab.
  destruct (post_exercises_ok h dr now s a description duration date)
    as (r & s' & Hrun & Hst & Herr & Hok).
  rewrite Hrun. cbn [snd].
  assert (Hcase : status r = 200 \/ status r <> 200)
    by (destruct (Z.eq_dec (status r) 200); auto).
  destruct Hcase as [H200|Hn200]; [|rewrite (Herr Hn200); reflexivity].
  destruct (Hok H200) as (u & desc & dur & d & Hu & _ & _ & _ & ->).
  destruct (user_of_path_cast dr s a u Hu) as (Hid & _ & _).
  destruct (user_of_path_cases dr s b) as [[ub Hb]|[(i & Hc & Hn)|Hc]].
  - assert (Hb' : user_of_path dr (with_exercise s (user_id u) desc dur d) b
                  = Some ub) by exact Hb.
    destruct (user_of_path_cast dr s b ub Hb) as (Hidb & _ & _).
    rewrite (get_logs_run h dr s b from to limit ub Hb).
    rewrite (get_logs_run h dr _ b from to limit ub Hb'). cbv zeta.
    rewrite selected_with_exercise.
    destruct (Z.eqb_spec (user_id u) (user_id ub)) as [E|_]; [congruence|].
    cbn [andb]. rewrite app_nil_r. reflexivity.
  - assert (Hn' : user_by_id (with_exercise s (user_id u) desc dur d) i
                  = None) by exact Hn.
    rewrite (get_logs_unknown h dr s b from to limit i Hc Hn).
    rewrite (get_logs_unknown h dr _ b from to limit i Hc Hn').
    reflexivity.
  - rewrite !(get_logs_uncast h dr _ b from to limit Hc). reflexivity.
Qed.

Lemma logs_are_per_user_witness :
  castObjectId hex_driver (toHexString 7) = Some 7
  /\ castObjectId hex_driver (toHexString 1) = Some 1
  /\ post_exercises utc_host hex_driver 0 (toHexString 7) (VStr (js "run"))
       (VStr (js "30")) VUndefined (with_user sample_db (js "bob")) =
     (Normal (json (ExerciseBody 7 (js "bob") (js "Thu Jan 01 1970")
                      (of_Z 30) (js "run"))),
      with_exercise (with_user sample_db (js "bob")) 7 (js "run")
        (of_Z 30) 0)
  /\ fst (get_logs utc_host hex_driver (toHexString 1) QUndefined QUndefined
            QUndefined
            (snd (post_exercises utc_host hex_driver 0 (toHexString 7)
                    (VStr (js "run")) (VStr (js "30")) VUndefined
                    (with_user sample_db (js "bob")))))
     = fst (get_logs utc_host hex_driver (toHexString 1) QUndefined
              QUndefined QUndefined (with_user sample_db (js "bob"))).
Proof.
  split; [reflexivity|]. split; [reflexivity|].
  split; [vm_compute; reflexivity|].
  apply (logs_are_per_user utc_host hex_driver 0
           (with_user sample_db (js "bob")) (toHexString 7) (toHexString 1)).
  vm_compute. discriminate.
Defined.

(** ** The store stays consistent *)

Lemma well_formed_with_user (s : db) (name : jsstring) :
  well_formed s -> well_formed (with_user s name).
Proof.
  intros (Hnd & Hfresh & Hex). split; [|split].
  - unfold with_user. cbn [users]. rewrite map_app. cbn [map user_id].
    apply NoDup_app.
    + exact Hnd.
    + repeat constructor. intros [].
    + intros x Hx [Hx'|[]]. subst x.
      apply in_map_iff in Hx as (u & Hu & Hin).
      pose proof (proj1 (Forall_forall _ _) Hfresh u Hin) as Hlt.
      cbv beta in Hlt. lia.
  - apply fresh_ids_with_user, Hfresh.
  - unfold with_user. cbn [exercises users next_id].
    eapply Forall_impl; [|exact Hex]. cbv beta.
    intros e (Hlt & u & Hin & Hid). split; [lia|].
    exists u. split; [apply in_or_app; left; exact Hin|exact Hid].
Qed.

Lemma well_formed_with_exercise (s : db) (u : user) (desc : jsstring)
    (dur : number) (d : Z) :
  In u (users s) ->
  well_formed s -> well_formed (with_exercise s (user_id u) desc dur d).
Proof.
  intros Hin (Hnd & Hfresh & Hex). split; [exact Hnd|]. split.
  - apply fresh_ids_with_exercise, Hfresh.
  - unfold with_exercise. cbn [exercises users next_id].
    apply Forall_app. split.
    + eapply Forall_impl; [|exact Hex]. cbv beta.
      intros e (Hlt & v & Hv & Hid). split; [lia|]. exists v. auto.
    + repeat constructor; cbn [ex_id ex_userId]; [lia|].
      exists u. auto.
Qed.

(** X14.  The four routes keep the store consistent: the users keep
    distinct identifiers, every identifier handed out is below the next
    one, and every exercise belongs to a stored user.  The empty store is
    consistent. *)
Theorem routes_keep_the_store_well_formed (h : host) (dr : driver) (now : Z) (s
    : db) :
  well_formed empty_db
  /\ (well_formed s ->
      (forall username, well_formed (snd (post_users username s)))
      /\ (forall _id description duration date,
            well_formed
              (snd (post_exercises h dr now _id description duration date s)))
      /\ (forall _id from to limit,
            well_formed (snd (get_logs h dr _id from to limit s)))
      /\ well_formed (snd (get_users s))).
Proof.
  split.
  - repeat split; constructor.
  - intros Hwf. split; [|split; [|split]].
    + intros username.
      destruct (post_users_store username s) as [->|[name ->]];
        [exact Hwf|apply well_formed_with_user, Hwf].
    + intros _id description duration date.
      destruct (post_exercises_ok h dr now s _id description duration date)
        as (r & s' & Hrun & Hst & Herr & Hok).
      rewrite Hrun. cbn [snd].
      destruct (Z.eq_dec (status r) 200) as [H200|Hn200];
        [|rewrite (Herr Hn200); exact Hwf].
      destruct (Hok H200) as (u & desc & dur & d & Hu & _ & _ & _ & ->).
      apply well_formed_with_exercise; [|exact Hwf].
      apply (user_of_path_cast dr s _id u Hu).
    + intros _id from to limit.
      destruct (get_logs_ok h dr s _id from to limit) as (r & -> & _).
      exact Hwf.
    + exact Hwf.
Qed.

Lemma routes_keep_the_store_well_formed_witness :
  well_formed sample_db
  /\ well_formed (snd (post_users (VStr (js "bob")) sample_db))
  /\ well_formed
       (snd (post_exercises utc_host hex_driver 0 (toHexString 1) (VStr (js
           "run")) (VStr (js "30"))
               VUndefined sample_db)).
Proof.
  assert (Hwf : well_formed sample_db).
  { split; [|split].
    - repeat constructor. intros [].
    - repeat constructor.
    - repeat constructor; exists alice; split;
        try (left; reflexivity); reflexivity. }
  destruct (proj2 (routes_keep_the_store_well_formed utc_host hex_driver 0
      sample_db)
              Hwf) as (Husers & Hex & _).
  split; [exact Hwf|]. split; [apply Husers|apply Hex].
Defined.

Lemma find_by_unique_id (l : list user) (u : user) :
  NoDup (map user_id l) -> In u l ->
  find (fun x => user_id x =? user_id u) l = Some u.
Proof.
  induction l as [|x l IH]; intros Hnd Hin; [contradiction|].
  cbn [map] in Hnd. inversion Hnd as [|? ? Hnotin Hnd']; subst.
  cbn [find]. destruct Hin as [->|Hin].
  - rewrite Z.eqb_refl. reflexivity.
  - destruct (Z.eqb_spec (user_id x) (user_id u)) as [E|_].
    + exfalso. apply Hnotin. rewrite E. apply in_map. exact Hin.
    + apply IH; assumption.
Qed.

(** X15.  In a consistent store, the identifier answered by
    [POST /api/users] resolves to the user of the answer: the two other
    routes accept a path that names it, and the log of that user carries
    the name. *)
Theorem registered_id_resolves
    (h : host) (dr : driver) (username : value) (s s' : db) (r : response)
    (from to limit : qvalue) :
  well_formed s ->
  post_users username s = (Normal r, s') ->
  status r = 200 ->
  exists (n : jsstring) (i : ObjectId),
    body r = UserBody n i
    /\ user_by_id s' i = Some {| user_id := i; user_username := n |}
    /\ forall p : jsstring,
         castObjectId dr p = Some i ->
         user_of_path dr s' p = Some {| user_id := i; user_username := n |}
         /\ exists (count : Z) (log : list log_entry),
              get_logs h dr p from to limit s' =
                (Normal (json (LogBody n count i log)), s').
Proof.
  intros Hwf Hrun Hst.
  destruct (post_users_ok username s s' r Hrun Hst)
    as (name & i & _ & _ & -> & Hin & Hcase).
  assert (Hwf' : well_formed s').
  { destruct Hcase as [[-> _]|(_ & _ & ->)];
      [exact Hwf|apply well_formed_with_user, Hwf]. }
  assert (Hu : user_by_id s' i =
               Some {| user_id := i; user_username := trim name |}).
  { destruct Hwf' as (Hnd & _ & _).
    exact (find_by_unique_id (users s')
             {| user_id := i; user_username := trim name |} Hnd Hin). }
  exists (trim name), i. split; [reflexivity|]. split; [exact Hu|].
  intros p Hp.
  assert (Hpath : user_of_path dr s' p =
                  Some {| user_id := i; user_username := trim name |})
    by (unfold user_of_path; rewrite Hp; exact Hu).
  split; [exact Hpath|].
  rewrite (get_logs_run h dr s' p from to limit _ Hpath).
  cbv zeta. do 2 eexists. reflexivity.
Qed.

Lemma registered_id_resolves_witness :
  well_formed empty_db
  /\ castObjectId hex_driver (toHexString 1) = Some 1
  /\ exists (n : jsstring) (count : Z) (log : list log_entry),
       body (json (UserBody (js "bob") 1)) = UserBody n 1
       /\ user_of_path hex_driver (with_user empty_db (js "bob"))
            (toHexString 1) = Some {| user_id := 1; user_username := n |}
       /\ get_logs utc_host hex_driver (toHexString 1) QUndefined QUndefined
            QUndefined (with_user empty_db (js "bob")) =
            (Normal (json (LogBody n count 1 log)),
             with_user empty_db (js "bob")).
Proof.
  assert (Hwf : well_formed empty_db) by (repeat split; constructor).
  split; [exact Hwf|]. split; [reflexivity|].
  destruct (registered_id_resolves utc_host hex_driver (VStr (js "bob"))
              empty_db (with_user empty_db (js "bob"))
              (json (UserBody (js "bob") 1))
              QUndefined QUndefined QUndefined Hwf)
    as (n & i & Hbody & _ & Hp).
  - vm_compute. reflexivity.
  - reflexivity.
  - assert (Hi : 1 = i) by (cbn [body json] in Hbody; congruence).
    destruct Hi.
    destruct (Hp (toHexString 1) eq_refl) as (Hpath & count & log & Hrun).
    exists n, count, log.
    split; [exact Hbody|]. split; [exact Hpath|exact Hrun].
Defined.

(** X16.  In a consistent store, the log of a user who has just been
    created is empty, whatever the filter and the limit. *)
Theorem new_user_has_empty_log
    (h : host) (dr : driver) (s : db) (name p : jsstring)
    (from to limit : qvalue) :
  well_formed s ->
  trim name <> [] ->
  user_by_name s (trim name) = None ->
  castObjectId dr p = Some (next_id s) ->
  post_users (VStr name) s =
    (Normal (json (UserBody (trim name) (next_id s))),
     with_user s (trim name))
  /\ get_logs h dr p from to limit (with_user s (trim name)) =
       (Normal (json (LogBody (trim name) 0 (next_id s) [])),
        with_user s (trim name)).
Proof.
  intros Hwf Hne Hnew Hp.
  assert (Hrun : post_users (VStr name) s =
                 (Normal (json (UserBody (trim name) (next_id s))),
                  with_user s (trim name)))
    by (rewrite (post_users_run s name Hne), Hnew; reflexivity).
  split; [exact Hrun|].
  set (nu := {| user_id := next_id s; user_username := trim name |}).
  assert (Hu : user_of_path dr (with_user s (trim name)) p = Some nu).
  { unfold user_of_path. rewrite Hp.
    destruct (well_formed_with_user s (trim name) Hwf) as (Hnd & _ & _).
    apply (find_by_unique_id _ nu Hnd).
    unfold with_user. cbn [users]. apply in_or_app. right. left.
    reflexivity. }
  rewrite (get_logs_run h dr _ p from to limit nu Hu). cbv zeta.
  assert (E : selected h nu from to (with_user s (trim name)) = []).
  { unfold selected, with_user. cbn [exercises user_id nu].
    destruct Hwf as (_ & Hfresh & Hex).
    induction Hex as [|e l (_ & v & Hv & Hid) _ IH]; [reflexivity|].
    cbn [filter].
    pose proof (proj1 (Forall_forall _ _) Hfresh v Hv) as Hlt.
    cbv beta in Hlt.
    destruct (Z.eqb_spec (ex_userId e) (next_id s)) as [E|_]; [lia|].
    cbn [andb]. exact IH. }
  rewrite E. destruct (positive_limit limit) as [[|n]|]; reflexivity.
Qed.

Lemma new_user_has_empty_log_witness :
  well_formed sample_db
  /\ user_by_name sample_db (trim (js "bob")) = None
  /\ castObjectId hex_driver (toHexString 7) = Some (next_id sample_db)
  /\ get_logs utc_host hex_driver (toHexString 7) QUndefined QUndefined
       QUndefined (with_user sample_db (trim (js "bob"))) =
     (Normal (json (LogBody (trim (js "bob")) 0 (next_id sample_db) [])),
      with_user sample_db (trim (js "bob"))).
Proof.
  assert (Hwf : well_formed sample_db).
  { split; [|split].
    - repeat constructor. intros [].
    - repeat constructor.
    - repeat constructor; exists alice; split;
        try (left; reflexivity); reflexivity. }
  split; [exact Hwf|]. split; [reflexivity|]. split; [reflexivity|].
  apply (new_user_has_empty_log utc_host hex_driver sample_db (js "bob")
           (toHexString 7) QUndefined QUndefined QUndefined Hwf).
  - vm_compute. discriminate.
  - reflexivity.
  - reflexivity.
Defined.

(** ** Dates and numbers through the routes *)

Lemma days_in_month_le (y m : Z) : days_in_month y m <= 31.
Proof.
  unfold days_in_month.
  repeat match goal with
         | |- context [match ?x with _ => _ end] => destruct x
         end; lia.
Qed.

(** X17.  A date given as [YYYY-MM-DD], for any day of the calendar in
    the years 0 to 9999, is stored as midnight UTC of that day; on a
    server whose zone is at or ahead of UTC (by less than a day) at that
    instant, the date string of the response names the same day, month
    and year, with the very digits of the request. *)
Theorem iso_date_is_echoed
    (h : host) (dr : driver) (now : Z) (s : db) (_id : jsstring)
    (description : jsstring) (duration : value) (u : user) (dur : number)
    (y m d : Z) :
  user_of_path dr s _id = Some u ->
  Number duration = Normal dur ->
  ToBoolean (VNum dur) = true ->
  description <> [] ->
  0 <= y <= 9999 ->
  1 <= m <= 12 ->
  1 <= d <= days_in_month y m ->
  0 <= LocalTZA h (MakeDate (MakeDay y (m - 1) d) 0) true < msPerDay ->
  let t := MakeDate (MakeDay y (m - 1) d) 0 in
  parse h (iso_date y m d) = Some t
  /\ post_exercises h dr now _id (VStr description) duration
       (VStr (iso_date y m d)) s =
     (Normal (json (ExerciseBody (user_id u) (user_username u)
                      (weekday_name (WeekDay t) ++ js " "
                       ++ month_name (m - 1) ++ js " "
                       ++ ToZeroPaddedDecimalString d 2 ++ js " "
                       ++ ToZeroPaddedDecimalString y 4)
                      dur (trim description))),
      with_exercise s (user_id u) (trim description) dur t).
Proof.
  intros Hu Hd Hdur Hdesc Hy Hm Hday Hz t.
  assert (Hp : parse h (iso_date y m d) = Some t).
  { apply parse_iso_date; try assumption.
    pose proof (days_in_month_le y m). lia. }
  split; [exact Hp|].
  rewrite (post_exercises_run h dr now s _id _ _ _ u Hu), Hd, Hdur.
  apply ToBoolean_string in Hdesc. rewrite Hdesc.
  assert (Hb : ToBoolean (VStr (iso_date y m d)) = true).
  { apply ToBoolean_string. unfold iso_date. intros H.
    apply app_eq_nil in H as [H _].
    exact (proj2 (ToZeroPaddedDecimalString_digits y 4) H). }
  rewrite Hb. cbn [negb orb construct call_trim]. rewrite Hp.
  destruct (Day_MakeDate (MakeDay y (m - 1) d)) as [HD H0]. fold t in HD, H0.
  assert (HDl : Day (LocalTime h t) = MakeDay y (m - 1) d)
    by (rewrite (local_day_east h t H0 Hz); exact HD).
  unfold toFCCDateString, toDateString.
  rewrite (DateString_calendar y m d (LocalTime h t)) by (assumption || lia).
  unfold WeekDay. rewrite HDl, HD. reflexivity.
Qed.

Lemma iso_date_is_echoed_witness :
  iso_date 2024 2 29 = js "2024-02-29"
  /\ post_exercises (fixed_offset_host 120) hex_driver 0 (toHexString 1) (VStr
      (js "run"))
       (VStr (js "30")) (VStr (iso_date 2024 2 29)) sample_db =
     (Normal (json (ExerciseBody 1 (js "alice")
                      (weekday_name
                         (WeekDay (MakeDate (MakeDay 2024 (2 - 1) 29) 0))
                       ++ js " " ++ month_name (2 - 1) ++ js " "
                       ++ ToZeroPaddedDecimalString 29 2 ++ js " "
                       ++ ToZeroPaddedDecimalString 2024 4)
                      (of_Z 30) (trim (js "run")))),
      with_exercise sample_db 1 (trim (js "run")) (of_Z 30)
        (MakeDate (MakeDay 2024 (2 - 1) 29) 0))
  /\ weekday_name (WeekDay (MakeDate (MakeDay 2024 (2 - 1) 29) 0))
     ++ js " " ++ month_name (2 - 1) ++ js " "
     ++ ToZeroPaddedDecimalString 29 2 ++ js " "
     ++ ToZeroPaddedDecimalString 2024 4 = js "Thu Feb 29 2024".
Proof.
  split; [reflexivity|]. split; [|reflexivity].
  apply (iso_date_is_echoed (fixed_offset_host 120) hex_driver 0 sample_db
           (toHexString 1) (js "run")
           (VStr (js "30")) alice (of_Z 30) 2024 2 29);
    try reflexivity; try discriminate;
    vm_compute; split; first [reflexivity | intros H; discriminate H].
Defined.

(** X18.  On a server whose zone is behind UTC (by a day at most) the
    same request is answered with the date string of the day before:
    a date given as [YYYY-MM-DD] is never rendered as that day there. *)
Theorem iso_date_west_of_utc
    (h : host) (dr : driver) (now : Z) (s : db) (_id : jsstring)
    (description : jsstring) (duration : value) (u : user) (dur : number)
    (y m d : Z) :
  user_of_path dr s _id = Some u ->
  Number duration = Normal dur ->
  ToBoolean (VNum dur) = true ->
  description <> [] ->
  0 <= y <= 9999 ->
  1 <= m <= 12 ->
  1 <= d <= days_in_month y m ->
  - msPerDay <= LocalTZA h (MakeDate (MakeDay y (m - 1) d) 0) true < 0 ->
  let t := MakeDate (MakeDay y (m - 1) d) 0 in
  fst (post_exercises h dr now _id (VStr description) duration
         (VStr (iso_date y m d)) s) =
    Normal (json (ExerciseBody (user_id u) (user_username u)
                    (toFCCDateString utc_host (t - msPerDay))
                    dur (trim description)))
  /\ Day (LocalTime h t) = MakeDay y (m - 1) d - 1.
Proof.
  intros Hu Hd Hdur Hdesc Hy Hm Hday Hz t.
  assert (Hp : parse h (iso_date y m d) = Some t).
  { apply parse_iso_date; try assumption.
    pose proof (days_in_month_le y m). lia. }
  destruct (Day_MakeDate (MakeDay y (m - 1) d)) as [HD H0]. fold t in HD, H0.
  assert (HDl : Day (LocalTime h t) = MakeDay y (m - 1) d - 1)
    by (rewrite (local_day_west h t H0 Hz), HD; reflexivity).
  split; [|exact HDl].
  rewrite (post_exercises_run h dr now s _id _ _ _ u Hu), Hd, Hdur.
  apply ToBoolean_string in Hdesc. rewrite Hdesc.
  assert (Hb : ToBoolean (VStr (iso_date y m d)) = true).
  { apply ToBoolean_string. unfold iso_date. intros H.
    apply app_eq_nil in H as [H _].
    exact (proj2 (ToZeroPaddedDecimalString_digits y 4) H). }
  rewrite Hb. cbn [negb orb construct call_trim fst]. rewrite Hp.
  cbn [fst]. unfold toFCCDateString, toDateString.
  rewrite (DateString_Day (LocalTime h t) (LocalTime utc_host (t - msPerDay)));
    [reflexivity|].
  rewrite HDl. unfold LocalTime. cbn [LocalTZA utc_host].
  rewrite Z.add_0_r. rewrite <- HD.
  unfold Day, msPerDay. Z.div_mod_to_equations. lia.
Qed.

Lemma iso_date_west_of_utc_witness :
  fst (post_exercises (fixed_offset_host (-480)) hex_driver 0 (toHexString 1)
      (VStr (js "run"))
         (VStr (js "30")) (VStr (iso_date 2024 3 1)) sample_db) =
    Normal (json (ExerciseBody 1 (js "alice")
                    (toFCCDateString utc_host
                       (MakeDate (MakeDay 2024 (3 - 1) 1) 0 - msPerDay))
                    (of_Z 30) (trim (js "run"))))
  /\ toFCCDateString utc_host
       (MakeDate (MakeDay 2024 (3 - 1) 1) 0 - msPerDay) =
     js "Thu Feb 29 2024".
Proof.
  split; [|reflexivity].
  apply (iso_date_west_of_utc (fixed_offset_host (-480)) hex_driver 0
           sample_db (toHexString 1)
           (js "run") (VStr (js "30")) alice (of_Z 30) 2024 3 1);
    try reflexivity; try discriminate;
    vm_compute; split; first [reflexivity | intros H; discriminate H].
Defined.

(** X19.  A duration written as the decimal numeral of [n], with [n]
    between 1 and [2^53 - 1], passes the validation and is stored and
    answered as the Number [n], exactly. *)
Theorem decimal_duration_is_exact
    (h : host) (dr : driver) (now : Z) (s : db) (_id : jsstring)
    (description : jsstring) (u : user) (n : Z) :
  user_of_path dr s _id = Some u ->
  description <> [] ->
  1 <= n < 2 ^ 53 ->
  Number (VStr (decimal n)) = Normal (of_Z n)
  /\ (exists m e, of_Z n = Finite false m e /\ truncate false m e = n)
  /\ post_exercises h dr now _id (VStr description) (VStr (decimal n))
       VUndefined s =
     (Normal (json (ExerciseBody (user_id u) (user_username u)
                      (toFCCDateString h now) (of_Z n) (trim description))),
      with_exercise s (user_id u) (trim description) (of_Z n) now).
Proof.
  intros Hu Hdesc Hn.
  assert (HN : Number (VStr (decimal n)) = Normal (of_Z n))
    by (apply Number_decimal; lia).
  assert (Hex : exists m e, of_Z n = Finite false m e
                            /\ truncate false m e = n).
  { rewrite of_Z_nonneg by lia. apply to_binary64_exact, Hn. }
  split; [exact HN|]. split; [exact Hex|].
  rewrite (post_exercises_run h dr now s _id _ _ _ u Hu), HN.
  destruct Hex as (m & e & -> & _).
  apply ToBoolean_string in Hdesc. rewrite Hdesc. reflexivity.
Qed.

Lemma decimal_duration_is_exact_witness :
  decimal 45 = js "45"
  /\ Number (VStr (decimal 45)) = Normal (of_Z 45)
  /\ post_exercises utc_host hex_driver 0 (toHexString 1) (VStr (js "swim"))
      (VStr (decimal 45))
       VUndefined sample_db =
     (Normal (json (ExerciseBody 1 (js "alice") (toFCCDateString utc_host 0)
                      (of_Z 45) (trim (js "swim")))),
      with_exercise sample_db 1 (trim (js "swim")) (of_Z 45) 0).
Proof.
  split; [reflexivity|].
  destruct (decimal_duration_is_exact utc_host hex_driver 0 sample_db
              (toHexString 1) (js "swim") alice 45 eq_refl) as (HN & _ & Hrun).
  - discriminate.
  - split; [lia|reflexivity].
  - split; [exact HN|exact Hrun].
Defined.

(** X20.  The port is never [NaN] and never zero: it is 3000 when [PORT]
    is not set or converts to [NaN] or zero, and the Number [n] when
    [PORT] is the decimal numeral of [n], [n] between 1 and
    [2^53 - 1]. *)
Theorem port_falls_back_to_3000 (PORT : option jsstring) :
  ToBoolean (VNum (port PORT)) = true
  /\ port None = of_Z 3000
  /\ (forall s, PORT = Some s ->
        ToBoolean (VNum (StringToNumber s)) = false ->
        port PORT = of_Z 3000)
  /\ (forall n, 1 <= n < 2 ^ 53 -> port (Some (decimal n)) = of_Z n).
Proof.
  split; [|split; [reflexivity|split]].
  - unfold port.
    destruct (ToBoolean (VNum match PORT with
                              | Some s => StringToNumber s
                              | None => NaN
                              end)) eqn:E; [exact E|reflexivity].
  - intros s -> Hs. unfold port. rewrite Hs. reflexivity.
  - intros n Hn. unfold port.
    pose proof (Number_decimal n ltac:(lia)) as HN. cbn [Number] in HN.
    inversion HN as [HS]. rewrite HS.
    destruct (to_binary64_exact false n Hn) as (m & e & Hm & _).
    rewrite <- of_Z_nonneg in Hm by lia. rewrite Hm. reflexivity.
Qed.

Lemma port_falls_back_to_3000_witness :
  port (Some (js "")) = of_Z 3000
  /\ port (Some (js "eighty")) = of_Z 3000
  /\ port (Some (decimal 8080)) = of_Z 8080.
Proof.
  split; [|split].
  - destruct (port_falls_back_to_3000 (Some (js ""))) as (_ & _ & H & _).
    apply (H (js "")); reflexivity.
  - destruct (port_falls_back_to_3000 (Some (js "eighty")))
      as (_ & _ & H & _).
    apply (H (js "eighty")); reflexivity.
  - destruct (port_falls_back_to_3000 None) as (_ & _ & _ & H).
    apply (H 8080). split; [lia|reflexivity].
Defined.

Lemma digit_of_other (c : Z) : ~ is_decimal_digit c -> digit_of 10 c = None.
Proof.
  unfold is_decimal_digit, digit_of. intros Hc.
  destruct (Z.leb_spec 48 c), (Z.leb_spec c 57); cbn [andb]; try lia;
    destruct (Z.leb_spec 97 c), (Z.leb_spec c 122); cbn [andb];
    destruct (Z.leb_spec 65 c), (Z.leb_spec c 90); cbn [andb];
    match goal with
    | |- (if ?a <? ?b then _ else _) = _ => destruct (Z.ltb_spec a b)
    end; try reflexivity; lia.
Qed.

Lemma span_digits_prefix (ds : jsstring) (c : Z) (rest : jsstring) :
  Forall is_decimal_digit ds ->
  ~ is_decimal_digit c ->
  forall acc len,
    span_digits 10 (ds ++ c :: rest) acc len =
    (digits_value ds acc, len + Z.of_nat (List.length ds), c :: rest).
Proof.
  intros Hds Hc.
  induction Hds as [|x ds Hx Hds IH]; intros acc len; cbn [app span_digits].
  - rewrite (digit_of_other c Hc). cbn [List.length].
    rewrite Z.add_0_r. reflexivity.
  - rewrite (digit_of_decimal x Hx), IH. cbn [List.length].
    unfold digits_value. cbn [fold_left]. do 2 f_equal. lia.
Qed.

(** X21.  A limit that starts with the decimal numeral of [n] and goes on
    with anything that is not a digit (as in [10abc] or [2.9]) is read as
    [n]: what follows the numeral is ignored, and the log is the one for
    the limit [n]. *)
Theorem limit_reads_leading_numeral
    (h : host) (dr : driver) (s : db) (_id : jsstring) (from to : qvalue)
    (n c : Z) (rest : jsstring) :
  1 <= n < 2 ^ 53 ->
  ~ is_decimal_digit c ->
  positive_limit (QStr (decimal n ++ c :: rest)) = Some (Z.to_nat n)
  /\ get_logs h dr _id from to (QStr (decimal n ++ c :: rest)) s =
     get_logs h dr _id from to (QStr (decimal n)) s.
Proof.
  intros Hn Hc.
  destruct (ToZeroPaddedDecimalString_digits n 1) as [Hd Hne].
  fold (decimal n) in Hd, Hne.
  assert (Hp : parseInt (QStr (decimal n ++ c :: rest)) = of_Z n).
  { cbn [parseInt]. unfold parseInt10.
    destruct (digits_hd_last (decimal n) Hd Hne) as [Hh _].
    assert (Hhd : hd 0 (decimal n ++ c :: rest) = hd 0 (decimal n))
      by (destruct (decimal n); [contradiction|reflexivity]).
    rewrite trimStart_fixed
      by (rewrite Hhd; apply digit_not_white_space, Hh).
    assert (Hs : read_sign (decimal n ++ c :: rest) =
                 (false, decimal n ++ c :: rest)).
    { destruct (decimal n) as [|x r] eqn:E; [contradiction|].
      inversion Hd as [|? ? [H1 H2] _]; subst. cbn [app].
      unfold read_sign, is_sign.
      destruct (Z.eqb_spec x 43); [lia|]. destruct (Z.eqb_spec x 45); [lia|].
      reflexivity. }
    rewrite Hs, (span_digits_prefix _ c rest Hd Hc).
    assert (Hlen : 0 < Z.of_nat (List.length (decimal n)))
      by (destruct (decimal n); [contradiction|cbn [List.length]; lia]).
    destruct (Z.eqb_spec (0 + Z.of_nat (List.length (decimal n))) 0); [lia|].
    unfold decimal. rewrite ToZeroPaddedDecimalString_value by lia.
    rewrite of_Z_nonneg by lia. reflexivity. }
  assert (Hl : positive_limit (QStr (decimal n ++ c :: rest)) =
               Some (Z.to_nat n))
    by (apply positive_limit_of_Z; assumption).
  assert (Hl' : positive_limit (QStr (decimal n)) = Some (Z.to_nat n))
    by (apply positive_limit_of_Z; [exact Hn|apply parseInt_decimal; lia]).
  split; [exact Hl|].
  destruct (user_of_path_cases dr s _id) as [[u Hu]|[(i & Hi & Hno)|Hi]].
  - rewrite !(get_logs_run h dr s _id from to _ u Hu), Hl, Hl'. reflexivity.
  - rewrite !(get_logs_unknown h dr s _id from to _ i Hi Hno). reflexivity.
  - rewrite !(get_logs_uncast h dr s _id from to _ Hi). reflexivity.
Qed.

Lemma limit_reads_leading_numeral_witness :
  decimal 2 ++ 46 :: js "9" = js "2.9"
  /\ positive_limit (QStr (decimal 2 ++ 46 :: js "9")) = Some (Z.to_nat 2)
  /\ get_logs utc_host hex_driver (toHexString 1) QUndefined QUndefined
       (QStr (decimal 2 ++ 46 :: js "9")) sample_db =
     get_logs utc_host hex_driver (toHexString 1) QUndefined QUndefined (QStr
         (decimal 2)) sample_db.
Proof.
  split; [reflexivity|].
  apply (limit_reads_leading_numeral utc_host hex_driver sample_db
           (toHexString 1) QUndefined QUndefined 2 46 (js "9")).
  - split; [lia|reflexivity].
  - unfold is_decimal_digit. lia.
Defined.
